(** * Upstox trading agent: risk policy and decision-cycle orchestration

    A shallow embedding of [risk_manager.py] (class [RiskManager]) and of
    the decision cycle of [trading_agent.py] (class [TradingAgent]),
    together with the properties the specification states about them.

    Modelling conventions
    - Python numbers ([int], [float], [bool] used as a number) are exact
      rationals [Q]; the counter [trades_today] is an [int] and is a [Z].
      Rounding, infinities and NaN of binary floating point are outside
      the model.
    - JSON objects handed around as [dict] are [gmap string pyval].
    - A Python exception is a value of [exn]; a call that may raise
      returns a [result].
    - Calls to [logger] have no effect on any state modelled here and are
      left out. *)

From Stdlib Require Import QArith Qround ZArith String Bool Lia.
From stdpp Require Import base option list gmap strings.

Local Open Scope Z_scope.
Local Open Scope string_scope.

(** ** Python values and exceptions *)

Module Py.

(** The JSON values that occur as fields of a decision. Of a nested
    array or object (such as [cost_info]) only its emptiness matters to
    the code modelled here. *)
Inductive pyval : Type :=
| PyNone
| PyBool (b : bool)
| PyNum (q : Q)
| PyStr (s : string)
| PyContainer (empty : bool).

Inductive exn : Type :=
| TypeError
| KeyError (key : string)
| AttributeError
| ValueError
| SystemExit.

Inductive result (A : Type) : Type :=
| Ok (a : A)
| Raise (e : exn).
Arguments Ok {A} a.
Arguments Raise {A} e.

(** [bool] is a subclass of [int]: [True] is 1 and [False] is 0. *)
Definition as_number (v : pyval) : option Q :=
  match v with
  | PyNum q => Some q
  | PyBool b => Some (if b then 1%Q else 0%Q)
  | PyNone | PyStr _ | PyContainer _ => None
  end.

Definition Qlt_bool (a b : Q) : bool := negb (Qle_bool b a).

(** [a == s] for a string literal [s]: only a [str] with the same
    characters is equal to it. *)
Definition py_eq_str (a : pyval) (s : string) : bool :=
  match a with
  | PyStr t => String.eqb t s
  | PyNone | PyBool _ | PyNum _ | PyContainer _ => false
  end.

(** [a < b] with a numeric right operand: [None] stands for the
    [TypeError] Python raises when [a] is not a number. *)
Definition py_lt_num (a : pyval) (b : Q) : option bool :=
  match as_number a with
  | Some x => Some (Qlt_bool x b)
  | None => None
  end.

(** Truth value of a scalar, as tested by [if v:]. *)
Definition truthy (v : pyval) : bool :=
  match v with
  | PyNone => false
  | PyBool b => b
  | PyNum q => negb (Qeq_bool q 0)
  | PyStr s => negb (String.eqb s "")
  | PyContainer empty => negb empty
  end.

(** [a or b]. *)
Definition py_or (a b : pyval) : pyval := if truthy a then a else b.

(** [d.get(key, default)]: the default is used only when the key is
    absent, not when it is present with value [None]. *)
Definition dict_get (d : gmap string pyval) (key : string) (default : pyval)
  : pyval :=
  match d !! key with
  | Some v => v
  | None => default
  end.

(** [a // b] on numbers, then [int(...)]: the floor of the exact
    quotient. [Z.div] rounds towards minus infinity. *)
Definition py_floordiv (a b : Q) : Z :=
  (Qnum a * Zpos (Qden b)) / (Qnum b * Zpos (Qden a)).

End Py.
Import Py.

(** ** [risk_manager.py] *)

Module RiskManager.

(** The attributes [__init__] sets on [self]: the configured limits
    and the three pieces of daily state. *)
Record t : Type := Build {
  max_position_size : Q;
  stop_loss_pct : Q;
  take_profit_pct : Q;
  min_confidence_threshold : Q;
  max_trades_per_day : Z;
  max_daily_loss_pct : Q;
  leverage_on_intraday : Q;
  trades_today : Z;
  daily_pnl : Q;
  is_trading_halted : bool
}.

Definition set_trades_today (self : t) (n : Z) : t :=
  Build (max_position_size self) (stop_loss_pct self) (take_profit_pct self)
    (min_confidence_threshold self) (max_trades_per_day self)
    (max_daily_loss_pct self) (leverage_on_intraday self)
    n (daily_pnl self) (is_trading_halted self).

Definition set_daily_pnl (self : t) (p : Q) : t :=
  Build (max_position_size self) (stop_loss_pct self) (take_profit_pct self)
    (min_confidence_threshold self) (max_trades_per_day self)
    (max_daily_loss_pct self) (leverage_on_intraday self)
    (trades_today self) p (is_trading_halted self).

Definition set_is_trading_halted (self : t) (b : bool) : t :=
  Build (max_position_size self) (stop_loss_pct self) (take_profit_pct self)
    (min_confidence_threshold self) (max_trades_per_day self)
    (max_daily_loss_pct self) (leverage_on_intraday self)
    (trades_today self) (daily_pnl self) b.

(** [__init__] with the defaults of [config.get]: a fresh manager has
    made no trade, has no P&L and is not halted. *)
Definition init (max_position_size stop_loss_pct take_profit_pct
                 min_confidence_threshold : Q) (max_trades_per_day : Z)
                (max_daily_loss_pct leverage_on_intraday : Q) : t :=
  Build max_position_size stop_loss_pct take_profit_pct
    min_confidence_threshold max_trades_per_day max_daily_loss_pct
    leverage_on_intraday 0 0%Q false.

(** [validate_decision(self, llm_decision, portfolio, current_price)].
    The result carries the verdict and the manager after the call. *)
Definition validate_decision (self : t)
    (llm_decision portfolio : gmap string pyval) (current_price : pyval)
  : result (bool * t) :=
  let action := dict_get llm_decision "action" PyNone in
  let confidence := dict_get llm_decision "confidence_score" (PyNum 0) in
  let quantity := dict_get llm_decision "quantity" (PyNum 0) in
  let available_margin := dict_get portfolio "available_margin" (PyNum 0) in
  (* Rule 0: On 'HOLD' *)
  if py_eq_str action "HOLD" then Ok (false, self)
  (* Rule 1: trading halted *)
  else if is_trading_halted self then Ok (false, self)
  (* Rule 2: max trades for the day *)
  else if trades_today self >=? max_trades_per_day self then Ok (false, self)
  (* Rule 3: confidence score *)
  else match py_lt_num confidence (min_confidence_threshold self) with
       | None => Raise TypeError
       | Some true => Ok (false, self)
       | Some false =>
           if py_eq_str action "SELL" then Ok (true, self)
           else Ok (true, set_trades_today self (trades_today self + 1))
       end.

(** [calculate_quantity(self, price)]. *)
Definition calculate_quantity (self : t) (price : Q) : Z * t :=
  if Qle_bool price 0 then (0, self)
  else (py_floordiv (max_position_size self) price, self).

(** [update_pnl(self, pnl, starting_capital)]. *)
Definition update_pnl (self : t) (pnl starting_capital : Q) : t :=
  let self := set_daily_pnl self (daily_pnl self + pnl)%Q in
  let max_loss_amount := (starting_capital * max_daily_loss_pct self)%Q in
  if Qlt_bool (daily_pnl self) (- max_loss_amount)%Q
  then set_is_trading_halted self true
  else self.

(** The fields of a proposal that [validate_decision] reads. *)
Definition action_of (d : gmap string pyval) : pyval :=
  dict_get d "action" PyNone.

Definition confidence_of (d : gmap string pyval) : pyval :=
  dict_get d "confidence_score" (PyNum 0).

(** A history of the manager: the calls made on it, oldest first. A
    call that raises leaves the manager as it was. *)
Inductive call : Type :=
| CallValidateDecision (llm_decision portfolio : gmap string pyval)
    (current_price : pyval)
| CallCalculateQuantity (price : Q)
| CallUpdatePnl (pnl starting_capital : Q).

Definition run_call (self : t) (c : call) : t :=
  match c with
  | CallValidateDecision d p cp =>
      match validate_decision self d p cp with
      | Ok (_, self') => self'
      | Raise _ => self
      end
  | CallCalculateQuantity price => snd (calculate_quantity self price)
  | CallUpdatePnl pnl starting_capital => update_pnl self pnl starting_capital
  end.

Definition run_calls (self : t) (history : list call) : t :=
  foldl run_call self history.

End RiskManager.

(** ** [trading_agent.py] *)

Module TradingAgent.

(** A row of the instrument table: [instrument_key], [trading_symbol]
    and [name] are the columns [fetch_all_nse_instruments] keeps. *)
Record Instrument : Type := {
  instrument_key : string;
  trading_symbol : string;
  name : string
}.

(** A position as the brokerage reports it. *)
Record Position : Type := {
  instrument_token : string;
  quantity : Z;
  product : string
}.

(** An authenticated [UpstoxClient]: the instrument table is fetched
    once, in [__init__]. *)
Record UpstoxClient : Type := {
  user_name : string;
  nse_instruments : list Instrument
}.

(** What [get_instrument_info_from_instrument_key] and
    [get_instrument_info_from_stock] return: [None], the empty dict, or
    the first matching row as a dict. *)
Inductive instrument_info : Type :=
| InfoNone
| InfoEmpty
| InfoRow (row : Instrument).

(** [if instrument_to_trade:] — a row has three keys and is truthy. *)
Definition info_row (i : instrument_info) : option Instrument :=
  match i with
  | InfoRow row => Some row
  | InfoNone | InfoEmpty => None
  end.

Definition get_instrument_info_from_instrument_key
    (c : UpstoxClient) (key : string) : instrument_info :=
  match nse_instruments c with
  | [] => InfoEmpty
  | _ =>
      match filter (fun row => instrument_key row = key) (nse_instruments c) with
      | [] => InfoNone
      | row :: _ => InfoRow row
      end
  end.

(** What [get_instruments_to_trade] hands back: the list built by
    [auto_pick_instrument_to_trade], or the single dict of
    [get_instrument_info_from_stock]. *)
Inductive instruments_value : Type :=
| InstrList (l : list Instrument)
| InstrInfo (i : instrument_info).

(** An insertion-ordered [dict] keyed by strings: assigning to a key
    that is present replaces its value in place, a new key goes last. *)
Fixpoint odict_set {V : Type} (d : list (string * V)) (k : string) (v : V)
  : list (string * V) :=
  match d with
  | [] => [(k, v)]
  | (k', v') :: d' =>
      if String.eqb k' k then (k, v) :: d' else (k', v') :: odict_set d' k v
  end.

Definition odict_keys {V : Type} (d : list (string * V)) : list string :=
  map fst d.

(** The [Timer] object held in [decision_timer]. *)
Inductive timer : Type :=
| TimerPending
| TimerFired
| TimerCancelled.

(** [Timer.cancel()] only matters to a timer that has not fired. *)
Definition cancel (tm : timer) : timer :=
  match tm with
  | TimerPending => TimerCancelled
  | TimerFired => TimerFired
  | TimerCancelled => TimerCancelled
  end.

(** Calls to the collaborators, in the order they are made. *)
Inductive event : Type :=
| EvFundMargin (c : UpstoxClient)
| EvGetPositions (c : UpstoxClient)
| EvAutoPickInstrumentToTrade
| EvGetInstrumentInfoFromStock
| EvFullMarketQuote (c : UpstoxClient) (key : string)
| EvGenerateDecision (key : string) (position_present : bool)
| EvSaveLlmDecision
| EvPlaceOrder (c : UpstoxClient) (key quantity : pyval) (side : string)
    (order_type price stop_loss take_profit : pyval)
| EvExitAllPositions (c : UpstoxClient)
| EvTimerStart (interval : Z).

Definition is_timer_start (e : event) : bool :=
  match e with EvTimerStart _ => true | _ => false end.

Definition is_place_order (e : event) : bool :=
  match e with EvPlaceOrder _ _ _ _ _ _ _ _ => true | _ => false end.

Definition is_candidate_selection (e : event) : bool :=
  match e with
  | EvAutoPickInstrumentToTrade | EvGetInstrumentInfoFromStock => true
  | _ => false
  end.

(** Time of day, in microseconds since midnight. *)
Definition time : Type := N.

(** The attributes of the agent that the decision cycle reads or
    writes. *)
Record t : Type := Build {
  upstox_clients : list UpstoxClient;
  risk_manager : RiskManager.t;
  decision_interval : Z;
  auto_pick_stock : bool;
  market_close_time : time;
  decision_timer : option timer;
  is_eod_squaring_off : bool
}.

Definition set_risk_manager (self : t) (rm : RiskManager.t) : t :=
  Build (upstox_clients self) rm (decision_interval self)
    (auto_pick_stock self) (market_close_time self) (decision_timer self)
    (is_eod_squaring_off self).

Definition set_decision_timer (self : t) (tm : option timer) : t :=
  Build (upstox_clients self) (risk_manager self) (decision_interval self)
    (auto_pick_stock self) (market_close_time self) tm
    (is_eod_squaring_off self).

Definition set_is_eod_squaring_off (self : t) (b : bool) : t :=
  Build (upstox_clients self) (risk_manager self) (decision_interval self)
    (auto_pick_stock self) (market_close_time self) (decision_timer self) b.

(** *** The monad of agent methods

    A method runs from a state of the agent to an outcome (a value or
    an exception), the state it leaves behind and the collaborator calls
    it made. Attribute writes made before an exception persist. *)
Definition M (A : Type) : Type := t -> result A * t * list event.

Definition ret {A : Type} (a : A) : M A := fun self => (Ok a, self, []).

Definition raise {A : Type} (e : exn) : M A := fun self => (Raise e, self, []).

Definition bind {A B : Type} (m : M A) (k : A -> M B) : M B := fun self =>
  match m self with
  | (Ok a, self1, tr1) =>
      match k a self1 with
      | (r, self2, tr2) => (r, self2, (tr1 ++ tr2)%list)
      end
  | (Raise e, self1, tr1) => (Raise e, self1, tr1)
  end.

Definition emit (e : event) : M unit := fun self => (Ok tt, self, [e]).

Definition get_self : M t := fun self => (Ok self, self, []).

Definition modify (f : t -> t) : M unit := fun self => (Ok tt, f self, []).

Definition lift {A : Type} (r : result A) : M A :=
  match r with
  | Ok a => ret a
  | Raise e => raise e
  end.

Declare Scope agent_scope.
Delimit Scope agent_scope with agent.
Notation "'let!' x ':=' m 'in' k" := (bind m (fun x => k))
  (at level 10, x pattern, m at level 100, k at level 200) : agent_scope.
Notation "m ';;' k" := (bind m (fun _ => k))
  (at level 100, k at level 200, right associativity) : agent_scope.
Local Open Scope agent_scope.

(** [for x in l: body(x)] — an exception leaves the loop. *)
Fixpoint for_each {A : Type} (l : list A) (body : A -> M unit) : M unit :=
  match l with
  | [] => ret tt
  | x :: l' => body x ;; for_each l' body
  end.

(** *** Answers of the collaborators

    The brokerage, the oracle and the data sources are outside the
    program; what they answer during a cycle is an input of the model. *)

(** While one instrument is processed: [feed_context] stands for the
    calls that gather its context (market quote, margin, candles,
    technical summary, news, positions, previous decisions, charts),
    which either go through and leave the refreshed [portfolio_margin]
    ([None] when [get_user_fund_margin] returned [None]) or raise;
    [feed_llm] is what [generate_decision] or
    [generate_decision_for_position_present] returns: [None], or the
    record whose ['response'] is the parsed JSON (an object, or null). *)
Record InstrumentFeed : Type := {
  feed_context : result (option (gmap string pyval));
  feed_llm : option (option (gmap string pyval))
}.

(** For one brokerage client during one cycle. *)
Record ClientFeed : Type := {
  feed_positions : result (option (list Position));
  feed_auto_pick : result (list Instrument);
  feed_configured_stock : instrument_info;
  feed_instrument : Instrument -> InstrumentFeed
}.

Definition World : Type := UpstoxClient -> ClientFeed.

(** *** Methods *)

(** [_start_decision_timer]. *)
Definition _start_decision_timer : M unit :=
  modify (fun self =>
            set_decision_timer self (option_map cancel (decision_timer self))) ;;
  let! self := get_self in
  if negb (is_eod_squaring_off self) then
    modify (fun self => set_decision_timer self (Some TimerPending)) ;;
    emit (EvTimerStart (decision_interval self))
  else ret tt.

(** [stop]: [sys.exit(0)] raises [SystemExit]. *)
Definition stop : M unit :=
  modify (fun self =>
            set_decision_timer self (option_map cancel (decision_timer self))) ;;
  raise SystemExit.

(** [square_off_all_positions]. [exit_all_positions] catches its own
    exceptions. *)
Definition square_off_all_positions : M unit :=
  modify (fun self => set_is_eod_squaring_off self true) ;;
  modify (fun self =>
            set_decision_timer self (option_map cancel (decision_timer self))) ;;
  let! self := get_self in
  for_each (upstox_clients self) (fun c => emit (EvExitAllPositions c)) ;;
  stop.

Definition is_open_position (pos : Position) : bool :=
  negb (quantity pos =? 0)%Z && String.eqb (product pos) "I".

(** The loop of [get_portfolio_positions] that fills
    [open_positions_dic]. *)
Definition open_positions_dic (all_positions_data : list Position)
  : list (string * Position) :=
  foldl (fun d pos =>
           if is_open_position pos then odict_set d (instrument_token pos) pos
           else d)
        [] all_positions_data.

(** [get_portfolio_positions]: the pair it returns, or [None] for the
    empty dict its [except] branch returns. *)
Definition get_portfolio_positions (c : UpstoxClient)
    (answer : result (option (list Position)))
  : M (option (option (list Position) * list (string * Position))) :=
  emit (EvGetPositions c) ;;
  match answer with
  | Raise _ => ret None
  | Ok all_positions_data =>
      ret (Some (all_positions_data,
                 match all_positions_data with
                 | Some l => open_positions_dic l
                 | None => []
                 end))
  end.

(** [get_instruments_to_trade]. *)
Definition get_instruments_to_trade (feed : ClientFeed) : M instruments_value :=
  let! self := get_self in
  if auto_pick_stock self then
    emit EvAutoPickInstrumentToTrade ;;
    let! l := lift (feed_auto_pick feed) in
    ret (InstrList l)
  else
    emit EvGetInstrumentInfoFromStock ;;
    ret (InstrInfo (feed_configured_stock feed)).

(** [place_order] of the brokerage wrapper catches its own exceptions. *)
Definition place_order (c : UpstoxClient) (key quantity : pyval)
    (side : string) (order_type price stop_loss take_profit : pyval) : M unit :=
  emit (EvPlaceOrder c key quantity side order_type price stop_loss take_profit).

(** [execute_buy]. *)
Definition execute_buy (c : UpstoxClient)
    (key quantity price order_type stop_loss take_profit : pyval) : M unit :=
  if negb (truthy price) then ret tt
  else place_order c key quantity "BUY" order_type price stop_loss take_profit.

(** [execute_sell]. *)
Definition execute_sell (c : UpstoxClient)
    (key quantity price order_type stop_loss take_profit : pyval) : M unit :=
  if negb (truthy price) then ret tt
  else place_order c key quantity "SELL" order_type price stop_loss take_profit.

(** [d[key]]. *)
Definition dict_item (d : gmap string pyval) (key : string) : M pyval :=
  match d !! key with
  | Some v => ret v
  | None => raise (KeyError key)
  end.

(** [execute_trade]. *)
Definition execute_trade (c : UpstoxClient) (decision : gmap string pyval)
    (price quantity : pyval) : M unit :=
  let! instrument := dict_item decision "instrument_key" in
  let! action := dict_item decision "action" in
  let! order_type := dict_item decision "order_type" in
  let stop_loss := py_or (dict_get decision "stop_loss" PyNone) (PyNum 0) in
  let take_profit := py_or (dict_get decision "take_profit" PyNone) (PyNum 0) in
  if py_eq_str action "BUY" then
    execute_buy c instrument quantity price order_type stop_loss take_profit
  else if py_eq_str action "SELL" then
    execute_sell c instrument quantity price order_type stop_loss take_profit
  else ret tt.

(** Truth value of a dict: it is not empty. *)
Definition dict_truthy (d : gmap string pyval) : bool :=
  negb (Nat.eqb (size d) 0).

(** The call [self.risk_manager.validate_decision(llm_decision,
    portfolio_margin, current_price)]: with [portfolio_margin] equal to
    [None], [portfolio.get] raises [AttributeError]. *)
Definition risk_validate (llm_decision : gmap string pyval)
    (portfolio_margin : option (gmap string pyval)) (current_price : pyval)
  : M bool :=
  match portfolio_margin with
  | None => raise AttributeError
  | Some portfolio =>
      let! self := get_self in
      match RiskManager.validate_decision (risk_manager self)
              llm_decision portfolio current_price with
      | Ok (verdict, rm) =>
          modify (fun self => set_risk_manager self rm) ;; ret verdict
      | Raise e => raise e
      end
  end.

(** The body of the instrument loop of [make_decision]. The two tests
    that log "Skipping cycle" end in [pass] and change nothing. *)
Definition process_instrument (c : UpstoxClient) (position_present : bool)
    (feed : ClientFeed) (instrument_to_trade : Instrument) : M unit :=
  let answers := feed_instrument feed instrument_to_trade in
  emit (EvFullMarketQuote c (instrument_key instrument_to_trade)) ;;
  let! portfolio_margin := lift (feed_context answers) in
  emit (EvGenerateDecision (instrument_key instrument_to_trade)
          position_present) ;;
  let llm_json := feed_llm answers in
  emit EvSaveLlmDecision ;;
  (* llm_decision = llm_json['response'] *)
  let! llm_decision :=
    match llm_json with
    | None => raise TypeError
    | Some response => ret response
    end in
  (* action = llm_decision.get('action') *)
  let! llm_decision :=
    match llm_decision with
    | None => raise AttributeError
    | Some d => ret d
    end in
  let current_price := dict_get llm_decision "current_price" (PyNum 0) in
  let! approved :=
    if dict_truthy llm_decision
    then risk_validate llm_decision portfolio_margin current_price
    else ret false in
  if approved then
    if truthy current_price then
      let quantity := dict_get llm_decision "quantity" (PyNum 0) in
      execute_trade c llm_decision current_price quantity
    else ret tt
  else ret tt.

(** Lines 124 to 135 of [make_decision]: the instruments of the cycle,
    and whether they come from open positions. Unpacking the empty dict
    that [get_portfolio_positions] returns after an exception raises
    [ValueError]. *)
Definition select_instruments (c : UpstoxClient) (feed : ClientFeed)
  : M (bool * instruments_value) :=
  let! r := get_portfolio_positions c (feed_positions feed) in
  match r with
  | None => raise ValueError
  | Some (all_positions, open_positions) =>
      match open_positions with
      | [] =>
          let! instruments_to_trade := get_instruments_to_trade feed in
          ret (false, instruments_to_trade)
      | _ :: _ =>
          ret (true,
               InstrList
                 (omap (fun key =>
                          info_row (get_instrument_info_from_instrument_key c key))
                       (odict_keys open_positions)))
      end
  end.

(** [for instrument_to_trade in instruments_to_trade: ...]. Iterating
    over the dict of [get_instrument_info_from_stock] yields its keys,
    and indexing a key with ['trading_symbol'] raises [TypeError]. *)
Definition process_instruments (c : UpstoxClient) (position_present : bool)
    (feed : ClientFeed) (instruments_to_trade : instruments_value) : M unit :=
  match instruments_to_trade with
  | InstrList l => for_each l (process_instrument c position_present feed)
  | InstrInfo InfoEmpty => ret tt
  | InstrInfo (InfoRow _) | InstrInfo InfoNone => raise TypeError
  end.

(** The body of the client loop of [make_decision]. *)
Definition client_cycle (world : World) (c : UpstoxClient) : M unit :=
  emit (EvFundMargin c) ;;
  let! (position_present, instruments_to_trade) :=
    select_instruments c (world c) in
  process_instruments c position_present (world c) instruments_to_trade.

(** [make_decision], entered at time of day [now]. *)
Definition make_decision (now : time) (world : World) : M unit :=
  let! self := get_self in
  if (market_close_time self <=? now)%N then
    if negb (is_eod_squaring_off self) then square_off_all_positions
    else ret tt
  else
    for_each (upstox_clients self) (client_cycle world) ;;
    _start_decision_timer.

(** The timer thread: a pending timer fires and calls [make_decision]. *)
Definition timer_fires (now : time) (world : World) : M unit :=
  let! self := get_self in
  match decision_timer self with
  | Some TimerPending =>
      modify (fun self => set_decision_timer self (Some TimerFired)) ;;
      make_decision now world
  | _ => ret tt
  end.

(** A history of the agent: the entry points called on it, oldest
    first. Each runs on the state the previous one left, whether that one
    returned or raised (a timer callback that raises ends its own thread
    only). *)
Inductive call : Type :=
| CallMakeDecision (now : time) (world : World)
| CallTimerFires (now : time) (world : World)
| CallStartDecisionTimer
| CallSquareOffAllPositions
| CallStop.

Definition run_call (c : call) : M unit :=
  match c with
  | CallMakeDecision now world => make_decision now world
  | CallTimerFires now world => timer_fires now world
  | CallStartDecisionTimer => _start_decision_timer
  | CallSquareOffAllPositions => square_off_all_positions
  | CallStop => stop
  end.

Fixpoint run_calls (self : t) (history : list call) : t * list event :=
  match history with
  | [] => (self, [])
  | c :: history' =>
      match run_call c self with
      | (_, self1, tr1) =>
          match run_calls self1 history' with
          | (self2, tr2) => (self2, (tr1 ++ tr2)%list)
          end
      end
  end.

(** *** Vocabulary of the properties *)

Definition no_timer_start (e : event) : bool := negb (is_timer_start e).

Definition no_candidate_selection (e : event) : bool :=
  negb (is_candidate_selection e).

(** The two states differ at most in the risk manager. *)
Definition only_risk_changed (before after : t) : Prop :=
  after = set_risk_manager before (risk_manager after).

(** A computation that touches nothing of the agent but its risk
    manager and makes only calls accepted by [P]. *)
Definition framed {A : Type} (P : event -> bool) (m : M A) : Prop :=
  forall self r self' tr,
    m self = (r, self', tr) ->
    only_risk_changed self self' /\ forallb P tr = true.

End TradingAgent.

(** ** Sample data

    The limits of [config.py] and a few proposals, used to run the model
    on concrete inputs. *)

Module Samples.
Import RiskManager.

(** [RISK_CONFIG] and [LEVERAGE_ON_INTRADAY] of [config.py]. *)
Definition rm0 : RiskManager.t :=
  RiskManager.init 25000 0.02 0.05 0.75 20 0.02 5.

(** After a loss of 2500 on a capital of 100000 the breaker is tripped. *)
Definition rm_halted : RiskManager.t := update_pnl rm0 (-2500) 100000.

(** Twenty approved entries: the daily cap is reached. *)
Definition rm_capped : RiskManager.t := set_trades_today rm0 20.

Definition margin : gmap string pyval :=
  list_to_map [("available_margin", PyNum 50000)].

Definition proposal (action : pyval) (confidence : Q) : gmap string pyval :=
  list_to_map [("action", action);
               ("instrument_key", PyStr "NSE_EQ|INE002A01018");
               ("confidence_score", PyNum confidence);
               ("quantity", PyNum 1);
               ("order_type", PyStr "MARKET");
               ("current_price", PyNum 953.5)].

Definition buy : gmap string pyval := proposal (PyStr "BUY") 0.86.
Definition sell : gmap string pyval := proposal (PyStr "SELL") 0.9.
Definition hold : gmap string pyval := proposal (PyStr "HOLD") 0.95.
Definition weak_buy : gmap string pyval := proposal (PyStr "BUY") 0.5.

(** A proposal without ['action']. *)
Definition no_action : gmap string pyval :=
  list_to_map [("instrument_key", PyStr "NSE_EQ|INE002A01018");
               ("confidence_score", PyNum 0.9);
               ("quantity", PyNum 1);
               ("order_type", PyStr "MARKET");
               ("current_price", PyNum 953.5)].

(** An approved BUY whose price is missing. *)
Definition buy_no_price : gmap string pyval :=
  list_to_map [("action", PyStr "BUY");
               ("instrument_key", PyStr "NSE_EQ|INE002A01018");
               ("confidence_score", PyNum 0.86);
               ("quantity", PyNum 1);
               ("order_type", PyStr "MARKET")].

Import TradingAgent.

Definition reliance : Instrument :=
  {| instrument_key := "NSE_EQ|INE002A01018";
     trading_symbol := "RELIANCE";
     name := "RELIANCE INDUSTRIES LTD" |}.

Definition tcs : Instrument :=
  {| instrument_key := "NSE_EQ|INE467B01029";
     trading_symbol := "TCS";
     name := "TATA CONSULTANCY SERV LT" |}.

Definition client : UpstoxClient :=
  {| user_name := "trader"; nse_instruments := [reliance; tcs] |}.

(** Two open intraday positions, one position already closed, one
    delivery holding, and one position in an instrument that is not in
    the table. *)
Definition held : list Position :=
  [ {| instrument_token := "NSE_EQ|INE002A01018"; quantity := 10;
       product := "I" |};
    {| instrument_token := "NSE_EQ|INE009A01021"; quantity := 0;
       product := "I" |};
    {| instrument_token := "NSE_EQ|INE040A01034"; quantity := 4;
       product := "D" |};
    {| instrument_token := "NSE_EQ|INE467B01029"; quantity := -5;
       product := "I" |};
    {| instrument_token := "NSE_FO|54321"; quantity := 1;
       product := "I" |} ].

(** 14:55 and 10:30. *)
Definition close_time : TradingAgent.time := 53700000000%N.
Definition morning : TradingAgent.time := 37800000000%N.
Definition afternoon : TradingAgent.time := 53700000001%N.

(** The agent as [__init__] leaves it, with one client and auto-pick
    switched on as in [AGENT_CONFIG]. *)
Definition agent0 : TradingAgent.t :=
  TradingAgent.Build [client] rm0 320 true close_time None false.

(** The brokerage reports [held]; the oracle answers [first] for
    RELIANCE and a HOLD for every other instrument. *)
Definition world_answering (first : option (option (gmap string pyval)))
  : World :=
  fun _ =>
    {| feed_positions := Ok (Some held);
       feed_auto_pick := Ok [];
       feed_configured_stock := InfoEmpty;
       feed_instrument := fun i =>
         {| feed_context := Ok (Some margin);
            feed_llm :=
              if String.eqb (instrument_key i) "NSE_EQ|INE002A01018"
              then first else Some (Some hold) |} |}.

End Samples.

(** ** Vocabulary for histories of the risk manager *)

Module RiskHistory.
Import RiskManager.

(** The running total that [update_pnl] keeps: the amounts reported
    are added to [start] one at a time, in the order of the calls. The
    other calls report nothing. *)
Definition pnl_running (start : Q) (history : list RiskManager.call) : Q :=
  fold_left
    (fun acc c =>
       match c with
       | CallUpdatePnl pnl _ => (acc + pnl)%Q
       | CallValidateDecision _ _ _ | CallCalculateQuantity _ => acc
       end)
    history start.

(** The largest finite float, [(2^53 - 1) * 2^971]. *)
Definition float_max : Q := inject_Z ((2 ^ 53 - 1) * 2 ^ 971).

(** A confidence that the rejection log of [validate_decision] can
    write with [{confidence:.2f}]. Every float can be written; an [int]
    below the range of floats cannot be converted to one, and the format
    then raises [OverflowError], an exception outside [exn]. *)
Definition confidence_formats (d : gmap string pyval) : Prop :=
  forall q, as_number (confidence_of d) = Some q -> (- float_max <= q)%Q.

(** The configured limits of a manager, apart from its daily state. *)
Definition limits (self : RiskManager.t)
  : Q * Q * Q * Q * Z * Q * Q :=
  (max_position_size self, stop_loss_pct self, take_profit_pct self,
   min_confidence_threshold self, max_trades_per_day self,
   max_daily_loss_pct self, leverage_on_intraday self).

End RiskHistory.

(** ** Vocabulary for the traces of the agent *)

Module Observations.
Import TradingAgent.

Definition no_place_order (e : event) : bool := negb (is_place_order e).

Definition is_buy_order (e : event) : bool :=
  match e with
  | EvPlaceOrder _ _ _ side _ _ _ _ => String.eqb side "BUY"
  | _ => false
  end.

Definition is_generate_decision (e : event) : bool :=
  match e with EvGenerateDecision _ _ => true | _ => false end.

(** How many events of a trace satisfy a test. *)
Definition count (test : event -> bool) (tr : list event) : Z :=
  Z.of_nat (length (List.filter test tr)).

(** An order as [execute_buy] and [execute_sell] send it: the side is
    'BUY' or 'SELL' and the price is truthy. *)
Definition order_well_formed (e : event) : bool :=
  match e with
  | EvPlaceOrder _ _ _ side _ price _ _ =>
      (String.eqb side "BUY" || String.eqb side "SELL") && truthy price
  | _ => true
  end.

(** [d.get(k)] on an insertion-ordered dict. *)
Fixpoint odict_get {V : Type} (d : list (string * V)) (k : string)
  : option V :=
  match d with
  | [] => None
  | (k', v) :: d' => if String.eqb k' k then Some v else odict_get d' k
  end.

(** The open positions of a snapshot in a given instrument, in the
    order of the snapshot. *)
Definition open_positions_in (key : string) (ps : list Position)
  : list Position :=
  List.filter
    (fun pos => is_open_position pos && String.eqb (instrument_token pos) key)
    ps.

(** The snapshot has no open position: it is missing, or every entry
    has quantity 0 or a product code other than 'I'. *)
Definition nothing_held (snapshot : option (list Position)) : Prop :=
  forall ps pos, snapshot = Some ps -> pos ∈ ps ->
    quantity pos = 0 \/ product pos <> "I".

(** Every run of [m] relates the state before, the state after and the
    trace by [R]. *)
Definition respects {A : Type} (R : t -> t -> list event -> Prop) (m : M A)
  : Prop :=
  forall self r self' tr, m self = (r, self', tr) -> R self self' tr.

End Observations.

(** ** More sample data *)

Module MoreSamples.
Import RiskManager TradingAgent.

(** The oracle gives the same answer for every instrument. *)
Definition world_all (answer : option (option (gmap string pyval))) : World :=
  fun _ =>
    {| feed_positions := Ok (Some Samples.held);
       feed_auto_pick := Ok [];
       feed_configured_stock := InfoEmpty;
       feed_instrument := fun _ =>
         {| feed_context := Ok (Some Samples.margin);
            feed_llm := answer |} |}.

(** An agent allowed a single trade a day. *)
Definition agent_cap1 : TradingAgent.t :=
  TradingAgent.Build [Samples.client]
    (RiskManager.init 25000 0.02 0.05 0.75 1 0.02 5)
    320 true Samples.close_time None false.

(** An agent whose breaker is tripped. *)
Definition agent_halted : TradingAgent.t :=
  set_risk_manager Samples.agent0 Samples.rm_halted.

End MoreSamples.

(** ** [auto_pick_instrument_to_trade]: the candidates to compare

    Lines 296 to 316 of [trading_agent.py]: from the last traded prices
    of the index constituents to the stocks whose summaries are sent to
    the oracle. The draw of [random.sample] is an input of the model. *)

Module AutoPick.
Import Stdlib.Strings.Ascii.

Inductive error : Type :=
| ETypeError
| EKeyError (key : string)
| EIndexError
| EValueError.

Inductive outcome (A : Type) : Type :=
| Fine (a : A)
| Fails (e : error).
Arguments Fine {A} a.
Arguments Fails {A} e.

(** A value of [ltp_data]. *)
Record LtpQuote : Type := {
  ltp_instrument_token : string;
  ltp_last_price : Q
}.

(** An entry of [affordable_instruments]: the dict with keys
    'instrument_key', 'last_price' and 'stock_name'. *)
Record Candidate : Type := {
  cand_instrument_key : string;
  cand_last_price : Q;
  cand_stock_name : string
}.

(** [s.split(":")]: the pieces between the colons, at least one. *)
Fixpoint split_colon (s : string) : list string :=
  match s with
  | EmptyString => [EmptyString]
  | String ch rest =>
      if Ascii.eqb ch ":"%char then EmptyString :: split_colon rest
      else match split_colon rest with
           | [] => [String ch EmptyString]
           | piece :: pieces => String ch piece :: pieces
           end
  end.

(** [key.split(":")[1]]. *)
Definition stock_name_of (key : string) : outcome string :=
  match split_colon key with
  | _ :: piece :: _ => Fine piece
  | _ => Fails EIndexError
  end.

(** [portfolio_margin['available_margin']] as the right operand of
    [<=]. *)
Definition available_margin (portfolio_margin : option (gmap string pyval))
  : outcome Q :=
  match portfolio_margin with
  | None => Fails ETypeError
  | Some d =>
      match d !! "available_margin" with
      | None => Fails (EKeyError "available_margin")
      | Some v =>
          match as_number v with
          | Some q => Fine q
          | None => Fails ETypeError
          end
      end
  end.

(** The loop that fills [affordable_instruments]. *)
Fixpoint collect_affordable (items : list (string * LtpQuote))
    (portfolio_margin : option (gmap string pyval))
  : outcome (list Candidate) :=
  match items with
  | [] => Fine []
  | (key, value) :: items' =>
      match available_margin portfolio_margin with
      | Fails e => Fails e
      | Fine margin =>
          if Qle_bool (ltp_last_price value) margin then
            match stock_name_of key with
            | Fails e => Fails e
            | Fine stock_name =>
                match collect_affordable items' portfolio_margin with
                | Fails e => Fails e
                | Fine l =>
                    Fine ({| cand_instrument_key := ltp_instrument_token value;
                             cand_last_price := ltp_last_price value;
                             cand_stock_name := stock_name |} :: l)
                end
            end
          else collect_affordable items' portfolio_margin
      end
  end.

(** [sorted(l, key=lambda x: x['last_price'], reverse=True)]: the sort
    is stable, entries of equal price keep their order. *)
Fixpoint insert_by_price (x : Candidate) (l : list Candidate)
  : list Candidate :=
  match l with
  | [] => [x]
  | y :: l' =>
      if Qlt_bool (cand_last_price x) (cand_last_price y)
      then y :: insert_by_price x l'
      else x :: l
  end.

Definition sorted_by_price_desc (l : list Candidate) : list Candidate :=
  foldr insert_by_price [] l.

(** [l[:n]]: a negative [n] counts from the end. *)
Definition slice_to {A : Type} (n : Z) (l : list A) : list A :=
  if (0 <=? n)%Z then take (Z.to_nat n) l
  else take (length l - Z.to_nat (- n)) l.

(** [affordable_instruments] after the sort; [len(ltp_data)] raises
    when the prices could not be fetched. *)
Definition affordable_instruments
    (ltp_data : option (list (string * LtpQuote)))
    (portfolio_margin : option (gmap string pyval))
  : outcome (list Candidate) :=
  match ltp_data with
  | None => Fails ETypeError
  | Some items =>
      match collect_affordable items portfolio_margin with
      | Fails e => Fails e
      | Fine l => Fine (sorted_by_price_desc l)
      end
  end.

(** [stocks_to_compare]. [sample population k] stands for
    [random.sample(population, k)], which raises [ValueError] for a
    negative [k]. *)
Definition stocks_to_compare
    (random_select_stocks : bool) (select_stock_count_to_compare : Z)
    (sample : list Candidate -> nat -> list Candidate)
    (affordable : list Candidate)
  : outcome (list Candidate) :=
  if random_select_stocks then
    let k := Z.min select_stock_count_to_compare
               (Z.of_nat (length affordable)) in
    if (k <? 0)%Z then Fails EValueError
    else Fine (sample affordable (Z.to_nat k))
  else Fine (slice_to select_stock_count_to_compare affordable).

Definition candidates
    (random_select_stocks : bool) (select_stock_count_to_compare : Z)
    (sample : list Candidate -> nat -> list Candidate)
    (ltp_data : option (list (string * LtpQuote)))
    (portfolio_margin : option (gmap string pyval))
  : outcome (list Candidate) :=
  match affordable_instruments ltp_data portfolio_margin with
  | Fails e => Fails e
  | Fine affordable =>
      stocks_to_compare random_select_stocks select_stock_count_to_compare
        sample affordable
  end.

(** A quote is within the margin. *)
Definition affordable_quote (margin : Q) (item : string * LtpQuote) : bool :=
  Qle_bool (ltp_last_price (snd item)) margin.

(** The key contains a colon. *)
Fixpoint has_colon (s : string) : bool :=
  match s with
  | EmptyString => false
  | String ch rest => Ascii.eqb ch ":"%char || has_colon rest
  end.

(** No entry is priced above an entry that comes before it. *)
Fixpoint descending (l : list Candidate) : Prop :=
  match l with
  | [] => True
  | x :: l' =>
      Forall (fun y => (cand_last_price y <= cand_last_price x)%Q) l' /\
      descending l'
  end.

(** The entries of a given price, in the order of the list. *)
Definition priced_at (p : Q) (l : list Candidate) : list Candidate :=
  List.filter (fun x => Qeq_bool (cand_last_price x) p) l.

(** Sample prices, as [ltp_data] lists them. *)
Definition sample_ltp : list (string * LtpQuote) :=
  [ ("NSE_EQ:RELIANCE",
     {| ltp_instrument_token := "NSE_EQ|INE002A01018";
        ltp_last_price := 953.5 |});
    ("NSE_EQ:MRF",
     {| ltp_instrument_token := "NSE_EQ|INE883A01011";
        ltp_last_price := 135000 |});
    ("NSE_EQ:TCS",
     {| ltp_instrument_token := "NSE_EQ|INE467B01029";
        ltp_last_price := 3100 |});
    ("NSE_EQ:IDEA",
     {| ltp_instrument_token := "NSE_EQ|INE669E01016";
        ltp_last_price := 9.5 |});
    ("NSE_EQ:INFY",
     {| ltp_instrument_token := "NSE_EQ|INE009A01021";
        ltp_last_price := 3100 |}) ].

(** *** The picks of the oracle

    Lines 329 to 341: [get_instrument_to_trade] returns the list under
    ['results'] of the oracle's answer, or [None]; each pick is turned
    into the dict the decision loop expects. *)

(** [stock[key]]. *)
Definition pick_item (stock : gmap string pyval) (key : string)
  : result pyval :=
  match stock !! key with
  | Some v => Ok v
  | None => Raise (KeyError key)
  end.

(** The dict literal built for one pick; its values are evaluated in
    the order they are written. *)
Definition instrument_of_pick (stock : gmap string pyval)
  : result (gmap string pyval) :=
  match pick_item stock "instrument_key" with
  | Raise e => Raise e
  | Ok instrument_key =>
  match pick_item stock "stock_name" with
  | Raise e => Raise e
  | Ok trading_symbol =>
  match pick_item stock "stock_name" with
  | Raise e => Raise e
  | Ok name =>
  match pick_item stock "last_price" with
  | Raise e => Raise e
  | Ok last_price =>
  match pick_item stock "confidence_score" with
  | Raise e => Raise e
  | Ok confidence_score =>
  match pick_item stock "thought" with
  | Raise e => Raise e
  | Ok thought =>
      Ok (list_to_map
            [("instrument_key", instrument_key);
             ("trading_symbol", trading_symbol);
             ("name", name);
             ("last_price", last_price);
             ("confidence_score", confidence_score);
             ("thought", thought)])
  end end end end end end.

Fixpoint instruments_of_picks (picks : list (gmap string pyval))
  : result (list (gmap string pyval)) :=
  match picks with
  | [] => Ok []
  | stock :: picks' =>
      match instrument_of_pick stock with
      | Raise e => Raise e
      | Ok instrument =>
          match instruments_of_picks picks' with
          | Raise e => Raise e
          | Ok l => Ok (instrument :: l)
          end
      end
  end.

(** [instrument_to_trades], from what the oracle returned: iterating
    over [None] raises [TypeError]. *)
Definition instrument_to_trades
    (stock_to_trade : option (list (gmap string pyval)))
  : result (list (gmap string pyval)) :=
  match stock_to_trade with
  | None => Raise TypeError
  | Some picks => instruments_of_picks picks
  end.

(** The fields a pick must have, in the order they are read. *)
Definition pick_fields : list string :=
  ["instrument_key"; "stock_name"; "last_price"; "confidence_score";
   "thought"].

(** The first field of [fields] that the pick lacks. *)
Fixpoint first_missing (stock : gmap string pyval) (fields : list string)
  : option string :=
  match fields with
  | [] => None
  | key :: fields' =>
      match stock !! key with
      | None => Some key
      | Some _ => first_missing stock fields'
      end
  end.

End AutoPick.

(** ** [gemini_llm_integration.py]: [calculate_cost]

    The cost attached to every answer of the oracle. Whatever goes wrong
    inside the method is caught and an empty dict is returned: that is
    [None] here. *)

Module GeminiCost.

(** [LLM_PRICING] of [config.py], in the order it is written. *)
Definition LLM_PRICING : list (string * gmap string Q) :=
  [ ("gemini-2.5-flash", list_to_map [("input", 0.30%Q); ("output", 2.5%Q)]);
    ("gpt-5-nano", list_to_map [("input", 0.05%Q); ("output", 0.40%Q)]);
    ("gpt-5-mini", list_to_map [("input", 0.25%Q); ("output", 2.00%Q)]);
    ("gpt-4o-mini", list_to_map [("input", 0.15%Q); ("output", 0.60%Q)]);
    ("gpt-4.1-mini", list_to_map [("input", 0.10%Q); ("output", 0.40%Q)]);
    ("gpt-4.1-nano", list_to_map [("input", 0.10%Q); ("output", 0.40%Q)]);
    ("gpt-5", list_to_map [("input", 1.25%Q); ("output", 10.00%Q)]);
    ("gpt-4o", list_to_map [("input", 2.50%Q); ("output", 10.00%Q)]);
    ("gpt-4.5", list_to_map [("input", 75.00%Q); ("output", 150.00%Q)]);
    ("deepseek-reasoner", list_to_map [("input", 0.28%Q); ("output", 0.42%Q)]);
    ("deepseek-chat", list_to_map [("input", 0.28%Q); ("output", 0.42%Q)]);
    ("usd_to_inr", list_to_map [("usd", 1.0%Q); ("inr", 84.0%Q)]) ].

(** [needle in hay], for strings. *)
Fixpoint is_substring (needle hay : string) : bool :=
  String.prefix needle hay ||
  match hay with
  | EmptyString => false
  | String _ rest => is_substring needle rest
  end.

(** [pricing.get(key)]. *)
Fixpoint pricing_get (pricing : list (string * gmap string Q)) (key : string)
  : option (gmap string Q) :=
  match pricing with
  | [] => None
  | (k, v) :: pricing' =>
      if String.eqb k key then Some v else pricing_get pricing' key
  end.

(** The exact match, and when there is none (or it is the empty
    string) the first key of the table that occurs in the model name. *)
Definition model_base (pricing : list (string * gmap string Q))
    (model : string) : option string :=
  let exact := List.find (fun m => String.eqb model m) (map fst pricing) in
  let found :=
    match exact with
    | Some m => negb (String.eqb m "")
    | None => false
    end in
  if found then exact
  else
    match List.find (fun base_name => is_substring base_name model)
            (map fst pricing) with
    | Some base_name => Some base_name
    | None => exact
    end.

(** [pricing.get(model_base, {}).get(field, 0)]. *)
Definition rate (pricing : list (string * gmap string Q))
    (base : option string) (field : string) : Q :=
  match base with
  | None => 0%Q
  | Some b =>
      match pricing_get pricing b with
      | None => 0%Q
      | Some rates => default 0%Q (rates !! field)
      end
  end.

(** The fields of the usage metadata that are read. A count the
    service did not fill in is [None]; [cached_content_token_count] may
    also be absent from the object, and [getattr] then gives 0. *)
Record Usage : Type := {
  prompt_token_count : option Z;
  candidates_token_count : option Z;
  cached_content_token_count : option (option Z)
}.

(** The dict that is returned. *)
Record Cost : Type := {
  cost_model : string;
  cost_prompt_tokens : Z;
  cost_cached_tokens : Z;
  cost_completion_tokens : Z;
  cost_usd : Q;
  cost_inr : Q
}.

Definition calculate_cost_with (pricing : list (string * gmap string Q))
    (model : string) (usage : Usage) (usd_to_inr : option Q)
  : option Cost :=
  (* if not usd_to_inr: usd_to_inr = LLM_PRICING['usd_to_inr']['inr'] *)
  let usd_to_inr :=
    match usd_to_inr with
    | Some r => if Qeq_bool r 0 then None else Some r
    | None => None
    end in
  match
    match usd_to_inr with
    | Some r => Some r
    | None =>
        match pricing_get pricing "usd_to_inr" with
        | Some rates => rates !! "inr"
        | None => None
        end
    end
  with
  | None => None
  | Some usd_to_inr =>
      let base := model_base pricing model in
      let input_rate := rate pricing base "input" in
      let output_rate := rate pricing base "output" in
      match prompt_token_count usage, candidates_token_count usage,
            match cached_content_token_count usage with
            | None => Some 0
            | Some cached => cached
            end with
      | Some prompt_tokens, Some completion_tokens, Some cached_tokens =>
          let billable_prompt :=
            if Qlt_bool (inject_Z (prompt_tokens - cached_tokens)) 0
            then 0%Q else inject_Z (prompt_tokens - cached_tokens) in
          let billable_completion := inject_Z completion_tokens in
          let usd :=
            (billable_prompt / 1000000 * input_rate
             + billable_completion / 1000000 * output_rate)%Q in
          Some {| cost_model := model;
                  cost_prompt_tokens := prompt_tokens;
                  cost_cached_tokens := cached_tokens;
                  cost_completion_tokens := completion_tokens;
                  cost_usd := usd;
                  cost_inr := (usd * usd_to_inr)%Q |}
      | _, _, _ => None
      end
  end.

(** A usage report: 12000 prompt tokens of which 2000 cached, 800
    completion tokens. *)
Definition sample_usage : Usage :=
  {| prompt_token_count := Some 12000;
     candidates_token_count := Some 800;
     cached_content_token_count := Some (Some 2000) |}.

(** [calculate_cost(model, usage)], as the client calls it. *)
Definition calculate_cost (model : string) (usage : Usage) : option Cost :=
  calculate_cost_with LLM_PRICING model usage None.

End GeminiCost.

(** * Properties *)

(** ** Facts about the Python layer *)

Module PyFacts.

Lemma Qlt_bool_iff (a b : Q) : Qlt_bool a b = true <-> (a < b)%Q.
Proof.
  unfold Qlt_bool. rewrite negb_true_iff. split.
  - intros Hb. apply Qnot_le_lt. intros Hle.
    apply Qle_bool_iff in Hle. congruence.
  - intros Hlt. destruct (Qle_bool b a) eqn:E; [|reflexivity].
    apply Qle_bool_iff in E. destruct (Qlt_not_le _ _ Hlt E).
Qed.

Lemma Qlt_bool_false_iff (a b : Q) : Qlt_bool a b = false <-> (b <= a)%Q.
Proof. unfold Qlt_bool. rewrite negb_false_iff. apply Qle_bool_iff. Qed.

Lemma py_eq_str_true (a : pyval) (s : string) :
  py_eq_str a s = true <-> a = PyStr s.
Proof.
  destruct a; simpl; try (split; [discriminate | intros [=]]).
  rewrite String.eqb_eq. split; [intros ->; reflexivity | intros [=]; assumption].
Qed.

Lemma py_eq_str_false (a : pyval) (s : string) :
  py_eq_str a s = false <-> a <> PyStr s.
Proof.
  rewrite <- py_eq_str_true. destruct (py_eq_str a s); split; congruence.
Qed.

(** Floor division of rationals by a positive divisor is the floor of
    the quotient. *)
Lemma py_floordiv_floor (a b : Q) :
  (0 < b)%Q -> py_floordiv a b = Qfloor (a / b).
Proof.
  destruct a as [na da], b as [nb db]. unfold Qlt. simpl.
  rewrite Z.mul_1_r. intros Hpos.
  destruct nb as [|p|p]; try lia.
  unfold py_floordiv, Qdiv, Qmult, Qinv, Qfloor. simpl.
  rewrite Pos.mul_comm. reflexivity.
Qed.

Lemma dict_get_absent (d : gmap string pyval) (key : string) (v : pyval) :
  d !! key = None -> dict_get d key v = v.
Proof. unfold dict_get. intros ->. reflexivity. Qed.

Lemma dict_get_present (d : gmap string pyval) (key : string) (v w : pyval) :
  d !! key = Some w -> dict_get d key v = w.
Proof. unfold dict_get. intros ->. reflexivity. Qed.

End PyFacts.

(** ** The risk policy *)

Module RiskManagerSpec.
Import RiskManager PyFacts.

(** A halted manager rejects whatever the proposal is. *)
Lemma validate_decision_halted self d p cp :
  is_trading_halted self = true ->
  validate_decision self d p cp = Ok (false, self).
Proof.
  intros Hh. unfold validate_decision. rewrite Hh.
  destruct (py_eq_str _ "HOLD"); reflexivity.
Qed.

(** The verdict once the HOLD, halt and count gates are passed. *)
Lemma validate_decision_past_count self d p cp :
  action_of d <> PyStr "HOLD" ->
  is_trading_halted self = false ->
  trades_today self < max_trades_per_day self ->
  validate_decision self d p cp =
    match py_lt_num (confidence_of d) (min_confidence_threshold self) with
    | None => Raise TypeError
    | Some true => Ok (false, self)
    | Some false =>
        if py_eq_str (action_of d) "SELL" then Ok (true, self)
        else Ok (true, set_trades_today self (trades_today self + 1))
    end.
Proof.
  intros Hhold Hh Hcount. unfold validate_decision.
  fold (action_of d). fold (confidence_of d).
  apply py_eq_str_false in Hhold. rewrite Hhold, Hh.
  destruct (Z.geb_spec (trades_today self) (max_trades_per_day self)); [lia|].
  reflexivity.
Qed.

(** C1. [validate_decision] applies its gates in a fixed order and
    stops at the first that fails: a HOLD is rejected; otherwise a halted
    manager rejects; otherwise a manager at its daily cap rejects (a SELL
    as well, the count being checked before the action); otherwise a
    confidence below the threshold is rejected; otherwise a SELL is
    approved and the count is kept, and a BUY is approved and the count
    grows by exactly one. *)
Theorem validate_decision_gate_order self d p cp :
  (action_of d = PyStr "HOLD" ->
   validate_decision self d p cp = Ok (false, self)) /\
  (action_of d <> PyStr "HOLD" ->
   is_trading_halted self = true ->
   validate_decision self d p cp = Ok (false, self)) /\
  (action_of d <> PyStr "HOLD" ->
   is_trading_halted self = false ->
   max_trades_per_day self <= trades_today self ->
   validate_decision self d p cp = Ok (false, self)) /\
  (forall c,
   action_of d <> PyStr "HOLD" ->
   is_trading_halted self = false ->
   trades_today self < max_trades_per_day self ->
   as_number (confidence_of d) = Some c ->
   (c < min_confidence_threshold self)%Q ->
   validate_decision self d p cp = Ok (false, self)) /\
  (forall c,
   action_of d = PyStr "SELL" ->
   is_trading_halted self = false ->
   trades_today self < max_trades_per_day self ->
   as_number (confidence_of d) = Some c ->
   (min_confidence_threshold self <= c)%Q ->
   validate_decision self d p cp = Ok (true, self)) /\
  (forall c,
   action_of d = PyStr "BUY" ->
   is_trading_halted self = false ->
   trades_today self < max_trades_per_day self ->
   as_number (confidence_of d) = Some c ->
   (min_confidence_threshold self <= c)%Q ->
   validate_decision self d p cp =
     Ok (true, set_trades_today self (trades_today self + 1)) /\
   trades_today (set_trades_today self (trades_today self + 1)) =
     trades_today self + 1).
Proof.
  repeat apply conj.
  - intros Ha. unfold validate_decision. fold (action_of d).
    rewrite Ha. reflexivity.
  - intros _ Hh. apply validate_decision_halted, Hh.
  - intros Ha Hh Hcap. unfold validate_decision. fold (action_of d).
    apply py_eq_str_false in Ha. rewrite Ha, Hh.
    destruct (Z.geb_spec (trades_today self) (max_trades_per_day self));
      [reflexivity | lia].
  - intros c Ha Hh Hcount Hc Hlow.
    rewrite validate_decision_past_count by assumption.
    unfold py_lt_num. rewrite Hc.
    apply Qlt_bool_iff in Hlow. rewrite Hlow. reflexivity.
  - intros c Ha Hh Hcount Hc Hhigh.
    rewrite validate_decision_past_count by (rewrite ?Ha; done).
    unfold py_lt_num. rewrite Hc.
    apply Qlt_bool_false_iff in Hhigh. rewrite Hhigh, Ha. reflexivity.
  - intros c Ha Hh Hcount Hc Hhigh. split; [|reflexivity].
    rewrite validate_decision_past_count by (rewrite ?Ha; done).
    unfold py_lt_num. rewrite Hc.
    apply Qlt_bool_false_iff in Hhigh. rewrite Hhigh, Ha. reflexivity.
Qed.

(** Each gate of [validate_decision_gate_order], run on a proposal
    that reaches it. *)
Lemma validate_decision_gate_order_witness :
  validate_decision Samples.rm0 Samples.hold Samples.margin (PyNum 953.5)
    = Ok (false, Samples.rm0) /\
  validate_decision Samples.rm_halted Samples.buy Samples.margin (PyNum 953.5)
    = Ok (false, Samples.rm_halted) /\
  validate_decision Samples.rm_capped Samples.sell Samples.margin (PyNum 953.5)
    = Ok (false, Samples.rm_capped) /\
  validate_decision Samples.rm0 Samples.weak_buy Samples.margin (PyNum 953.5)
    = Ok (false, Samples.rm0) /\
  validate_decision Samples.rm0 Samples.sell Samples.margin (PyNum 953.5)
    = Ok (true, Samples.rm0) /\
  validate_decision Samples.rm0 Samples.buy Samples.margin (PyNum 953.5)
    = Ok (true, set_trades_today Samples.rm0 1).
Proof.
  repeat apply conj.
  - apply (proj1 (validate_decision_gate_order
                    Samples.rm0 Samples.hold Samples.margin (PyNum 953.5))).
    reflexivity.
  - apply (proj1 (proj2 (validate_decision_gate_order
                    Samples.rm_halted Samples.buy Samples.margin (PyNum 953.5)))).
    + vm_compute. discriminate.
    + reflexivity.
  - apply (proj1 (proj2 (proj2 (validate_decision_gate_order
                    Samples.rm_capped Samples.sell Samples.margin (PyNum 953.5))))).
    + vm_compute. discriminate.
    + reflexivity.
    + vm_compute. discriminate.
  - apply (proj1 (proj2 (proj2 (proj2 (validate_decision_gate_order
                    Samples.rm0 Samples.weak_buy Samples.margin (PyNum 953.5)))))
             0.5%Q).
    + vm_compute. discriminate.
    + reflexivity.
    + reflexivity.
    + reflexivity.
    + reflexivity.
  - apply (proj1 (proj2 (proj2 (proj2 (proj2 (validate_decision_gate_order
                    Samples.rm0 Samples.sell Samples.margin (PyNum 953.5))))))
             0.9%Q).
    + reflexivity.
    + reflexivity.
    + reflexivity.
    + reflexivity.
    + vm_compute. discriminate.
  - apply (proj2 (proj2 (proj2 (proj2 (proj2 (validate_decision_gate_order
                    Samples.rm0 Samples.buy Samples.margin (PyNum 953.5))))))
             0.86%Q).
    + reflexivity.
    + reflexivity.
    + reflexivity.
    + reflexivity.
    + vm_compute. discriminate.
Defined.

(** C8. A rejection leaves the manager as it was, so the same proposal
    submitted again from the resulting state is rejected again and
    nothing is changed twice. *)
Theorem validate_decision_rejection_idempotent self d p cp self' :
  validate_decision self d p cp = Ok (false, self') ->
  self' = self /\
  trades_today self' = trades_today self /\
  daily_pnl self' = daily_pnl self /\
  is_trading_halted self' = is_trading_halted self /\
  validate_decision self' d p cp = Ok (false, self').
Proof.
  intros Hrej.
  assert (Hsame : self' = self).
  { revert Hrej. unfold validate_decision.
    destruct (py_eq_str _ "HOLD"); [congruence|].
    destruct (is_trading_halted self); [congruence|].
    destruct (trades_today self >=? max_trades_per_day self); [congruence|].
    destruct (py_lt_num _ _) as [[|]|]; [congruence| |discriminate].
    destruct (py_eq_str _ "SELL"); discriminate. }
  subst self'. repeat split; assumption.
Qed.

Lemma validate_decision_rejection_idempotent_witness :
  validate_decision Samples.rm0 Samples.hold Samples.margin (PyNum 953.5)
    = Ok (false, Samples.rm0) /\
  trades_today Samples.rm0 = 0.
Proof.
  destruct (validate_decision_rejection_idempotent
              Samples.rm0 Samples.hold Samples.margin (PyNum 953.5) Samples.rm0)
    as (_ & _ & _ & _ & Hagain).
  - reflexivity.
  - split; [exact Hagain | reflexivity].
Defined.

(** C9. The last branch of [validate_decision] is a catch-all: a
    proposal whose action is neither 'HOLD' nor 'SELL' (any other string,
    or no action at all) and which passes the halt, count and confidence
    gates is approved and counted as a trade: the manager returned has
    [trades_today] one higher, and its P&L, its halt flag and its limits
    are what they were. *)
Theorem validate_decision_catch_all self d p cp c :
  action_of d <> PyStr "HOLD" ->
  action_of d <> PyStr "SELL" ->
  is_trading_halted self = false ->
  trades_today self < max_trades_per_day self ->
  as_number (confidence_of d) = Some c ->
  (min_confidence_threshold self <= c)%Q ->
  let counted := set_trades_today self (trades_today self + 1) in
  validate_decision self d p cp = Ok (true, counted) /\
  trades_today counted = trades_today self + 1 /\
  daily_pnl counted = daily_pnl self /\
  is_trading_halted counted = is_trading_halted self /\
  max_trades_per_day counted = max_trades_per_day self /\
  min_confidence_threshold counted = min_confidence_threshold self.
Proof.
  intros Hhold Hsell Hh Hcount Hc Hhigh counted.
  repeat apply conj; try reflexivity.
  rewrite validate_decision_past_count by assumption.
  unfold py_lt_num. rewrite Hc.
  apply Qlt_bool_false_iff in Hhigh. rewrite Hhigh.
  apply py_eq_str_false in Hsell. rewrite Hsell. reflexivity.
Qed.

(** The catch-all on a proposal that has no ['action'] field: the
    fresh manager approves it and has then counted one trade. *)
Lemma validate_decision_catch_all_witness :
  Samples.no_action !! "action" = None /\
  validate_decision Samples.rm0 Samples.no_action Samples.margin (PyNum 953.5)
    = Ok (true, set_trades_today Samples.rm0 1) /\
  trades_today (set_trades_today Samples.rm0 1) = 1.
Proof.
  pose proof (validate_decision_catch_all
                Samples.rm0 Samples.no_action Samples.margin (PyNum 953.5)
                0.9%Q) as Hcatch.
  destruct Hcatch as (Hv & Ht & _).
  - vm_compute. discriminate.
  - vm_compute. discriminate.
  - reflexivity.
  - reflexivity.
  - reflexivity.
  - vm_compute. discriminate.
  - split; [reflexivity|]. split; [exact Hv | exact Ht].
Defined.

(** The catch-all on an action the oracle was never asked for. *)
Example validate_decision_unknown_action :
  validate_decision Samples.rm0 (Samples.proposal (PyStr "SHORT") 0.9)
    Samples.margin (PyNum 953.5)
  = Ok (true, set_trades_today Samples.rm0 1).
Proof. reflexivity. Qed.

(** No method of the manager clears the halt flag. *)
Lemma run_call_keeps_halt self c :
  is_trading_halted self = true -> is_trading_halted (run_call self c) = true.
Proof.
  intros Hh. destruct c as [d p cp|price|pnl cap]; simpl.
  - rewrite validate_decision_halted by assumption. assumption.
  - unfold calculate_quantity. destruct (Qle_bool price 0); assumption.
  - unfold update_pnl. destruct (Qlt_bool _ _); simpl; [reflexivity|assumption].
Qed.

Lemma run_calls_keep_halt history : forall self,
  is_trading_halted self = true ->
  is_trading_halted (run_calls self history) = true.
Proof.
  induction history as [|c history IH]; intros self Hh; simpl.
  - assumption.
  - apply IH, run_call_keeps_halt, Hh.
Qed.

(** C2. [update_pnl] adds [pnl] to [daily_pnl]; it raises the halt flag
    when the accumulated P&L is strictly below minus
    [starting_capital * max_daily_loss_pct], and otherwise leaves the flag
    as it found it. Once the flag is up it stays up through every later
    call on the manager, whatever the P&L reported. *)
Theorem update_pnl_circuit_breaker self pnl starting_capital :
  let after := update_pnl self pnl starting_capital in
  let limit := (- (starting_capital * max_daily_loss_pct self))%Q in
  daily_pnl after = (daily_pnl self + pnl)%Q /\
  trades_today after = trades_today self /\
  ((daily_pnl self + pnl < limit)%Q -> is_trading_halted after = true) /\
  (~ (daily_pnl self + pnl < limit)%Q ->
   is_trading_halted after = is_trading_halted self) /\
  (is_trading_halted self = false ->
   (is_trading_halted after = true <-> (daily_pnl self + pnl < limit)%Q)) /\
  (is_trading_halted after = true ->
   forall history, is_trading_halted (run_calls after history) = true).
Proof.
  cbv zeta. unfold update_pnl. simpl.
  destruct (Qlt_bool (daily_pnl self + pnl)
              (- (starting_capital * max_daily_loss_pct self))) eqn:E; simpl.
  - apply Qlt_bool_iff in E. repeat split; try tauto.
    intros _ history. apply run_calls_keep_halt. reflexivity.
  - assert (Hno : ~ (daily_pnl self + pnl
                     < - (starting_capital * max_daily_loss_pct self))%Q).
    { intros Hlt. apply Qlt_bool_iff in Hlt. congruence. }
    repeat split; try tauto; try congruence.
    intros Hh history. apply run_calls_keep_halt. exact Hh.
Qed.

(** The scenario of the specification: a loss of 2500 on 100000 trips
    the breaker, and neither a further loss nor a gain of 5000 nor an
    attempt to trade brings it back. *)
Lemma update_pnl_circuit_breaker_witness :
  is_trading_halted Samples.rm0 = false /\
  is_trading_halted (update_pnl Samples.rm0 (-2500) 100000) = true /\
  is_trading_halted
    (run_calls (update_pnl Samples.rm0 (-2500) 100000)
       [CallUpdatePnl (-1500) 100000; CallUpdatePnl 5000 100000;
        CallValidateDecision Samples.sell Samples.margin (PyNum 953.5)])
  = true.
Proof.
  destruct (update_pnl_circuit_breaker Samples.rm0 (-2500) 100000)
    as (_ & _ & Htrip & _ & _ & Hlatch).
  split; [reflexivity|].
  assert (Hh : is_trading_halted (update_pnl Samples.rm0 (-2500) 100000) = true).
  { apply Htrip. reflexivity. }
  split; [exact Hh|]. apply Hlatch. exact Hh.
Defined.

(** A loss that stays within the limit does not halt trading: the
    comparison with the limit is strict. *)
Example update_pnl_at_the_limit :
  is_trading_halted (update_pnl Samples.rm0 (-2000) 100000) = false.
Proof. reflexivity. Qed.

(** C7. [calculate_quantity] returns the floor of
    [max_position_size / price] for a positive price and 0 for a price
    that is zero or negative, and leaves the manager as it was. *)
Theorem calculate_quantity_spec self price :
  ((0 < price)%Q ->
   fst (calculate_quantity self price)
   = Qfloor (max_position_size self / price)) /\
  ((price <= 0)%Q -> fst (calculate_quantity self price) = 0) /\
  snd (calculate_quantity self price) = self /\
  trades_today (snd (calculate_quantity self price)) = trades_today self /\
  daily_pnl (snd (calculate_quantity self price)) = daily_pnl self /\
  is_trading_halted (snd (calculate_quantity self price))
  = is_trading_halted self.
Proof.
  unfold calculate_quantity.
  destruct (Qle_bool price 0) eqn:E; simpl.
  - apply Qle_bool_iff in E. repeat split.
    intros Hpos. destruct (Qlt_not_le _ _ Hpos E).
  - repeat split.
    + intros Hpos. apply py_floordiv_floor, Hpos.
    + intros Hle. apply Qle_bool_iff in Hle. congruence.
Qed.

Lemma calculate_quantity_spec_witness :
  fst (calculate_quantity Samples.rm0 953.5) = 26 /\
  fst (calculate_quantity Samples.rm0 0) = 0 /\
  fst (calculate_quantity Samples.rm0 (-12.5)) = 0.
Proof.
  repeat apply conj.
  - rewrite (proj1 (calculate_quantity_spec Samples.rm0 953.5)); reflexivity.
  - apply (proj1 (proj2 (calculate_quantity_spec Samples.rm0 0))).
    vm_compute. discriminate.
  - apply (proj1 (proj2 (calculate_quantity_spec Samples.rm0 (-12.5)))).
    vm_compute. discriminate.
Defined.

(** C3, as the code behaves. The breaker is tripped; a SELL with
    confidence 0.9 and no trade made so far passes every other gate, and
    [validate_decision] rejects it: the halt test comes before the test
    for 'SELL'. *)
Theorem halted_manager_rejects_sell :
  is_trading_halted Samples.rm_halted = true /\
  action_of Samples.sell = PyStr "SELL" /\
  confidence_of Samples.sell = PyNum 0.9 /\
  (min_confidence_threshold Samples.rm_halted <= 0.9)%Q /\
  trades_today Samples.rm_halted < max_trades_per_day Samples.rm_halted /\
  validate_decision Samples.rm_halted Samples.sell Samples.margin (PyNum 953.5)
  = Ok (false, Samples.rm_halted).
Proof.
  repeat apply conj; try reflexivity.
  vm_compute. discriminate.
Qed.

(** The scenario of the specification: with a cap of two trades, the
    third BUY is rejected on the count alone. *)
Example third_buy_rejected_by_count :
  let rm := RiskManager.init 25000 0.02 0.05 0.75 2 0.02 5 in
  let after_two :=
    run_calls rm [CallValidateDecision Samples.buy Samples.margin (PyNum 953.5);
                  CallValidateDecision Samples.buy Samples.margin (PyNum 953.5)] in
  trades_today after_two = 2 /\
  is_trading_halted after_two = false /\
  validate_decision after_two (Samples.proposal (PyStr "BUY") 0.9)
    Samples.margin (PyNum 953.5) = Ok (false, after_two).
Proof. repeat apply conj; reflexivity. Qed.

End RiskManagerSpec.

(** ** The decision cycle *)

Module TradingAgentSpec.
Import RiskManager TradingAgent PyFacts.
Local Open Scope agent_scope.

(** C4, as the code behaves. RELIANCE and TCS are held. When the oracle
    answers a HOLD for both, both are processed and the next cycle is
    scheduled. When its answer for RELIANCE lacks ['action'] but is
    otherwise complete, the risk manager approves it, [execute_trade]
    raises [KeyError], TCS is never looked at and no timer is started.
    When the oracle fails for RELIANCE and [generate_decision] returns
    [None], subscripting it raises [TypeError], with the same effect. *)
Theorem malformed_decision_aborts_cycle :
  make_decision Samples.morning
    (Samples.world_answering (Some (Some Samples.hold))) Samples.agent0
  = (Ok tt,
     set_decision_timer Samples.agent0 (Some TimerPending),
     [EvFundMargin Samples.client; EvGetPositions Samples.client;
      EvFullMarketQuote Samples.client "NSE_EQ|INE002A01018";
      EvGenerateDecision "NSE_EQ|INE002A01018" true; EvSaveLlmDecision;
      EvFullMarketQuote Samples.client "NSE_EQ|INE467B01029";
      EvGenerateDecision "NSE_EQ|INE467B01029" true; EvSaveLlmDecision;
      EvTimerStart 320]) /\
  make_decision Samples.morning
    (Samples.world_answering (Some (Some Samples.no_action))) Samples.agent0
  = (Raise (KeyError "action"),
     set_risk_manager Samples.agent0 (set_trades_today Samples.rm0 1),
     [EvFundMargin Samples.client; EvGetPositions Samples.client;
      EvFullMarketQuote Samples.client "NSE_EQ|INE002A01018";
      EvGenerateDecision "NSE_EQ|INE002A01018" true; EvSaveLlmDecision]) /\
  make_decision Samples.morning
    (Samples.world_answering None) Samples.agent0
  = (Raise TypeError,
     Samples.agent0,
     [EvFundMargin Samples.client; EvGetPositions Samples.client;
      EvFullMarketQuote Samples.client "NSE_EQ|INE002A01018";
      EvGenerateDecision "NSE_EQ|INE002A01018" true; EvSaveLlmDecision]).
Proof. repeat apply conj; vm_compute; reflexivity. Qed.

(** A dict with a key is not empty. *)
Lemma dict_truthy_lookup (d : gmap string pyval) key v :
  d !! key = Some v -> dict_truthy d = true.
Proof.
  intros Hk. unfold dict_truthy.
  destruct (size d) eqn:E; [|reflexivity].
  apply map_size_empty_inv in E. subst d.
  rewrite lookup_empty in Hk. discriminate.
Qed.

(** A price that is missing or zero is falsy. *)
Lemma missing_or_zero_price_falsy (d : gmap string pyval) :
  d !! "current_price" = None \/
  (exists q, d !! "current_price" = Some (PyNum q) /\ (q == 0)%Q) ->
  truthy (dict_get d "current_price" (PyNum 0)) = false.
Proof.
  intros [Hnone | (q & Hq & Hzero)].
  - rewrite (dict_get_absent _ _ _ Hnone). reflexivity.
  - rewrite (dict_get_present _ _ _ _ Hq). simpl.
    apply Qeq_bool_iff in Hzero. rewrite Hzero. reflexivity.
Qed.

(** C10. [trades_today] counts approvals, not orders. When the oracle
    proposes a BUY that the risk manager approves and the proposal has no
    ['current_price'] (or has it equal to 0), processing the instrument
    returns normally with [trades_today] raised by one and without any
    call to [place_order]: the price is looked at only after
    [validate_decision] has run. *)
Theorem approved_buy_without_price_is_counted_not_placed
    (self : TradingAgent.t) (c : UpstoxClient) (position_present : bool)
    (feed : ClientFeed) (i : Instrument)
    (d portfolio : gmap string pyval) (conf : Q) :
  feed_context (feed_instrument feed i) = Ok (Some portfolio) ->
  feed_llm (feed_instrument feed i) = Some (Some d) ->
  d !! "action" = Some (PyStr "BUY") ->
  (d !! "current_price" = None \/
   (exists q, d !! "current_price" = Some (PyNum q) /\ (q == 0)%Q)) ->
  is_trading_halted (risk_manager self) = false ->
  trades_today (risk_manager self) < max_trades_per_day (risk_manager self) ->
  as_number (confidence_of d) = Some conf ->
  (min_confidence_threshold (risk_manager self) <= conf)%Q ->
  let counted :=
    set_trades_today (risk_manager self)
      (trades_today (risk_manager self) + 1) in
  let trace :=
    [EvFullMarketQuote c (instrument_key i);
     EvGenerateDecision (instrument_key i) position_present;
     EvSaveLlmDecision] in
  validate_decision (risk_manager self) d portfolio
    (dict_get d "current_price" (PyNum 0)) = Ok (true, counted) /\
  process_instrument c position_present feed i self
  = (Ok tt, set_risk_manager self counted, trace) /\
  trades_today (risk_manager (set_risk_manager self counted))
  = trades_today (risk_manager self) + 1 /\
  existsb is_place_order trace = false.
Proof.
  intros Hctx Hllm Hact Hprice Hh Hcount Hconf Hhigh counted trace.
  assert (Hvalid : validate_decision (risk_manager self) d portfolio
                     (dict_get d "current_price" (PyNum 0))
                   = Ok (true, counted)).
  { assert (Ha : action_of d = PyStr "BUY").
    { unfold action_of. apply dict_get_present, Hact. }
    rewrite RiskManagerSpec.validate_decision_past_count
      by (rewrite ?Ha; done).
    unfold py_lt_num. rewrite Hconf.
    apply Qlt_bool_false_iff in Hhigh. rewrite Hhigh, Ha. reflexivity. }
  repeat apply conj; try reflexivity; [exact Hvalid|].
  unfold process_instrument, bind, emit, lift, risk_validate, get_self,
    modify, ret.
  rewrite Hctx, Hllm. simpl.
  rewrite (dict_truthy_lookup _ _ _ Hact).
  unfold bind, get_self, modify, ret. rewrite Hvalid. simpl.
  rewrite (missing_or_zero_price_falsy _ Hprice). reflexivity.
Qed.

(** An approved BUY without a price, from the fresh agent. *)
Lemma approved_buy_without_price_is_counted_not_placed_witness :
  process_instrument Samples.client true
    (Samples.world_answering (Some (Some Samples.buy_no_price)) Samples.client)
    Samples.reliance Samples.agent0
  = (Ok tt,
     set_risk_manager Samples.agent0 (set_trades_today Samples.rm0 1),
     [EvFullMarketQuote Samples.client "NSE_EQ|INE002A01018";
      EvGenerateDecision "NSE_EQ|INE002A01018" true;
      EvSaveLlmDecision]).
Proof.
  apply (approved_buy_without_price_is_counted_not_placed
           Samples.agent0 Samples.client true
           (Samples.world_answering (Some (Some Samples.buy_no_price))
              Samples.client)
           Samples.reliance Samples.buy_no_price Samples.margin 0.86%Q).
  - reflexivity.
  - reflexivity.
  - reflexivity.
  - left. reflexivity.
  - reflexivity.
  - reflexivity.
  - reflexivity.
  - vm_compute. discriminate.
Defined.

(** An empty decision is the one malformed answer the loop does get
    past: an empty dict is falsy, the risk manager is not asked, and the
    cycle goes on to TCS and to the next timer. *)
Example empty_decision_is_skipped :
  make_decision Samples.morning
    (Samples.world_answering (Some (Some ∅))) Samples.agent0
  = (Ok tt,
     set_decision_timer Samples.agent0 (Some TimerPending),
     [EvFundMargin Samples.client; EvGetPositions Samples.client;
      EvFullMarketQuote Samples.client "NSE_EQ|INE002A01018";
      EvGenerateDecision "NSE_EQ|INE002A01018" true; EvSaveLlmDecision;
      EvFullMarketQuote Samples.client "NSE_EQ|INE467B01029";
      EvGenerateDecision "NSE_EQ|INE467B01029" true; EvSaveLlmDecision;
      EvTimerStart 320]).
Proof. vm_compute. reflexivity. Qed.

(** The same proposal with its price is placed as an order. *)
Example approved_buy_with_price_is_placed :
  process_instrument Samples.client true
    (Samples.world_answering (Some (Some Samples.buy)) Samples.client)
    Samples.reliance Samples.agent0
  = (Ok tt,
     set_risk_manager Samples.agent0 (set_trades_today Samples.rm0 1),
     [EvFullMarketQuote Samples.client "NSE_EQ|INE002A01018";
      EvGenerateDecision "NSE_EQ|INE002A01018" true;
      EvSaveLlmDecision;
      EvPlaceOrder Samples.client (PyStr "NSE_EQ|INE002A01018") (PyNum 1)
        "BUY" (PyStr "MARKET") (PyNum 953.5) (PyNum 0) (PyNum 0)]).
Proof. vm_compute. reflexivity. Qed.

(** *** What the instrument loop can and cannot touch *)

Lemma only_risk_changed_refl self : only_risk_changed self self.
Proof. destruct self. reflexivity. Qed.

Lemma only_risk_changed_trans s1 s2 s3 :
  only_risk_changed s1 s2 -> only_risk_changed s2 s3 ->
  only_risk_changed s1 s3.
Proof.
  unfold only_risk_changed. intros H12 H23.
  rewrite H23, H12. reflexivity.
Qed.

Lemma only_risk_changed_set self rm :
  only_risk_changed self (set_risk_manager self rm).
Proof. reflexivity. Qed.

Section Frame.

Variable P : event -> bool.

Hypothesis P_margin : forall c, P (EvFundMargin c) = true.
Hypothesis P_positions : forall c, P (EvGetPositions c) = true.
Hypothesis P_auto_pick : P EvAutoPickInstrumentToTrade = true.
Hypothesis P_stock : P EvGetInstrumentInfoFromStock = true.
Hypothesis P_quote : forall c key, P (EvFullMarketQuote c key) = true.
Hypothesis P_generate : forall key pp, P (EvGenerateDecision key pp) = true.
Hypothesis P_save : P EvSaveLlmDecision = true.
Hypothesis P_order : forall c key q side ot pr sl tp,
  P (EvPlaceOrder c key q side ot pr sl tp) = true.

Lemma framed_ret {A} (a : A) : framed P (ret a).
Proof.
  intros self r self' tr [= <- <- <-].
  split; [apply only_risk_changed_refl | reflexivity].
Qed.

Lemma framed_raise {A} (e : exn) : framed P (@raise A e).
Proof.
  intros self r self' tr [= <- <- <-].
  split; [apply only_risk_changed_refl | reflexivity].
Qed.

Lemma framed_get_self : framed P get_self.
Proof.
  intros self r self' tr [= <- <- <-].
  split; [apply only_risk_changed_refl | reflexivity].
Qed.

Lemma framed_lift {A} (r : result A) : framed P (lift r).
Proof. destruct r; [apply framed_ret | apply framed_raise]. Qed.

Lemma framed_emit (e : event) : P e = true -> framed P (emit e).
Proof.
  intros He self r self' tr [= <- <- <-].
  split; [apply only_risk_changed_refl | simpl; rewrite He; reflexivity].
Qed.

Lemma framed_set_risk_manager rm :
  framed P (modify (fun self => set_risk_manager self rm)).
Proof.
  intros self r self' tr [= <- <- <-].
  split; [apply only_risk_changed_set | reflexivity].
Qed.

Lemma framed_bind {A B} (m : M A) (k : A -> M B) :
  framed P m -> (forall a, framed P (k a)) -> framed P (bind m k).
Proof.
  intros Hm Hk self r self' tr. unfold bind.
  destruct (m self) as [[ra s1] tr1] eqn:Em.
  destruct (Hm _ _ _ _ Em) as [Hs1 Htr1].
  destruct ra as [a|e].
  - destruct (k a s1) as [[rb s2] tr2] eqn:Ek.
    destruct (Hk _ _ _ _ _ Ek) as [Hs2 Htr2].
    intros [= <- <- <-]. split.
    + eapply only_risk_changed_trans; eassumption.
    + rewrite forallb_app, Htr1, Htr2. reflexivity.
  - intros [= <- <- <-]. split; assumption.
Qed.

Lemma framed_for_each {A} (l : list A) (body : A -> M unit) :
  (forall x, framed P (body x)) -> framed P (for_each l body).
Proof.
  intros Hbody. induction l as [|x l IH]; simpl.
  - apply framed_ret.
  - apply framed_bind; [apply Hbody | intros _; exact IH].
Qed.

Lemma framed_dict_item d key : framed P (dict_item d key).
Proof.
  unfold dict_item. destruct (d !! key); [apply framed_ret | apply framed_raise].
Qed.

Lemma framed_execute_trade c d price quantity :
  framed P (execute_trade c d price quantity).
Proof.
  unfold execute_trade.
  apply framed_bind; [apply framed_dict_item | intros instrument].
  apply framed_bind; [apply framed_dict_item | intros action].
  apply framed_bind; [apply framed_dict_item | intros order_type].
  unfold execute_buy, execute_sell, place_order.
  destruct (py_eq_str action "BUY"); [|destruct (py_eq_str action "SELL")];
    try destruct (negb (truthy price));
    first [apply framed_ret | apply framed_emit, P_order].
Qed.

Lemma framed_risk_validate d portfolio_margin price :
  framed P (risk_validate d portfolio_margin price).
Proof.
  unfold risk_validate. destruct portfolio_margin as [portfolio|].
  - apply framed_bind; [apply framed_get_self | intros self].
    destruct (validate_decision _ _ _ _) as [[verdict rm]|e].
    + apply framed_bind; [apply framed_set_risk_manager | intros _].
      apply framed_ret.
    + apply framed_raise.
  - apply framed_raise.
Qed.

Lemma framed_process_instrument c position_present feed i :
  framed P (process_instrument c position_present feed i).
Proof.
  unfold process_instrument.
  apply framed_bind; [apply framed_emit, P_quote | intros _].
  apply framed_bind; [apply framed_lift | intros portfolio_margin].
  apply framed_bind; [apply framed_emit, P_generate | intros _].
  apply framed_bind; [apply framed_emit, P_save | intros _].
  apply framed_bind;
    [destruct (feed_llm _); [apply framed_ret | apply framed_raise]
    | intros response].
  apply framed_bind;
    [destruct response; [apply framed_ret | apply framed_raise] | intros d].
  apply framed_bind;
    [destruct (dict_truthy d); [apply framed_risk_validate | apply framed_ret]
    | intros approved].
  destruct approved; [|apply framed_ret].
  destruct (truthy _); [apply framed_execute_trade | apply framed_ret].
Qed.

Lemma framed_process_instruments c position_present feed instruments :
  framed P (process_instruments c position_present feed instruments).
Proof.
  unfold process_instruments. destruct instruments as [l|[| |row]].
  - apply framed_for_each. intros i. apply framed_process_instrument.
  - apply framed_raise.
  - apply framed_ret.
  - apply framed_raise.
Qed.

Lemma framed_select_instruments c feed :
  framed P (select_instruments c feed).
Proof.
  unfold select_instruments.
  apply framed_bind.
  - unfold get_portfolio_positions.
    apply framed_bind; [apply framed_emit, P_positions | intros _].
    destruct (feed_positions feed); apply framed_ret.
  - intros [[all_positions [|entry open_positions]]|].
    + apply framed_bind; [|intros v; apply framed_ret].
      unfold get_instruments_to_trade.
      apply framed_bind; [apply framed_get_self | intros self].
      destruct (auto_pick_stock self).
      * apply framed_bind; [apply framed_emit, P_auto_pick | intros _].
        apply framed_bind; [apply framed_lift | intros l; apply framed_ret].
      * apply framed_bind; [apply framed_emit, P_stock | intros _].
        apply framed_ret.
    + apply framed_ret.
    + apply framed_raise.
Qed.

Lemma framed_client_cycle world c : framed P (client_cycle world c).
Proof.
  unfold client_cycle.
  apply framed_bind; [apply framed_emit, P_margin | intros _].
  apply framed_bind; [apply framed_select_instruments | intros [pp v]].
  apply framed_process_instruments.
Qed.

End Frame.

(** *** End of day *)

Lemma for_each_emit {A} (l : list A) (ev : A -> event) self :
  for_each l (fun x => emit (ev x)) self = (Ok tt, self, map ev l).
Proof.
  induction l as [|x l IH]; simpl; [reflexivity|].
  unfold bind at 1. simpl. rewrite IH. reflexivity.
Qed.

Lemma cancel_not_pending (tm : option timer) :
  option_map cancel tm <> Some TimerPending.
Proof. destruct tm as [[| |]|]; discriminate. Qed.

(** The state [square_off_all_positions] leaves behind. *)
Lemma square_off_all_positions_run self :
  square_off_all_positions self
  = (Raise SystemExit,
     set_decision_timer (set_is_eod_squaring_off self true)
       (option_map cancel (option_map cancel (decision_timer self))),
     map EvExitAllPositions (upstox_clients self)).
Proof.
  unfold square_off_all_positions, stop, bind, modify, get_self, raise.
  simpl. rewrite for_each_emit. simpl. rewrite app_nil_r. reflexivity.
Qed.

(** With the latch set, [_start_decision_timer] starts nothing. *)
Lemma start_decision_timer_latched self :
  is_eod_squaring_off self = true ->
  _start_decision_timer self
  = (Ok tt, set_decision_timer self (option_map cancel (decision_timer self)),
     []).
Proof.
  intros Heod. unfold _start_decision_timer, bind, modify, get_self. simpl.
  rewrite Heod. reflexivity.
Qed.

Lemma no_timer_start_in_loop world self r self' tr :
  for_each (upstox_clients self) (client_cycle world) self = (r, self', tr) ->
  only_risk_changed self self' /\ forallb no_timer_start tr = true.
Proof.
  apply (framed_for_each no_timer_start). intros c.
  apply framed_client_cycle; reflexivity.
Qed.

Lemma make_decision_latched now world self r self' tr :
  is_eod_squaring_off self = true ->
  make_decision now world self = (r, self', tr) ->
  is_eod_squaring_off self' = true /\ forallb no_timer_start tr = true.
Proof.
  intros Heod. unfold make_decision, bind at 1, get_self.
  destruct (market_close_time self <=? now)%N.
  - rewrite Heod. simpl. intros [= <- <- <-]. split; [assumption|reflexivity].
  - unfold bind.
    destruct (for_each _ _ self) as [[rl s1] tr1] eqn:El.
    destruct (no_timer_start_in_loop _ _ _ _ _ El) as [Hs1 Htr1].
    assert (Heod1 : is_eod_squaring_off s1 = true).
    { rewrite Hs1. exact Heod. }
    destruct rl as [[]|e].
    + rewrite (start_decision_timer_latched _ Heod1).
      intros [= <- <- <-]. simpl. rewrite app_nil_r. split; assumption.
    + intros [= <- <- <-]. simpl. split; assumption.
Qed.

Lemma run_call_latched c self r self' tr :
  is_eod_squaring_off self = true ->
  run_call c self = (r, self', tr) ->
  is_eod_squaring_off self' = true /\ forallb no_timer_start tr = true.
Proof.
  intros Heod. destruct c as [now world|now world| | |]; simpl.
  - apply make_decision_latched, Heod.
  - unfold timer_fires, bind at 1, get_self.
    destruct (decision_timer self) as [[| |]|];
      try (intros [= <- <- <-]; split; [assumption|reflexivity]).
    unfold bind at 1, modify.
    destruct (make_decision _ _ _) as [[rm s1] tr1] eqn:Em.
    apply make_decision_latched in Em; [|exact Heod].
    intros [= <- <- <-]. exact Em.
  - rewrite (start_decision_timer_latched _ Heod).
    intros [= <- <- <-]. split; [assumption|reflexivity].
  - rewrite square_off_all_positions_run. intros [= <- <- <-].
    split; [reflexivity|]. induction (upstox_clients self); simpl; auto.
  - unfold stop, bind, modify, raise. simpl. intros [= <- <- <-].
    split; [assumption|reflexivity].
Qed.

Lemma run_calls_latched history : forall self,
  is_eod_squaring_off self = true ->
  is_eod_squaring_off (fst (run_calls self history)) = true /\
  forallb no_timer_start (snd (run_calls self history)) = true.
Proof.
  induction history as [|c history IH]; intros self Heod; simpl.
  - split; [assumption|reflexivity].
  - destruct (run_call c self) as [[r s1] tr1] eqn:Ec.
    destruct (run_call_latched _ _ _ _ _ Heod Ec) as [Heod1 Htr1].
    destruct (run_calls s1 history) as [s2 tr2] eqn:Eh.
    specialize (IH s1 Heod1). rewrite Eh in IH. destruct IH as [Heod2 Htr2].
    simpl in *. split; [assumption|].
    rewrite forallb_app, Htr1, Htr2. reflexivity.
Qed.

(** C5. A cycle that starts at or after the market close time, with the
    end-of-day latch not yet set, takes the liquidation path: it sets the
    latch, cancels the timer, asks every client to exit all positions and
    stops, and neither looks at an instrument nor touches the risk
    manager. From a state in which the latch is set, whatever entry points
    of the agent are called later and whenever, the latch stays set and no
    timer is ever started again. *)
Theorem eod_square_off_latch (self : TradingAgent.t) (now : time)
    (world : World) :
  ((market_close_time self <= now)%N ->
   is_eod_squaring_off self = false ->
   exists after,
     make_decision now world self
     = (Raise SystemExit, after, map EvExitAllPositions (upstox_clients self)) /\
     is_eod_squaring_off after = true /\
     decision_timer after <> Some TimerPending /\
     risk_manager after = risk_manager self /\
     forall history,
       is_eod_squaring_off (fst (run_calls after history)) = true /\
       forallb no_timer_start (snd (run_calls after history)) = true) /\
  (is_eod_squaring_off self = true ->
   forall history,
     is_eod_squaring_off (fst (run_calls self history)) = true /\
     forallb no_timer_start (snd (run_calls self history)) = true).
Proof.
  split.
  - intros Hclose Heod.
    eexists. repeat apply conj.
    + unfold make_decision, bind at 1, get_self.
      apply N.leb_le in Hclose. rewrite Hclose, Heod. simpl.
      rewrite square_off_all_positions_run. reflexivity.
    + reflexivity.
    + apply cancel_not_pending.
    + reflexivity.
    + intros history. apply run_calls_latched. reflexivity.
  - intros Heod history. apply run_calls_latched, Heod.
Qed.

(** The fired timer calls [make_decision] one microsecond after the
    close: the cycle liquidates. And from a latched agent, a cycle entered
    before the close time and a direct call of [_start_decision_timer]
    start no timer. *)
Lemma eod_square_off_latch_witness :
  (exists after,
     make_decision Samples.afternoon
       (Samples.world_answering (Some (Some Samples.buy)))
       (set_decision_timer Samples.agent0 (Some TimerFired))
     = (Raise SystemExit, after, [EvExitAllPositions Samples.client]) /\
     is_eod_squaring_off after = true /\
     decision_timer after <> Some TimerPending /\
     risk_manager after = Samples.rm0 /\
     forall history,
       is_eod_squaring_off (fst (run_calls after history)) = true /\
       forallb no_timer_start (snd (run_calls after history)) = true) /\
  forallb no_timer_start
    (snd (run_calls (set_is_eod_squaring_off Samples.agent0 true)
            [CallMakeDecision Samples.morning
               (Samples.world_answering (Some (Some Samples.buy)));
             CallStartDecisionTimer])) = true.
Proof.
  split.
  - apply (proj1 (eod_square_off_latch
                    (set_decision_timer Samples.agent0 (Some TimerFired))
                    Samples.afternoon
                    (Samples.world_answering (Some (Some Samples.buy))))).
    + vm_compute. discriminate.
    + reflexivity.
  - apply (proj2 (eod_square_off_latch
                    (set_is_eod_squaring_off Samples.agent0 true)
                    Samples.morning
                    (Samples.world_answering (Some (Some Samples.buy))))).
    reflexivity.
Defined.

(** Before the latch is set, a cycle entered in the morning does start
    the next timer. *)
Example morning_cycle_is_rescheduled :
  forallb no_timer_start
    (snd (run_calls Samples.agent0
            [CallMakeDecision Samples.morning
               (Samples.world_answering (Some (Some Samples.hold)))]))
  = false.
Proof. vm_compute. reflexivity. Qed.

(** *** The instruments of a cycle *)

Lemma is_open_position_iff pos :
  is_open_position pos = true <-> quantity pos <> 0 /\ product pos = "I".
Proof.
  unfold is_open_position.
  rewrite andb_true_iff, negb_true_iff, Z.eqb_neq, String.eqb_eq.
  reflexivity.
Qed.

Lemma odict_keys_set {V} (d : list (string * V)) k v :
  odict_keys (odict_set d k v)
  = if decide (k ∈ odict_keys d) then odict_keys d
    else (odict_keys d ++ [k])%list.
Proof.
  induction d as [|[k' v'] d IH]; simpl.
  - destruct (decide (k ∈ [])) as [Hin|_]; [|reflexivity].
    apply elem_of_nil in Hin. destruct Hin.
  - destruct (String.eqb_spec k' k) as [->|Hne]; simpl.
    + destruct (decide (k ∈ k :: odict_keys d)) as [_|Hout]; [reflexivity|].
      destruct Hout. apply elem_of_cons. left. reflexivity.
    + fold (odict_keys (odict_set d k v)). rewrite IH.
      fold (odict_keys d).
      destruct (decide (k ∈ odict_keys d)) as [Hin|Hout];
        destruct (decide (k ∈ k' :: odict_keys d)) as [Hin'|Hout'];
        try reflexivity.
      * destruct Hout'. apply elem_of_cons. right. exact Hin.
      * apply elem_of_cons in Hin'. destruct Hin' as [->|Hin]; congruence.
Qed.

Lemma odict_set_elem {V} (d : list (string * V)) k v key :
  key ∈ odict_keys (odict_set d k v) <-> key ∈ odict_keys d \/ key = k.
Proof.
  rewrite odict_keys_set. destruct (decide (k ∈ odict_keys d)) as [Hin|Hout].
  - split; [auto | intros [H| ->]; assumption].
  - rewrite elem_of_app, list_elem_of_singleton. reflexivity.
Qed.

Lemma odict_set_NoDup {V} (d : list (string * V)) k v :
  NoDup (odict_keys d) -> NoDup (odict_keys (odict_set d k v)).
Proof.
  intros Hnd. rewrite odict_keys_set.
  destruct (decide (k ∈ odict_keys d)) as [Hin|Hout]; [assumption|].
  apply NoDup_app. repeat split; [assumption | | apply NoDup_singleton].
  intros x Hx Hxk. apply list_elem_of_singleton in Hxk. congruence.
Qed.

(** The keys collected by the loop of [get_portfolio_positions],
    started from any dict. *)
Lemma open_positions_keys_from (ps : list Position) :
  forall d : list (string * Position),
  let d' :=
    foldl (fun d pos =>
             if is_open_position pos
             then odict_set d (instrument_token pos) pos else d) d ps in
  (forall key,
     key ∈ odict_keys d' <->
     key ∈ odict_keys d \/
     exists pos, pos ∈ ps /\ is_open_position pos = true /\
                 instrument_token pos = key) /\
  (NoDup (odict_keys d) -> NoDup (odict_keys d')).
Proof.
  induction ps as [|pos ps IH]; intros d; simpl.
  - split; [|auto]. intros key. split; [auto|].
    intros [H|(pos & Hin & _)]; [assumption|].
    apply elem_of_nil in Hin. destruct Hin.
  - destruct (IH (if is_open_position pos
                  then odict_set d (instrument_token pos) pos else d))
      as [Hmem Hnd].
    split.
    + intros key. rewrite Hmem. clear Hmem Hnd IH.
      destruct (is_open_position pos) eqn:Eopen.
      * rewrite odict_set_elem. split.
        -- intros [[H| ->]|(p & Hin & Hop & Hk)].
           ++ left. assumption.
           ++ right. exists pos. repeat split; [apply elem_of_cons; auto|assumption].
           ++ right. exists p. repeat split; [apply elem_of_cons; auto|assumption|assumption].
        -- intros [H|(p & Hin & Hop & Hk)].
           ++ left. left. assumption.
           ++ apply elem_of_cons in Hin. destruct Hin as [->|Hin].
              ** left. right. congruence.
              ** right. exists p. auto.
      * split.
        -- intros [H|(p & Hin & Hop & Hk)]; [auto|].
           right. exists p. repeat split; [apply elem_of_cons; auto|assumption|assumption].
        -- intros [H|(p & Hin & Hop & Hk)]; [auto|].
           apply elem_of_cons in Hin. destruct Hin as [->|Hin]; [congruence|].
           right. exists p. auto.
    + intros Hd. apply Hnd.
      destruct (is_open_position pos); [apply odict_set_NoDup|]; assumption.
Qed.

Lemma open_positions_dic_keys (ps : list Position) :
  (forall key,
     key ∈ odict_keys (open_positions_dic ps) <->
     exists pos, pos ∈ ps /\ quantity pos <> 0 /\ product pos = "I" /\
                 instrument_token pos = key) /\
  NoDup (odict_keys (open_positions_dic ps)).
Proof.
  destruct (open_positions_keys_from ps []) as [Hmem Hnd]. split.
  - intros key. unfold open_positions_dic. rewrite Hmem. split.
    + intros [Hin|(pos & Hin & Hop & Hk)].
      * apply elem_of_nil in Hin. destruct Hin.
      * apply is_open_position_iff in Hop. exists pos. tauto.
    + intros (pos & Hin & Hq & Hp & Hk). right. exists pos.
      rewrite is_open_position_iff. tauto.
  - apply Hnd. apply NoDup_nil. exact I.
Qed.

(** A row found for a key is a row of the table with that key. *)
Lemma get_instrument_info_row c key row :
  get_instrument_info_from_instrument_key c key = InfoRow row ->
  instrument_key row = key /\ row ∈ nse_instruments c.
Proof.
  unfold get_instrument_info_from_instrument_key.
  destruct (nse_instruments c) as [|r0 table] eqn:Et; [discriminate|].
  destruct (filter _ (r0 :: table)) as [|r rest] eqn:Ef; [discriminate|].
  intros [= <-].
  assert (Hin : r ∈ filter (fun row => instrument_key row = key) (r0 :: table)).
  { rewrite Ef. apply elem_of_cons. left. reflexivity. }
  apply list_elem_of_filter in Hin. exact Hin.
Qed.

(** C6. When the snapshot of the brokerage has an open position (a
    quantity other than 0 under product code 'I'), the instruments of the
    cycle are the table rows of the held instrument keys, each key once, a
    key without a row being dropped; the state of the agent is not
    touched, and neither the selection nor the rest of the client's cycle
    calls the candidate selection, whatever [auto_pick_stock] says. *)
Theorem open_positions_decide_the_instruments
    (self : TradingAgent.t) (world : World) (c : UpstoxClient)
    (ps : list Position) :
  feed_positions (world c) = Ok (Some ps) ->
  (exists pos, pos ∈ ps /\ quantity pos <> 0 /\ product pos = "I") ->
  let keys := odict_keys (open_positions_dic ps) in
  let instruments :=
    omap (fun key => info_row (get_instrument_info_from_instrument_key c key))
      keys in
  select_instruments c (world c) self
  = (Ok (true, InstrList instruments), self, [EvGetPositions c]) /\
  (forall key,
     key ∈ keys <->
     exists pos, pos ∈ ps /\ quantity pos <> 0 /\ product pos = "I" /\
                 instrument_token pos = key) /\
  NoDup keys /\
  (forall i,
     i ∈ instruments <->
     exists key, key ∈ keys /\
                 get_instrument_info_from_instrument_key c key = InfoRow i) /\
  (forall i, i ∈ instruments ->
     instrument_key i ∈ keys /\ i ∈ nse_instruments c) /\
  (forall r self' tr,
     client_cycle world c self = (r, self', tr) ->
     forallb no_candidate_selection tr = true).
Proof.
  intros Hfeed (pos0 & Hin0 & Hq0 & Hp0) keys instruments.
  destruct (open_positions_dic_keys ps) as [Hkeys Hnodup].
  assert (Hresolved : forall i,
             i ∈ instruments <->
             exists key, key ∈ keys /\
               get_instrument_info_from_instrument_key c key = InfoRow i).
  { intros i. unfold instruments. rewrite list_elem_of_omap.
    split; intros (key & Hk & Hrow); exists key; split; try assumption.
    - destruct (get_instrument_info_from_instrument_key c key);
        simpl in Hrow; congruence.
    - rewrite Hrow. reflexivity. }
  assert (Hselect : select_instruments c (world c) self
                    = (Ok (true, InstrList instruments), self, [EvGetPositions c])).
  { unfold select_instruments, get_portfolio_positions, bind, emit, ret.
    rewrite Hfeed. simpl.
    assert (Hk : instrument_token pos0 ∈ keys).
    { apply Hkeys. exists pos0. auto. }
    subst instruments keys.
    destruct (open_positions_dic ps) as [|entry d].
    - apply elem_of_nil in Hk. destruct Hk.
    - reflexivity. }
  repeat apply conj; try assumption.
  - intros i Hi. apply Hresolved in Hi. destruct Hi as (key & Hk & Hrow).
    apply get_instrument_info_row in Hrow. destruct Hrow as [<- Htable].
    split; assumption.
  - intros r self' tr. unfold client_cycle, bind at 1, emit.
    unfold bind at 1. rewrite Hselect.
    destruct (process_instruments c true (world c) (InstrList instruments) self)
      as [[rp sp] trp] eqn:Ep.
    intros [= <- <- <-].
    assert (Hp : forallb no_candidate_selection trp = true).
    { eapply (framed_process_instruments no_candidate_selection);
        [..|exact Ep]; reflexivity. }
    simpl. exact Hp.
Qed.

(** RELIANCE and TCS are held, the closed position and the delivery
    holding do not count, and the held key without a row is dropped. *)
Lemma open_positions_decide_the_instruments_witness :
  auto_pick_stock Samples.agent0 = true /\
  select_instruments Samples.client
    (Samples.world_answering (Some (Some Samples.hold)) Samples.client)
    Samples.agent0
  = (Ok (true, InstrList [Samples.reliance; Samples.tcs]), Samples.agent0,
     [EvGetPositions Samples.client]).
Proof.
  split; [reflexivity|].
  apply (open_positions_decide_the_instruments Samples.agent0
           (Samples.world_answering (Some (Some Samples.hold)))
           Samples.client Samples.held).
  - reflexivity.
  - exists {| instrument_token := "NSE_EQ|INE002A01018"; quantity := 10;
              product := "I" |}.
    split; [apply elem_of_cons; left; reflexivity|].
    split; [discriminate | reflexivity].
Defined.

(** With nothing held, the selection goes to the candidates. *)
Example no_position_goes_to_auto_pick :
  select_instruments Samples.client
    {| feed_positions := Ok (Some []);
       feed_auto_pick := Ok [Samples.tcs];
       feed_configured_stock := InfoEmpty;
       feed_instrument :=
         feed_instrument
           (Samples.world_answering (Some (Some Samples.hold)) Samples.client) |}
    Samples.agent0
  = (Ok (false, InstrList [Samples.tcs]), Samples.agent0,
     [EvGetPositions Samples.client; EvAutoPickInstrumentToTrade]).
Proof. reflexivity. Qed.

End TradingAgentSpec.

(** ** More on the risk policy *)

Module RiskManagerMore.
Import RiskManager RiskHistory PyFacts.

(** What one call of [validate_decision] can do to the manager: nothing,
    or count one trade when it approves from a state that is neither
    halted nor at the cap. *)
Lemma validate_decision_effect self d p cp verdict self' :
  validate_decision self d p cp = Ok (verdict, self') ->
  self' = self \/
  (verdict = true /\
   self' = set_trades_today self (trades_today self + 1) /\
   is_trading_halted self = false /\
   trades_today self < max_trades_per_day self).
Proof.
  unfold validate_decision.
  destruct (py_eq_str _ "HOLD"); [intros [= <- <-]; auto|].
  destruct (is_trading_halted self) eqn:Eh; [intros [= <- <-]; auto|].
  destruct (Z.geb_spec (trades_today self) (max_trades_per_day self));
    [intros [= <- <-]; auto|].
  destruct (py_lt_num _ _) as [[|]|]; [intros [= <- <-]; auto| |discriminate].
  destruct (py_eq_str _ "SELL"); intros [= <- <-];
    [left; reflexivity | right; repeat split; assumption].
Qed.

Lemma run_call_limits self c : limits (run_call self c) = limits self.
Proof.
  destruct c as [d p cp|price|pnl cap]; simpl.
  - destruct (validate_decision self d p cp) as [[v self']|e] eqn:E; [|reflexivity].
    destruct (validate_decision_effect _ _ _ _ _ _ E) as [->|(_ & -> & _)];
      reflexivity.
  - unfold calculate_quantity. destruct (Qle_bool price 0); reflexivity.
  - unfold update_pnl. destruct (Qlt_bool _ _); reflexivity.
Qed.

Lemma run_calls_limits history : forall self,
  limits (run_calls self history) = limits self.
Proof.
  induction history as [|c history IH]; intros self; simpl; [reflexivity|].
  unfold run_calls in IH. rewrite IH. apply run_call_limits.
Qed.

Lemma run_call_trades self c :
  trades_today self <= trades_today (run_call self c) /\
  (trades_today self <= max_trades_per_day self ->
   trades_today (run_call self c) <= max_trades_per_day self).
Proof.
  destruct c as [d p cp|price|pnl cap]; simpl.
  - destruct (validate_decision self d p cp) as [[v self']|e] eqn:E; [|lia].
    destruct (validate_decision_effect _ _ _ _ _ _ E)
      as [->|(_ & -> & _ & Hlt)]; simpl; lia.
  - unfold calculate_quantity. destruct (Qle_bool price 0); simpl; lia.
  - unfold update_pnl. destruct (Qlt_bool _ _); simpl; lia.
Qed.

(** X1. Whatever calls are made on the manager, [trades_today] never
    goes down, and a count that starts within [max_trades_per_day] never
    goes past it. *)
Theorem trades_today_within_cap history : forall self,
  trades_today self <= max_trades_per_day self ->
  trades_today self <= trades_today (run_calls self history) /\
  trades_today (run_calls self history) <= max_trades_per_day self.
Proof.
  induction history as [|c history IH]; intros self Hcap; simpl; [lia|].
  destruct (run_call_trades self c) as [Hmono Hkeep].
  specialize (Hkeep Hcap).
  assert (Hmax : max_trades_per_day (run_call self c) = max_trades_per_day self).
  { pose proof (run_call_limits self c) as Hl. unfold limits in Hl.
    congruence. }
  destruct (IH (run_call self c)) as [H1 H2]; [lia|].
  unfold run_calls in *. lia.
Qed.

(** A cap of two: after three approvable BUY proposals the count is 2. *)
Lemma trades_today_within_cap_witness :
  trades_today
    (run_calls (RiskManager.init 25000 0.02 0.05 0.75 2 0.02 5)
       [CallValidateDecision Samples.buy Samples.margin (PyNum 953.5);
        CallValidateDecision Samples.buy Samples.margin (PyNum 953.5);
        CallValidateDecision Samples.buy Samples.margin (PyNum 953.5)])
  <= 2.
Proof.
  apply (trades_today_within_cap
           [CallValidateDecision Samples.buy Samples.margin (PyNum 953.5);
            CallValidateDecision Samples.buy Samples.margin (PyNum 953.5);
            CallValidateDecision Samples.buy Samples.margin (PyNum 953.5)]
           (RiskManager.init 25000 0.02 0.05 0.75 2 0.02 5)).
  vm_compute. discriminate.
Defined.

Lemma run_call_daily_pnl self c :
  daily_pnl (run_call self c) = pnl_running (daily_pnl self) [c].
Proof.
  destruct c as [d p cp|price|pnl cap]; simpl.
  - destruct (validate_decision self d p cp) as [[v self']|e] eqn:E;
      [|reflexivity].
    destruct (validate_decision_effect _ _ _ _ _ _ E) as [->|(_ & -> & _)];
      reflexivity.
  - unfold calculate_quantity. destruct (Qle_bool price 0); reflexivity.
  - unfold update_pnl. destruct (Qlt_bool _ _); reflexivity.
Qed.

(** X2. After any history of calls, [daily_pnl] is the running total of
    the amounts passed to [update_pnl], each added to what was there, in
    the order of the calls, starting from the [daily_pnl] the history began
    with: validating decisions and sizing positions in between never moves
    it, and neither does tripping the breaker. The equality is between the
    very sums the code computes, addition by addition. *)
Theorem daily_pnl_accumulates history : forall self,
  daily_pnl (run_calls self history) = pnl_running (daily_pnl self) history.
Proof.
  induction history as [|c history IH]; intros self; [reflexivity|].
  change (run_calls self (c :: history))
    with (run_calls (run_call self c) history).
  rewrite IH, run_call_daily_pnl. reflexivity.
Qed.

(** X3. Trading is halted after a history exactly when it was halted
    before or some call of [update_pnl] in it brought the running
    [daily_pnl] strictly below minus [starting_capital * max_daily_loss_pct]
    at the moment of that call. Nothing else halts trading, and a later
    recovery does not count. *)
Theorem halted_iff_some_breach history : forall self,
  is_trading_halted (run_calls self history) = true <->
  is_trading_halted self = true \/
  exists before pnl starting_capital after,
    history = (before ++ CallUpdatePnl pnl starting_capital :: after)%list /\
    (daily_pnl (run_calls self before) + pnl
     < - (starting_capital * max_daily_loss_pct self))%Q.
Proof.
  induction history as [|c history IH]; intros self.
  - simpl. split; [auto|]. intros [H|(b & pnl & cap & a & Hh & _)]; [assumption|].
    destruct b; discriminate.
  - change (run_calls self (c :: history))
      with (run_calls (run_call self c) history).
    rewrite IH. clear IH.
    assert (Hpct : max_daily_loss_pct (run_call self c) = max_daily_loss_pct self).
    { pose proof (run_call_limits self c) as Hl. unfold limits in Hl.
      congruence. }
    split.
    + intros [Hh|(b & pnl & cap & a & -> & Hlt)].
      * destruct (is_trading_halted self) eqn:Eh; [auto|]. right.
        destruct c as [d p cp|price|pnl cap]; simpl in Hh.
        -- destruct (validate_decision self d p cp) as [[v self']|e] eqn:E;
             [|congruence].
           destruct (validate_decision_effect _ _ _ _ _ _ E)
             as [->|(_ & -> & _)]; simpl in Hh; congruence.
        -- unfold calculate_quantity in Hh.
           destruct (Qle_bool price 0); simpl in Hh; congruence.
        -- exists [], pnl, cap, history. split; [reflexivity|]. simpl.
           unfold update_pnl in Hh. simpl in Hh.
           destruct (Qlt_bool _ _) eqn:El in Hh; simpl in Hh; [|congruence].
           apply Qlt_bool_iff in El. exact El.
      * right. exists (c :: b), pnl, cap, a. split; [reflexivity|].
        change (run_calls self (c :: b)) with (run_calls (run_call self c) b).
        rewrite <- Hpct. exact Hlt.
    + intros [Hh|(b & pnl & cap & a & Hsplit & Hlt)].
      * left. apply RiskManagerSpec.run_call_keeps_halt, Hh.
      * destruct b as [|c' b]; simpl in Hsplit; injection Hsplit as Hc Ha;
          subst c history.
        -- left. simpl in Hlt. simpl. unfold update_pnl. simpl.
           apply Qlt_bool_iff in Hlt. rewrite Hlt. reflexivity.
        -- right. exists b, pnl, cap, a. split; [reflexivity|].
           rewrite Hpct. exact Hlt.
Qed.

(** A loss of 2500 on 100000 followed by a gain of 5000: the day ends
    with a profit and trading is halted, because of the second call. *)
Lemma halted_iff_some_breach_witness :
  is_trading_halted
    (run_calls Samples.rm0
       [CallValidateDecision Samples.buy Samples.margin (PyNum 953.5);
        CallUpdatePnl (-2500) 100000; CallUpdatePnl 5000 100000]) = true.
Proof.
  apply (proj2 (halted_iff_some_breach
                  [CallValidateDecision Samples.buy Samples.margin (PyNum 953.5);
                   CallUpdatePnl (-2500) 100000; CallUpdatePnl 5000 100000]
                  Samples.rm0)).
  right.
  exists [CallValidateDecision Samples.buy Samples.margin (PyNum 953.5)],
    (-2500)%Q, 100000%Q, [CallUpdatePnl 5000 100000].
  split; reflexivity.
Defined.

Lemma calculate_quantity_positive_price self price :
  (0 < price)%Q ->
  fst (calculate_quantity self price)
  = Qfloor (max_position_size self / price).
Proof.
  intros Hpos. unfold calculate_quantity.
  destruct (Qle_bool price 0) eqn:E; simpl.
  - apply Qle_bool_iff in E. destruct (Qlt_not_le _ _ Hpos E).
  - apply py_floordiv_floor, Hpos.
Qed.

(** X4. For a positive price and a non-negative [max_position_size],
    the quantity returned is the largest whole number of shares the
    position size pays for: it is not negative, its value does not exceed
    [max_position_size], and one share more would. *)
Theorem calculate_quantity_within_budget self price :
  (0 < price)%Q ->
  (0 <= max_position_size self)%Q ->
  let quantity := fst (calculate_quantity self price) in
  0 <= quantity /\
  (inject_Z quantity * price <= max_position_size self)%Q /\
  (max_position_size self < inject_Z (quantity + 1) * price)%Q.
Proof.
  intros Hpos Hsize quantity. subst quantity.
  rewrite calculate_quantity_positive_price by assumption.
  set (x := (max_position_size self / price)%Q).
  assert (Hne : ~ (price == 0)%Q).
  { intros Hz. rewrite Hz in Hpos. discriminate. }
  assert (Hx : (x * price == max_position_size self)%Q).
  { unfold x. rewrite Qmult_comm. apply Qmult_div_r, Hne. }
  assert (Hx0 : (0 <= x)%Q).
  { unfold x. apply Qle_shift_div_l; [assumption|].
    rewrite Qmult_0_l. assumption. }
  repeat apply conj.
  - change 0 with (Qfloor 0). apply Qfloor_resp_le, Hx0.
  - rewrite <- Hx. apply Qmult_le_compat_r; [apply Qfloor_le|].
    apply Qlt_le_weak, Hpos.
  - rewrite <- Hx. apply Qmult_lt_compat_r; [assumption|apply Qlt_floor].
Qed.

(** At 953.5 a share, 25000 pays for 26 shares and not for 27. *)
Lemma calculate_quantity_within_budget_witness :
  (inject_Z (fst (calculate_quantity Samples.rm0 953.5)) * 953.5 <= 25000)%Q /\
  (25000 < inject_Z (fst (calculate_quantity Samples.rm0 953.5) + 1) * 953.5)%Q.
Proof.
  destruct (calculate_quantity_within_budget Samples.rm0 953.5)
    as (_ & Hle & Hlt).
  - reflexivity.
  - vm_compute. discriminate.
  - split; [exact Hle | exact Hlt].
Defined.

(** X5. The quantity does not grow with the price: with a non-negative
    [max_position_size], a dearer share never gives more shares. *)
Theorem calculate_quantity_antitone self cheap dear :
  (0 <= max_position_size self)%Q ->
  (0 < cheap)%Q ->
  (cheap <= dear)%Q ->
  fst (calculate_quantity self dear) <= fst (calculate_quantity self cheap).
Proof.
  intros Hsize Hcheap Hle.
  assert (Hdear : (0 < dear)%Q) by (eapply Qlt_le_trans; eassumption).
  rewrite !calculate_quantity_positive_price by assumption.
  apply Qfloor_resp_le.
  apply Qle_shift_div_r; [assumption|].
  assert (Hne : ~ (cheap == 0)%Q).
  { intros Hz. rewrite Hz in Hcheap. discriminate. }
  assert (Hx0 : (0 <= max_position_size self / cheap)%Q).
  { apply Qle_shift_div_l; [assumption|]. rewrite Qmult_0_l. assumption. }
  assert (Heq : (max_position_size self / cheap * cheap
                 == max_position_size self)%Q).
  { rewrite Qmult_comm. apply Qmult_div_r, Hne. }
  apply Qle_trans with (max_position_size self / cheap * cheap)%Q.
  - rewrite Heq. apply Qle_refl.
  - rewrite (Qmult_comm _ cheap), (Qmult_comm _ dear).
    apply Qmult_le_compat_r; assumption.
Qed.

Lemma calculate_quantity_antitone_witness :
  fst (calculate_quantity Samples.rm0 1200) <=
  fst (calculate_quantity Samples.rm0 953.5).
Proof.
  apply (calculate_quantity_antitone Samples.rm0 953.5 1200).
  - vm_compute. discriminate.
  - reflexivity.
  - vm_compute. discriminate.
Defined.

(** With a dict for portfolio, the only exception of the model is the
    [TypeError] of comparing a confidence that is not a number, and it is
    reached exactly past the first three gates. *)
Lemma validate_decision_raise_cases self d p cp e :
  validate_decision self d p cp = Raise e <->
  e = TypeError /\
  action_of d <> PyStr "HOLD" /\
  is_trading_halted self = false /\
  trades_today self < max_trades_per_day self /\
  as_number (confidence_of d) = None.
Proof.
  split.
  - unfold validate_decision. fold (action_of d). fold (confidence_of d).
    destruct (py_eq_str (action_of d) "HOLD") eqn:Ea; [discriminate|].
    apply py_eq_str_false in Ea.
    destruct (is_trading_halted self); [discriminate|].
    destruct (Z.geb_spec (trades_today self) (max_trades_per_day self));
      [discriminate|].
    unfold py_lt_num.
    destruct (as_number (confidence_of d)) as [c|].
    + destruct (Qlt_bool c _); [discriminate|].
      destruct (py_eq_str _ "SELL"); discriminate.
    + intros [= <-]. repeat split; assumption.
  - intros (-> & Ha & Hh & Hcount & Hc).
    rewrite RiskManagerSpec.validate_decision_past_count by assumption.
    unfold py_lt_num. rewrite Hc. reflexivity.
Qed.

(** X7. The verdict and the state after [validate_decision] depend on
    the proposal only through ['action'] and ['confidence_score']: the
    quantity, the price and the available margin of the portfolio, which
    the method reads or receives, never change the outcome. *)
Theorem validate_decision_reads_action_and_confidence
    self d d' p p' cp cp' :
  d !! "action" = d' !! "action" ->
  d !! "confidence_score" = d' !! "confidence_score" ->
  validate_decision self d p cp = validate_decision self d' p' cp'.
Proof.
  intros Ha Hc. unfold validate_decision, dict_get. rewrite Ha, Hc.
  reflexivity.
Qed.

(** A BUY of 1000 shares with no margin at all is approved like the BUY
    of one share with a margin of 50000. *)
Lemma validate_decision_reads_action_and_confidence_witness :
  validate_decision Samples.rm0
    (<["quantity" := PyNum 1000]> Samples.buy) ∅ (PyNum 953.5)
  = Ok (true, set_trades_today Samples.rm0 1).
Proof.
  rewrite (validate_decision_reads_action_and_confidence Samples.rm0
             (<["quantity" := PyNum 1000]> Samples.buy) Samples.buy
             ∅ Samples.margin (PyNum 953.5) (PyNum 953.5));
    reflexivity.
Defined.

End RiskManagerMore.

(** ** More on the decision cycle *)

Module TradingAgentMore.
Import RiskManager TradingAgent Observations PyFacts.
Local Open Scope agent_scope.

Lemma set_risk_manager_same self :
  set_risk_manager self (risk_manager self) = self.
Proof. destruct self. reflexivity. Qed.

(** What [execute_trade] does: it raises [KeyError] for the first of
    ['instrument_key'], ['action'], ['order_type'] that is missing, and
    otherwise sends one order when the action is 'BUY' or 'SELL' and the
    price is truthy, and nothing else. *)
Lemma execute_trade_outcome c d price quantity self r self' tr :
  execute_trade c d price quantity self = (r, self', tr) ->
  self' = self /\
  (tr = [] \/
   exists key side order_type,
     r = Ok tt /\
     d !! "instrument_key" = Some key /\
     d !! "action" = Some (PyStr side) /\
     d !! "order_type" = Some order_type /\
     (side = "BUY" \/ side = "SELL") /\
     truthy price = true /\
     tr = [EvPlaceOrder c key quantity side order_type price
             (py_or (dict_get d "stop_loss" PyNone) (PyNum 0))
             (py_or (dict_get d "take_profit" PyNone) (PyNum 0))]).
Proof.
  unfold execute_trade, dict_item, bind, ret, raise.
  destruct (d !! "instrument_key") as [key|]; simpl;
    [|intros [= <- <- <-]; auto].
  destruct (d !! "action") as [action|]; simpl;
    [|intros [= <- <- <-]; auto].
  destruct (d !! "order_type") as [order_type|]; simpl;
    [|intros [= <- <- <-]; auto].
  unfold execute_buy, execute_sell, place_order, emit, ret.
  destruct (py_eq_str action "BUY") eqn:Eb.
  - apply py_eq_str_true in Eb. subst action.
    destruct (truthy price) eqn:Ep; simpl; intros [= <- <- <-];
      split; auto.
    right. exists key, "BUY", order_type. repeat split; auto.
  - destruct (py_eq_str action "SELL") eqn:Es.
    + apply py_eq_str_true in Es. subst action.
      destruct (truthy price) eqn:Ep; simpl; intros [= <- <- <-];
        split; auto.
      right. exists key, "SELL", order_type. repeat split; auto.
    + intros [= <- <- <-]. auto.
Qed.

(** An approval comes from a manager that is neither halted nor at
    its cap, and counts a trade unless the action is 'SELL'. *)
Lemma validate_decision_approved self d p cp self' :
  validate_decision self d p cp = Ok (true, self') ->
  is_trading_halted self = false /\
  trades_today self < max_trades_per_day self /\
  ((action_of d = PyStr "SELL" /\ self' = self) \/
   (action_of d <> PyStr "SELL" /\
    self' = set_trades_today self (trades_today self + 1))).
Proof.
  unfold validate_decision. fold (action_of d).
  destruct (py_eq_str _ "HOLD"); [discriminate|].
  destruct (is_trading_halted self); [discriminate|].
  destruct (Z.geb_spec (trades_today self) (max_trades_per_day self));
    [discriminate|].
  destruct (py_lt_num _ _) as [[|]|]; [discriminate| |discriminate].
  destruct (py_eq_str (action_of d) "SELL") eqn:Es; intros [= <-].
  - apply py_eq_str_true in Es. auto.
  - apply py_eq_str_false in Es. auto.
Qed.

(** X6. When [validate_decision] raises, as the agent calls it. The
    portfolio the agent passes is the dict of [get_user_fund_margin], or
    [None] when the margin could not be fetched. For a proposal whose
    confidence the rejection log can format, the call raises in exactly two
    cases: with [AttributeError] when the portfolio is [None], whatever the
    proposal and the state of the manager, since [portfolio.get] runs
    before any gate; and with [TypeError] when the portfolio is a dict, the
    proposal is not a HOLD, the manager is neither halted nor at its cap,
    and ['confidence_score'] is present but is not a number. Either way
    the agent and its manager are left as they were. *)
Theorem risk_validate_raises_iff d pm cp self e self' tr :
  RiskHistory.confidence_formats d ->
  (risk_validate d pm cp self = (Raise e, self', tr) <->
   self' = self /\ tr = [] /\
   ((pm = None /\ e = AttributeError) \/
    (exists portfolio,
       pm = Some portfolio /\
       e = TypeError /\
       action_of d <> PyStr "HOLD" /\
       is_trading_halted (risk_manager self) = false /\
       trades_today (risk_manager self)
       < max_trades_per_day (risk_manager self) /\
       as_number (confidence_of d) = None))).
Proof.
  intros _. unfold risk_validate. destruct pm as [portfolio|].
  - unfold bind, get_self, modify, ret, raise.
    destruct (validate_decision (risk_manager self) d portfolio cp)
      as [[verdict rm]|e0] eqn:Ev.
    + split; [discriminate|].
      intros (_ & _ & [[[=] _]|(p & _ & Hcases)]).
      apply (proj2 (RiskManagerMore.validate_decision_raise_cases
                      (risk_manager self) d portfolio cp e)) in Hcases.
      congruence.
    + split.
      * intros [= <- <- <-].
        apply (proj1 (RiskManagerMore.validate_decision_raise_cases
                        (risk_manager self) d portfolio cp e0)) in Ev.
        repeat split. right. exists portfolio. split; [reflexivity|exact Ev].
      * intros (-> & -> & [[[=] _]|(p & _ & Hcases)]).
        apply (proj2 (RiskManagerMore.validate_decision_raise_cases
                        (risk_manager self) d portfolio cp e)) in Hcases.
        simpl. congruence.
  - unfold raise. split.
    + intros [= <- <- <-]. repeat split. left. split; reflexivity.
    + intros (-> & -> & [[_ ->]|(p & [=] & _)]). reflexivity.
Qed.

(** Without a margin the call raises [AttributeError] even for a HOLD;
    with one, a confidence given as the string "0.9" raises [TypeError]. *)
Lemma risk_validate_raises_iff_witness :
  risk_validate Samples.hold None (PyNum 953.5) Samples.agent0
  = (Raise AttributeError, Samples.agent0, []) /\
  risk_validate (<["confidence_score" := PyStr "0.9"]> Samples.buy)
    (Some Samples.margin) (PyNum 953.5) Samples.agent0
  = (Raise TypeError, Samples.agent0, []).
Proof.
  split.
  - apply (risk_validate_raises_iff Samples.hold None (PyNum 953.5)
             Samples.agent0 AttributeError Samples.agent0 []).
    + intros q Hq. vm_compute in Hq. injection Hq as <-.
      vm_compute. discriminate.
    + repeat split. left. split; reflexivity.
  - apply (risk_validate_raises_iff
             (<["confidence_score" := PyStr "0.9"]> Samples.buy)
             (Some Samples.margin) (PyNum 953.5)
             Samples.agent0 TypeError Samples.agent0 []).
    + intros q Hq. vm_compute in Hq. discriminate Hq.
    + repeat split. right. exists Samples.margin.
      repeat apply conj; try reflexivity.
      vm_compute. discriminate.
Defined.

(** What processing one instrument can do. Either nothing is approved:
    the agent is as it was and no order is sent. Or the risk manager
    approved the oracle's decision: the agent holds the manager as
    [validate_decision] left it, and the trace is the three calls that
    lead to the decision followed by at most one order, sent by
    [execute_trade]. *)
Lemma process_instrument_outcome c pp feed i self r self' tr :
  process_instrument c pp feed i self = (r, self', tr) ->
  let calls :=
    [EvFullMarketQuote c (instrument_key i);
     EvGenerateDecision (instrument_key i) pp;
     EvSaveLlmDecision] in
  (self' = self /\ forallb no_place_order tr = true /\
   count is_generate_decision tr <= 1) \/
  exists d portfolio rm',
    feed_llm (feed_instrument feed i) = Some (Some d) /\
    feed_context (feed_instrument feed i) = Ok (Some portfolio) /\
    validate_decision (risk_manager self) d portfolio
      (dict_get d "current_price" (PyNum 0)) = Ok (true, rm') /\
    self' = set_risk_manager self rm' /\
    (tr = calls \/
     exists key side order_type,
       r = Ok tt /\
       d !! "instrument_key" = Some key /\
       d !! "action" = Some (PyStr side) /\
       d !! "order_type" = Some order_type /\
       (side = "BUY" \/ side = "SELL") /\
       truthy (dict_get d "current_price" (PyNum 0)) = true /\
       tr = (calls ++
             [EvPlaceOrder c key (dict_get d "quantity" (PyNum 0)) side
                order_type (dict_get d "current_price" (PyNum 0))
                (py_or (dict_get d "stop_loss" PyNone) (PyNum 0))
                (py_or (dict_get d "take_profit" PyNone) (PyNum 0))])%list).
Proof.
  intros Hrun calls. revert Hrun.
  unfold process_instrument, risk_validate, bind, emit, lift, get_self,
    modify.
  destruct (feed_context (feed_instrument feed i)) as [pm|e] eqn:Ectx;
    cbn -[execute_trade validate_decision dict_truthy truthy];
    try (intros [= <- <- <-]; left; repeat split; vm_compute; discriminate).
  destruct (feed_llm (feed_instrument feed i)) as [[d|]|] eqn:Ellm;
    cbn -[execute_trade validate_decision dict_truthy truthy];
    try (intros [= <- <- <-]; left; repeat split; vm_compute; discriminate).
  destruct (dict_truthy d);
    cbn -[execute_trade validate_decision dict_truthy truthy];
    try (intros [= <- <- <-]; left; repeat split; vm_compute; discriminate).
  destruct pm as [portfolio|];
    cbn -[execute_trade validate_decision dict_truthy truthy];
    try (intros [= <- <- <-]; left; repeat split; vm_compute; discriminate).
  destruct (validate_decision (risk_manager self) d portfolio _)
    as [[verdict rm']|e] eqn:Ev;
    cbn -[execute_trade validate_decision dict_truthy truthy];
    try (intros [= <- <- <-]; left; repeat split; vm_compute; discriminate).
  destruct verdict.
  - destruct (truthy (dict_get d "current_price" (PyNum 0))) eqn:Ep.
    + destruct (execute_trade c d _ _ (set_risk_manager self rm'))
        as [[rt st] trt] eqn:Et.
      destruct (execute_trade_outcome _ _ _ _ _ _ _ _ Et) as [-> Htrt].
      intros [= <- <- <-]. right. exists d, portfolio, rm'.
      split; [reflexivity|]. split; [reflexivity|]. split; [exact Ev|].
      split; [reflexivity|].
      destruct Htrt as [->|(key & side & ot & Hr & Hk & Ha & Ho & Hs & _ & ->)].
      * left. reflexivity.
      * right. exists key, side, ot. repeat split; auto.
    + cbn. intros [= <- <- <-]. right. exists d, portfolio, rm'.
      split; [reflexivity|]. split; [reflexivity|]. split; [exact Ev|].
      split; [reflexivity|]. left. reflexivity.
  - cbn. intros [= <- <- <-]. left.
    destruct (RiskManagerMore.validate_decision_effect _ _ _ _ _ _ Ev)
      as [->|(Hv & _)]; [|discriminate].
    rewrite set_risk_manager_same. repeat split; vm_compute; discriminate.
Qed.

(** *** Invariants of every history of the agent

    A relation between the state before, the state after and the trace
    that holds of doing nothing, composes along sequencing, holds of the
    calls that send no order and of the writes to the timer and to the
    end-of-day latch, and holds of processing one instrument, holds of
    every history of entry points. *)

Section Histories.

Variable R : TradingAgent.t -> TradingAgent.t -> list event -> Prop.

Hypothesis R_refl : forall s, R s s [].
Hypothesis R_trans : forall s1 s2 s3 t1 t2,
  R s1 s2 t1 -> R s2 s3 t2 -> R s1 s3 (t1 ++ t2)%list.
Hypothesis R_call : forall s e, is_place_order e = false -> R s s [e].
Hypothesis R_timer : forall s tm, R s (set_decision_timer s tm) [].
Hypothesis R_eod : forall s b, R s (set_is_eod_squaring_off s b) [].
Hypothesis R_instrument : forall c pp feed i,
  respects R (process_instrument c pp feed i).

Lemma respects_ret {A} (a : A) : respects R (ret a).
Proof. intros s r s' tr [= <- <- <-]. apply R_refl. Qed.

Lemma respects_raise {A} (e : exn) : respects R (@raise A e).
Proof. intros s r s' tr [= <- <- <-]. apply R_refl. Qed.

Lemma respects_get_self : respects R get_self.
Proof. intros s r s' tr [= <- <- <-]. apply R_refl. Qed.

Lemma respects_lift {A} (r : result A) : respects R (lift r).
Proof. destruct r; [apply respects_ret | apply respects_raise]. Qed.

Lemma respects_emit e : is_place_order e = false -> respects R (emit e).
Proof. intros He s r s' tr [= <- <- <-]. apply R_call, He. Qed.

Lemma respects_bind {A B} (m : M A) (k : A -> M B) :
  respects R m -> (forall a, respects R (k a)) -> respects R (bind m k).
Proof.
  intros Hm Hk s r s' tr. unfold bind.
  destruct (m s) as [[ra s1] tr1] eqn:Em.
  pose proof (Hm _ _ _ _ Em) as H1.
  destruct ra as [a|e].
  - destruct (k a s1) as [[rb s2] tr2] eqn:Ek.
    pose proof (Hk _ _ _ _ _ Ek) as H2.
    intros [= <- <- <-]. eapply R_trans; eassumption.
  - intros [= <- <- <-]. exact H1.
Qed.

Lemma respects_for_each {A} (l : list A) (body : A -> M unit) :
  (forall x, respects R (body x)) -> respects R (for_each l body).
Proof.
  intros Hbody. induction l as [|x l IH]; simpl.
  - apply respects_ret.
  - apply respects_bind; [apply Hbody | intros _; exact IH].
Qed.

Lemma respects_cancel_timer :
  respects R
    (modify (fun self =>
               set_decision_timer self
                 (option_map cancel (decision_timer self)))).
Proof. intros s r s' tr [= <- <- <-]. apply R_timer. Qed.

Lemma respects_start_decision_timer : respects R _start_decision_timer.
Proof.
  unfold _start_decision_timer.
  apply respects_bind; [apply respects_cancel_timer | intros _].
  apply respects_bind; [apply respects_get_self | intros self].
  destruct (negb (is_eod_squaring_off self)); [|apply respects_ret].
  apply respects_bind; [|intros _; apply respects_emit; reflexivity].
  intros s r s' tr [= <- <- <-]. apply R_timer.
Qed.

Lemma respects_stop : respects R stop.
Proof.
  unfold stop.
  apply respects_bind; [apply respects_cancel_timer | intros _].
  apply respects_raise.
Qed.

Lemma respects_square_off_all_positions :
  respects R square_off_all_positions.
Proof.
  unfold square_off_all_positions.
  apply respects_bind;
    [intros s r s' tr [= <- <- <-]; apply R_eod | intros _].
  apply respects_bind; [apply respects_cancel_timer | intros _].
  apply respects_bind; [apply respects_get_self | intros self].
  apply respects_bind; [|intros _; apply respects_stop].
  apply respects_for_each. intros c. apply respects_emit. reflexivity.
Qed.

Lemma respects_select_instruments c feed :
  respects R (select_instruments c feed).
Proof.
  unfold select_instruments.
  apply respects_bind.
  - unfold get_portfolio_positions.
    apply respects_bind; [apply respects_emit; reflexivity | intros _].
    destruct (feed_positions feed); apply respects_ret.
  - intros [[all_positions [|entry open_positions]]|].
    + apply respects_bind; [|intros v; apply respects_ret].
      unfold get_instruments_to_trade.
      apply respects_bind; [apply respects_get_self | intros self].
      destruct (auto_pick_stock self).
      * apply respects_bind; [apply respects_emit; reflexivity | intros _].
        apply respects_bind; [apply respects_lift | intros l].
        apply respects_ret.
      * apply respects_bind; [apply respects_emit; reflexivity | intros _].
        apply respects_ret.
    + apply respects_ret.
    + apply respects_raise.
Qed.

Lemma respects_client_cycle world c : respects R (client_cycle world c).
Proof.
  unfold client_cycle.
  apply respects_bind; [apply respects_emit; reflexivity | intros _].
  apply respects_bind; [apply respects_select_instruments | intros [pp v]].
  unfold process_instruments. destruct v as [l|[| |row]].
  - apply respects_for_each. intros i. apply R_instrument.
  - apply respects_raise.
  - apply respects_ret.
  - apply respects_raise.
Qed.

Lemma respects_make_decision now world :
  respects R (make_decision now world).
Proof.
  unfold make_decision.
  apply respects_bind; [apply respects_get_self | intros self].
  destruct (market_close_time self <=? now)%N.
  - destruct (negb (is_eod_squaring_off self));
      [apply respects_square_off_all_positions | apply respects_ret].
  - apply respects_bind; [|intros _; apply respects_start_decision_timer].
    apply respects_for_each. intros c. apply respects_client_cycle.
Qed.

Lemma respects_run_call c : respects R (run_call c).
Proof.
  destruct c as [now world|now world| | |]; simpl.
  - apply respects_make_decision.
  - unfold timer_fires.
    apply respects_bind; [apply respects_get_self | intros self].
    destruct (decision_timer self) as [[| |]|]; try apply respects_ret.
    apply respects_bind; [|intros _; apply respects_make_decision].
    intros s r s' tr [= <- <- <-]. apply R_timer.
  - apply respects_start_decision_timer.
  - apply respects_square_off_all_positions.
  - apply respects_stop.
Qed.

Lemma run_calls_respect history : forall self,
  R self (fst (run_calls self history)) (snd (run_calls self history)).
Proof.
  induction history as [|c history IH]; intros self; simpl.
  - apply R_refl.
  - destruct (run_call c self) as [[r s1] tr1] eqn:Ec.
    pose proof (respects_run_call _ _ _ _ _ Ec) as H1.
    specialize (IH s1).
    destruct (run_calls s1 history) as [s2 tr2]. simpl in *.
    eapply R_trans; eassumption.
Qed.

End Histories.

Lemma count_app test (t1 t2 : list event) :
  count test (t1 ++ t2) = count test t1 + count test t2.
Proof.
  unfold count. rewrite List.filter_app, length_app. lia.
Qed.

Lemma count_nonneg test (tr : list event) : 0 <= count test tr.
Proof. unfold count. lia. Qed.

(** X8. No entry point of the agent reports a P&L to its risk manager:
    through any history of decision cycles, timer callbacks, square-offs
    and stops, [daily_pnl], [is_trading_halted] and the configured limits
    of the manager stay what they were. In particular an agent whose
    manager starts not halted is never halted by running. *)
Theorem agent_never_moves_pnl_or_halt history self :
  let final := fst (run_calls self history) in
  daily_pnl (risk_manager final) = daily_pnl (risk_manager self) /\
  is_trading_halted (risk_manager final)
  = is_trading_halted (risk_manager self) /\
  RiskHistory.limits (risk_manager final)
  = RiskHistory.limits (risk_manager self).
Proof.
  apply (run_calls_respect
           (fun s s' _ =>
              daily_pnl (risk_manager s') = daily_pnl (risk_manager s) /\
              is_trading_halted (risk_manager s')
              = is_trading_halted (risk_manager s) /\
              RiskHistory.limits (risk_manager s')
              = RiskHistory.limits (risk_manager s))).
  - auto.
  - intros s1 s2 s3 t1 t2 (H1 & H2 & H3) (H4 & H5 & H6).
    repeat split; congruence.
  - auto.
  - auto.
  - auto.
  - intros c pp feed i s r s' tr Hrun.
    destruct (process_instrument_outcome _ _ _ _ _ _ _ _ Hrun)
      as [(-> & _)|(d & p & rm' & _ & _ & Hv & -> & _)]; [auto|].
    simpl.
    destruct (RiskManagerMore.validate_decision_effect _ _ _ _ _ _ Hv)
      as [->|(_ & -> & _)]; auto.
Qed.

(** X9. Every order the agent sends, in any history, has side 'BUY' or
    'SELL' and a price that is neither missing, [None] nor 0. *)
Theorem orders_are_well_formed history self :
  forallb order_well_formed (snd (run_calls self history)) = true.
Proof.
  apply (run_calls_respect
           (fun _ _ tr => forallb order_well_formed tr = true)).
  - reflexivity.
  - intros _ _ _ t1 t2 H1 H2. rewrite forallb_app, H1, H2. reflexivity.
  - intros _ e He. destruct e; try reflexivity. discriminate.
  - reflexivity.
  - reflexivity.
  - intros c pp feed i s r s' tr Hrun.
    destruct (process_instrument_outcome _ _ _ _ _ _ _ _ Hrun)
      as [(_ & Hno & _)
         |(d & p & rm' & _ & _ & _ & _ &
           [->|(key & side & ot & _ & _ & _ & _ & Hside & Hp & ->)])].
    + clear Hrun. induction tr as [|e tr IH]; [reflexivity|].
      simpl in *. apply andb_true_iff in Hno. destruct Hno as [He Htr].
      rewrite IH by assumption.
      destruct e; try reflexivity. discriminate.
    + reflexivity.
    + simpl. rewrite Hp. destruct Hside as [->| ->]; reflexivity.
Qed.

(** X10. Across any history of the agent, the number of BUY orders
    sent is at most the room left under the daily cap when the history
    starts, [max_trades_per_day - trades_today]. *)
Theorem buy_orders_within_cap history self :
  trades_today (risk_manager self) <= max_trades_per_day (risk_manager self) ->
  count is_buy_order (snd (run_calls self history))
  <= max_trades_per_day (risk_manager self) - trades_today (risk_manager self).
Proof.
  intros Hcap.
  pose proof
    (run_calls_respect
       (fun s s' tr =>
          max_trades_per_day (risk_manager s')
          = max_trades_per_day (risk_manager s) /\
          trades_today (risk_manager s) + count is_buy_order tr
          <= trades_today (risk_manager s') /\
          (trades_today (risk_manager s) <= max_trades_per_day (risk_manager s) ->
           trades_today (risk_manager s')
           <= max_trades_per_day (risk_manager s)))) as Hinv.
  destruct (Hinv) with (history := history) (self := self)
    as (_ & Hcount & Hkeep).
  - intros s. unfold count. simpl. lia.
  - intros s1 s2 s3 t1 t2 (H1 & H2 & H3) (H4 & H5 & H6).
    rewrite count_app. repeat split; lia.
  - intros s e He. unfold count.
    destruct e; simpl; try (repeat split; lia). discriminate.
  - intros s tm. unfold count. simpl. lia.
  - intros s b. unfold count. simpl. lia.
  - intros c pp feed i s r s' tr Hrun.
    destruct (process_instrument_outcome _ _ _ _ _ _ _ _ Hrun)
      as [(-> & Hno & _)|(d & p & rm' & _ & _ & Hv & -> & Htr)].
    + assert (Hz : count is_buy_order tr = 0).
      { clear Hrun. unfold count.
        induction tr as [|e tr IH]; [reflexivity|].
        simpl in Hno. apply andb_true_iff in Hno. destruct Hno as [He Htr].
        specialize (IH Htr).
        destruct e; simpl; try exact IH. discriminate. }
      rewrite Hz. repeat split; lia.
    + destruct (validate_decision_approved _ _ _ _ _ Hv)
        as (_ & Hlt & Hrm). simpl.
      destruct Htr as [->|(key & side & ot & _ & _ & Ha & _ & Hside & _ & ->)].
      * change (count is_buy_order _) with 0.
        destruct Hrm as [[_ ->]|[_ ->]]; simpl; repeat split; lia.
      * destruct Hside as [->| ->].
        -- change (count is_buy_order _) with 1.
           destruct Hrm as [[Hsell _]|[_ ->]].
           ++ unfold action_of in Hsell.
              rewrite (dict_get_present _ _ _ _ Ha) in Hsell. discriminate.
           ++ simpl. repeat split; lia.
        -- change (count is_buy_order _) with 0.
           destruct Hrm as [[_ ->]|[_ ->]]; simpl; repeat split; lia.
  - lia.
Qed.

(** With a cap of one trade and a BUY proposed for both held
    instruments, in two cycles in a row, one BUY order is sent. *)
Lemma buy_orders_within_cap_witness :
  count is_buy_order
    (snd (run_calls MoreSamples.agent_cap1
            [CallMakeDecision Samples.morning
               (MoreSamples.world_all (Some (Some Samples.buy)));
             CallTimerFires Samples.morning
               (MoreSamples.world_all (Some (Some Samples.buy)))]))
  <= 1.
Proof.
  apply (buy_orders_within_cap
           [CallMakeDecision Samples.morning
              (MoreSamples.world_all (Some (Some Samples.buy)));
            CallTimerFires Samples.morning
              (MoreSamples.world_all (Some (Some Samples.buy)))]
           MoreSamples.agent_cap1).
  vm_compute. discriminate.
Defined.

(** X11. Once the risk manager is halted or at its daily cap, the agent
    sends no order of either side again, whatever the oracle proposes and
    however many cycles run, and its risk manager does not change. *)
Theorem blocked_manager_sends_no_order history self :
  is_trading_halted (risk_manager self) = true \/
  max_trades_per_day (risk_manager self) <= trades_today (risk_manager self) ->
  risk_manager (fst (run_calls self history)) = risk_manager self /\
  forallb no_place_order (snd (run_calls self history)) = true.
Proof.
  apply (run_calls_respect
           (fun s s' tr =>
              is_trading_halted (risk_manager s) = true \/
              max_trades_per_day (risk_manager s) <= trades_today (risk_manager s) ->
              risk_manager s' = risk_manager s /\
              forallb no_place_order tr = true)).
  - auto.
  - intros s1 s2 s3 t1 t2 H1 H2 Hb.
    destruct (H1 Hb) as [E1 N1]. rewrite <- E1 in Hb.
    destruct (H2 Hb) as [E2 N2].
    split; [congruence|]. rewrite forallb_app, N1, N2. reflexivity.
  - intros s e He _. split; [reflexivity|].
    simpl. unfold no_place_order. rewrite He. reflexivity.
  - auto.
  - auto.
  - intros c pp feed i s r s' tr Hrun Hb.
    destruct (process_instrument_outcome _ _ _ _ _ _ _ _ Hrun)
      as [(-> & Hno & _)|(d & p & rm' & _ & _ & Hv & _)]; [auto|].
    destruct (validate_decision_approved _ _ _ _ _ Hv) as (Hh & Hlt & _).
    destruct Hb as [Hb|Hb]; [congruence|lia].
Qed.

(** A halted agent offered a SELL for both held instruments sends
    nothing. *)
Lemma blocked_manager_sends_no_order_witness :
  forallb no_place_order
    (snd (run_calls MoreSamples.agent_halted
            [CallMakeDecision Samples.morning
               (MoreSamples.world_all (Some (Some Samples.sell)))])) = true.
Proof.
  apply (blocked_manager_sends_no_order
           [CallMakeDecision Samples.morning
              (MoreSamples.world_all (Some (Some Samples.sell)))]
           MoreSamples.agent_halted).
  left. reflexivity.
Defined.

(** The same SELL from an agent that is not halted is sent, for both
    instruments. *)
Example unblocked_manager_sends_sells :
  count is_place_order
    (snd (run_calls Samples.agent0
            [CallMakeDecision Samples.morning
               (MoreSamples.world_all (Some (Some Samples.sell)))])) = 2.
Proof. vm_compute. reflexivity. Qed.

(** X12. An order is sent only for a decision the risk manager has just
    approved, and it is the order that decision asks for. If processing an
    instrument sends an order, the oracle answered a decision,
    [validate_decision] returned [True] on it from the manager the agent
    held, and the agent now holds the manager as [validate_decision] left
    it; the trace is the three calls that lead to the decision followed by
    that one order, whose side is the decision's action ('BUY' or 'SELL'),
    whose instrument, order type, quantity and price are the decision's,
    and whose stop loss and take profit are the decision's or 0. *)
Theorem order_implies_approval c pp feed i self r self' tr :
  process_instrument c pp feed i self = (r, self', tr) ->
  existsb is_place_order tr = true ->
  exists d portfolio rm' key side order_type,
    feed_llm (feed_instrument feed i) = Some (Some d) /\
    feed_context (feed_instrument feed i) = Ok (Some portfolio) /\
    validate_decision (risk_manager self) d portfolio
      (dict_get d "current_price" (PyNum 0)) = Ok (true, rm') /\
    risk_manager self' = rm' /\
    d !! "instrument_key" = Some key /\
    d !! "action" = Some (PyStr side) /\
    d !! "order_type" = Some order_type /\
    (side = "BUY" \/ side = "SELL") /\
    tr = [EvFullMarketQuote c (instrument_key i);
          EvGenerateDecision (instrument_key i) pp;
          EvSaveLlmDecision;
          EvPlaceOrder c key (dict_get d "quantity" (PyNum 0)) side
            order_type (dict_get d "current_price" (PyNum 0))
            (py_or (dict_get d "stop_loss" PyNone) (PyNum 0))
            (py_or (dict_get d "take_profit" PyNone) (PyNum 0))] /\
    count is_place_order tr = 1 /\
    r = Ok tt.
Proof.
  intros Hrun Horder.
  destruct (process_instrument_outcome _ _ _ _ _ _ _ _ Hrun)
    as [(_ & Hno & _)
       |(d & p & rm' & Hllm & Hctx & Hv & -> &
         [->|(key & side & ot & Hr & Hk & Ha & Ho & Hside & _ & ->)])].
  - exfalso. clear Hrun.
    induction tr as [|e tr IH]; [discriminate|].
    simpl in *. apply andb_true_iff in Hno. destruct Hno as [He Htr].
    unfold no_place_order in He. apply negb_true_iff in He.
    rewrite He in Horder. auto.
  - discriminate.
  - exists d, p, rm', key, side, ot. repeat split; auto.
Qed.

(** The fresh agent, asked about RELIANCE, is answered a BUY at 953.5
    with confidence 0.86: the one order of the trace is that BUY. *)
Lemma order_implies_approval_witness :
  exists d portfolio rm' key side order_type,
    feed_llm
      (feed_instrument
         (Samples.world_answering (Some (Some Samples.buy)) Samples.client)
         Samples.reliance) = Some (Some d) /\
    feed_context
      (feed_instrument
         (Samples.world_answering (Some (Some Samples.buy)) Samples.client)
         Samples.reliance) = Ok (Some portfolio) /\
    validate_decision (risk_manager Samples.agent0) d portfolio
      (dict_get d "current_price" (PyNum 0)) = Ok (true, rm') /\
    risk_manager
      (set_risk_manager Samples.agent0 (set_trades_today Samples.rm0 1))
    = rm' /\
    d !! "instrument_key" = Some key /\
    d !! "action" = Some (PyStr side) /\
    d !! "order_type" = Some order_type /\
    (side = "BUY" \/ side = "SELL") /\
    [EvFullMarketQuote Samples.client "NSE_EQ|INE002A01018";
     EvGenerateDecision "NSE_EQ|INE002A01018" true;
     EvSaveLlmDecision;
     EvPlaceOrder Samples.client (PyStr "NSE_EQ|INE002A01018") (PyNum 1)
       "BUY" (PyStr "MARKET") (PyNum 953.5) (PyNum 0) (PyNum 0)]
    = [EvFullMarketQuote Samples.client
         (instrument_key Samples.reliance);
       EvGenerateDecision (instrument_key Samples.reliance) true;
       EvSaveLlmDecision;
       EvPlaceOrder Samples.client key (dict_get d "quantity" (PyNum 0)) side
         order_type (dict_get d "current_price" (PyNum 0))
         (py_or (dict_get d "stop_loss" PyNone) (PyNum 0))
         (py_or (dict_get d "take_profit" PyNone) (PyNum 0))] /\
    count is_place_order
      [EvFullMarketQuote Samples.client "NSE_EQ|INE002A01018";
       EvGenerateDecision "NSE_EQ|INE002A01018" true;
       EvSaveLlmDecision;
       EvPlaceOrder Samples.client (PyStr "NSE_EQ|INE002A01018") (PyNum 1)
         "BUY" (PyStr "MARKET") (PyNum 953.5) (PyNum 0) (PyNum 0)] = 1 /\
    Ok tt = Ok tt.
Proof.
  apply (order_implies_approval Samples.client true
           (Samples.world_answering (Some (Some Samples.buy)) Samples.client)
           Samples.reliance Samples.agent0 (Ok tt)
           (set_risk_manager Samples.agent0 (set_trades_today Samples.rm0 1))
           [EvFullMarketQuote Samples.client "NSE_EQ|INE002A01018";
            EvGenerateDecision "NSE_EQ|INE002A01018" true;
            EvSaveLlmDecision;
            EvPlaceOrder Samples.client (PyStr "NSE_EQ|INE002A01018") (PyNum 1)
              "BUY" (PyStr "MARKET") (PyNum 953.5) (PyNum 0) (PyNum 0)]).
  - vm_compute. reflexivity.
  - reflexivity.
Defined.

(** *** Selecting instruments when nothing is held *)

Lemma open_positions_dic_none (ps : list Position) :
  nothing_held (Some ps) -> open_positions_dic ps = [].
Proof.
  intros Hnone. unfold open_positions_dic.
  assert (Hall : forall pos, pos ∈ ps -> is_open_position pos = false).
  { intros pos Hin. destruct (is_open_position pos) eqn:E; [|reflexivity].
    apply TradingAgentSpec.is_open_position_iff in E.
    destruct (Hnone ps pos eq_refl Hin); tauto. }
  clear Hnone. generalize (@nil (string * Position)).
  induction ps as [|pos ps IH]; intros d; simpl; [reflexivity|].
  rewrite (Hall pos) by (apply elem_of_cons; auto).
  apply IH. intros q Hq. apply Hall. apply elem_of_cons. auto.
Qed.

Lemma select_instruments_nothing_held self c feed snapshot :
  feed_positions feed = Ok snapshot ->
  nothing_held snapshot ->
  select_instruments c feed self
  = if auto_pick_stock self then
      match feed_auto_pick feed with
      | Ok l => (Ok (false, InstrList l), self,
                 [EvGetPositions c; EvAutoPickInstrumentToTrade])
      | Raise e => (Raise e, self,
                    [EvGetPositions c; EvAutoPickInstrumentToTrade])
      end
    else (Ok (false, InstrInfo (feed_configured_stock feed)), self,
          [EvGetPositions c; EvGetInstrumentInfoFromStock]).
Proof.
  intros Hfeed Hnone.
  unfold select_instruments, get_portfolio_positions, bind, emit, ret.
  rewrite Hfeed. simpl.
  assert (Hd : match snapshot with
               | Some l => open_positions_dic l
               | None => []
               end = []).
  { destruct snapshot as [ps|]; [|reflexivity].
    apply open_positions_dic_none, Hnone. }
  rewrite Hd. unfold get_instruments_to_trade, bind, get_self, emit, lift, ret.
  destruct (auto_pick_stock self); simpl; [|reflexivity].
  destruct (feed_auto_pick feed); reflexivity.
Qed.

(** X13. When the brokerage reports no open intraday position, or its
    positions cannot be read and the wrapper answers [None], the cycle
    looks for a new entry: the instruments are whatever
    [get_instruments_to_trade] returns, [position_present] is false, and
    with auto-pick on an exception of the candidate selection leaves the
    method. A failed read of the positions is thus treated like a flat
    book. *)
Theorem nothing_held_goes_to_candidates self c feed snapshot :
  feed_positions feed = Ok snapshot ->
  nothing_held snapshot ->
  (auto_pick_stock self = true ->
   forall l, feed_auto_pick feed = Ok l ->
   select_instruments c feed self
   = (Ok (false, InstrList l), self,
      [EvGetPositions c; EvAutoPickInstrumentToTrade])) /\
  (auto_pick_stock self = true ->
   forall e, feed_auto_pick feed = Raise e ->
   select_instruments c feed self
   = (Raise e, self, [EvGetPositions c; EvAutoPickInstrumentToTrade])) /\
  (auto_pick_stock self = false ->
   select_instruments c feed self
   = (Ok (false, InstrInfo (feed_configured_stock feed)), self,
      [EvGetPositions c; EvGetInstrumentInfoFromStock])).
Proof.
  intros Hfeed Hnone.
  rewrite (select_instruments_nothing_held _ _ _ _ Hfeed Hnone).
  repeat apply conj.
  - intros -> l ->. reflexivity.
  - intros -> e ->. reflexivity.
  - intros ->. reflexivity.
Qed.

(** The positions cannot be read: auto-pick is asked for candidates. *)
Lemma nothing_held_goes_to_candidates_witness :
  select_instruments Samples.client
    {| feed_positions := Ok None;
       feed_auto_pick := Ok [Samples.tcs];
       feed_configured_stock := InfoEmpty;
       feed_instrument :=
         feed_instrument
           (Samples.world_answering (Some (Some Samples.hold)) Samples.client) |}
    Samples.agent0
  = (Ok (false, InstrList [Samples.tcs]), Samples.agent0,
     [EvGetPositions Samples.client; EvAutoPickInstrumentToTrade]).
Proof.
  assert (Hnone : nothing_held None) by (intros ps pos [=]).
  apply (proj1 (nothing_held_goes_to_candidates Samples.agent0 Samples.client
                  {| feed_positions := Ok None;
                     feed_auto_pick := Ok [Samples.tcs];
                     feed_configured_stock := InfoEmpty;
                     feed_instrument :=
                       feed_instrument
                         (Samples.world_answering (Some (Some Samples.hold))
                            Samples.client) |}
                  None eq_refl Hnone)); reflexivity.
Defined.

(** X14. If [get_positions] raises for the first client of a cycle
    entered before the close, [get_portfolio_positions] swallows the
    exception and returns an empty dict, unpacking it raises [ValueError],
    and the cycle ends there: no instrument is looked at, no other client
    is served and no timer is started. *)
Theorem positions_failure_aborts_cycle self now world c others e :
  (now < market_close_time self)%N ->
  upstox_clients self = c :: others ->
  feed_positions (world c) = Raise e ->
  make_decision now world self
  = (Raise ValueError, self, [EvFundMargin c; EvGetPositions c]).
Proof.
  intros Hnow Hclients Hfeed.
  unfold make_decision, bind at 1, get_self.
  apply N.leb_gt in Hnow. rewrite Hnow, Hclients. simpl.
  unfold bind at 1. unfold bind at 1.
  unfold client_cycle at 1, bind at 1, emit.
  unfold bind at 1, select_instruments, get_portfolio_positions.
  unfold bind at 1. unfold bind at 1, emit.
  rewrite Hfeed. reflexivity.
Qed.

Lemma positions_failure_aborts_cycle_witness :
  make_decision Samples.morning
    (fun _ =>
       {| feed_positions := Raise AttributeError;
          feed_auto_pick := Ok [Samples.tcs];
          feed_configured_stock := InfoEmpty;
          feed_instrument :=
            feed_instrument
              (Samples.world_answering (Some (Some Samples.hold))
                 Samples.client) |})
    Samples.agent0
  = (Raise ValueError, Samples.agent0,
     [EvFundMargin Samples.client; EvGetPositions Samples.client]).
Proof.
  apply (positions_failure_aborts_cycle Samples.agent0 Samples.morning
           (fun _ =>
              {| feed_positions := Raise AttributeError;
                 feed_auto_pick := Ok [Samples.tcs];
                 feed_configured_stock := InfoEmpty;
                 feed_instrument :=
                   feed_instrument
                     (Samples.world_answering (Some (Some Samples.hold))
                        Samples.client) |})
           Samples.client [] AttributeError); reflexivity.
Defined.

(** X15. With auto-pick switched off and nothing held, a client's cycle
    never asks the oracle for a decision. [get_instruments_to_trade]
    returns the dict of [get_instrument_info_from_stock] where a list of
    instruments is expected: when the configured stock is not found the
    dict is empty and the loop does nothing, and when it is found the loop
    runs over the keys of the row and indexing the first key with
    ['trading_symbol'] raises [TypeError]. *)
Theorem configured_stock_is_never_traded self world c snapshot :
  auto_pick_stock self = false ->
  feed_positions (world c) = Ok snapshot ->
  nothing_held snapshot ->
  client_cycle world c self
  = (match feed_configured_stock (world c) with
     | InfoEmpty => Ok tt
     | InfoRow _ | InfoNone => Raise TypeError
     end,
     self,
     [EvFundMargin c; EvGetPositions c; EvGetInstrumentInfoFromStock]).
Proof.
  intros Hauto Hfeed Hnone.
  unfold client_cycle, bind at 1, emit. unfold bind at 1.
  rewrite (select_instruments_nothing_held _ _ _ _ Hfeed Hnone), Hauto.
  unfold process_instruments.
  destruct (feed_configured_stock (world c)); reflexivity.
Qed.

(** SILVERBEES is in the table and auto-pick is off: the cycle raises
    before any decision is requested. *)
Lemma configured_stock_is_never_traded_witness :
  client_cycle
    (fun _ =>
       {| feed_positions := Ok (Some []);
          feed_auto_pick := Ok [];
          feed_configured_stock :=
            InfoRow {| instrument_key := "NSE_EQ|INF204KB13I2";
                       trading_symbol := "SILVERBEES";
                       name := "NIP IND ETF SILVER BEES" |};
          feed_instrument :=
            feed_instrument
              (Samples.world_answering (Some (Some Samples.hold))
                 Samples.client) |})
    Samples.client
    (TradingAgent.Build [Samples.client] Samples.rm0 320 false
       Samples.close_time None false)
  = (Raise TypeError,
     TradingAgent.Build [Samples.client] Samples.rm0 320 false
       Samples.close_time None false,
     [EvFundMargin Samples.client; EvGetPositions Samples.client;
      EvGetInstrumentInfoFromStock]).
Proof.
  apply (configured_stock_is_never_traded
           (TradingAgent.Build [Samples.client] Samples.rm0 320 false
              Samples.close_time None false)
           (fun _ =>
              {| feed_positions := Ok (Some []);
                 feed_auto_pick := Ok [];
                 feed_configured_stock :=
                   InfoRow {| instrument_key := "NSE_EQ|INF204KB13I2";
                              trading_symbol := "SILVERBEES";
                              name := "NIP IND ETF SILVER BEES" |};
                 feed_instrument :=
                   feed_instrument
                     (Samples.world_answering (Some (Some Samples.hold))
                        Samples.client) |})
           Samples.client (Some [])).
  - reflexivity.
  - reflexivity.
  - intros ps pos [= <-] Hin. apply elem_of_nil in Hin. destruct Hin.
Defined.

(** *** Rescheduling *)

(** X16. A cycle entered before the close, with the latch clear, starts
    the timer of the next cycle exactly when it runs to its end: if it
    returns, the last thing it did was to start one timer, which is now
    pending; if an exception leaves it, no timer was started and
    [decision_timer] is what it was, so nothing will call [make_decision]
    again. *)
Theorem next_cycle_scheduled_iff_cycle_completes self now world r self' tr :
  (now < market_close_time self)%N ->
  is_eod_squaring_off self = false ->
  make_decision now world self = (r, self', tr) ->
  (r = Ok tt ->
   decision_timer self' = Some TimerPending /\
   exists before,
     tr = (before ++ [EvTimerStart (decision_interval self)])%list /\
     forallb no_timer_start before = true) /\
  (forall e, r = Raise e ->
   decision_timer self' = decision_timer self /\
   forallb no_timer_start tr = true).
Proof.
  intros Hnow Heod. unfold make_decision, bind at 1, get_self.
  apply N.leb_gt in Hnow. rewrite Hnow. unfold bind.
  destruct (for_each _ _ self) as [[rl s1] tr1] eqn:El.
  destruct (TradingAgentSpec.no_timer_start_in_loop _ _ _ _ _ El)
    as [Hs1 Htr1].
  destruct rl as [[]|e0].
  - unfold _start_decision_timer, bind, modify, get_self, emit. simpl.
    assert (Heod1 : is_eod_squaring_off s1 = false)
      by (rewrite Hs1; exact Heod).
    assert (Hint : decision_interval s1 = decision_interval self)
      by (rewrite Hs1; reflexivity).
    rewrite Heod1. simpl. intros [= <- <- <-]. split.
    + intros _. split; [reflexivity|].
      exists tr1. rewrite Hint. split; [reflexivity|assumption].
    + intros e [=].
  - simpl. intros [= <- <- <-]. split; [intros [=]|].
    intros e _. split; [rewrite Hs1; reflexivity | assumption].
Qed.

Lemma next_cycle_scheduled_iff_cycle_completes_witness :
  decision_timer (set_decision_timer Samples.agent0 (Some TimerPending))
  = Some TimerPending /\
  decision_timer
    (set_risk_manager Samples.agent0 (set_trades_today Samples.rm0 1))
  = None.
Proof.
  split.
  - apply (proj1 (next_cycle_scheduled_iff_cycle_completes Samples.agent0
                    Samples.morning
                    (Samples.world_answering (Some (Some Samples.hold)))
                    (Ok tt)
                    (set_decision_timer Samples.agent0 (Some TimerPending))
                    [EvFundMargin Samples.client; EvGetPositions Samples.client;
                     EvFullMarketQuote Samples.client "NSE_EQ|INE002A01018";
                     EvGenerateDecision "NSE_EQ|INE002A01018" true;
                     EvSaveLlmDecision;
                     EvFullMarketQuote Samples.client "NSE_EQ|INE467B01029";
                     EvGenerateDecision "NSE_EQ|INE467B01029" true;
                     EvSaveLlmDecision;
                     EvTimerStart 320]
                    eq_refl eq_refl ltac:(vm_compute; reflexivity)) eq_refl).
  - apply (proj2 (next_cycle_scheduled_iff_cycle_completes Samples.agent0
                    Samples.morning
                    (Samples.world_answering (Some (Some Samples.no_action)))
                    (Raise (KeyError "action"))
                    (set_risk_manager Samples.agent0
                       (set_trades_today Samples.rm0 1))
                    [EvFundMargin Samples.client; EvGetPositions Samples.client;
                     EvFullMarketQuote Samples.client "NSE_EQ|INE002A01018";
                     EvGenerateDecision "NSE_EQ|INE002A01018" true;
                     EvSaveLlmDecision]
                    eq_refl eq_refl ltac:(vm_compute; reflexivity))
             (KeyError "action") eq_refl).
Defined.

(** *** Looking instruments and positions up *)

Lemma filter_first_match (key : string) (table : list Instrument) :
  match filter (fun row => instrument_key row = key) table with
  | [] => forall row, row ∈ table -> instrument_key row <> key
  | row :: _ =>
      exists before after,
        table = (before ++ row :: after)%list /\
        instrument_key row = key /\
        forall r, r ∈ before -> instrument_key r <> key
  end.
Proof.
  induction table as [|r table IH].
  - intros row Hin. apply elem_of_nil in Hin. destruct Hin.
  - rewrite filter_cons.
    destruct (decide (instrument_key r = key)) as [Hr|Hr].
    + exists [], table. repeat split; [assumption|].
      intros r' Hin. apply elem_of_nil in Hin. destruct Hin.
    + destruct (filter _ table) as [|row rest].
      * intros row Hin. apply elem_of_cons in Hin.
        destruct Hin as [->|Hin]; [assumption | apply IH, Hin].
      * destruct IH as (before & after & -> & Hk & Hfirst).
        exists (r :: before), after. repeat split; [assumption|].
        intros r' Hin. apply elem_of_cons in Hin.
        destruct Hin as [->|Hin]; [assumption | apply Hfirst, Hin].
Qed.

(** X17. [get_instrument_info_from_instrument_key] answers the empty
    dict exactly when the instrument table is empty, [None] exactly when
    the table is not empty and has no row with that key, and otherwise the
    first row of the table that has the key. *)
Theorem get_instrument_info_from_instrument_key_spec c key :
  match get_instrument_info_from_instrument_key c key with
  | InfoEmpty => nse_instruments c = []
  | InfoNone =>
      nse_instruments c <> [] /\
      forall row, row ∈ nse_instruments c -> instrument_key row <> key
  | InfoRow row =>
      exists before after,
        nse_instruments c = (before ++ row :: after)%list /\
        instrument_key row = key /\
        forall r, r ∈ before -> instrument_key r <> key
  end.
Proof.
  unfold get_instrument_info_from_instrument_key.
  destruct (nse_instruments c) as [|r0 table] eqn:Et; [reflexivity|].
  pose proof (filter_first_match key (r0 :: table)) as Hf.
  destruct (filter _ (r0 :: table)) as [|row rest].
  - split; [discriminate | exact Hf].
  - exact Hf.
Qed.

Lemma odict_get_set_eq {V} (d : list (string * V)) k v :
  odict_get (odict_set d k v) k = Some v.
Proof.
  induction d as [|[k' v'] d IH]; simpl.
  - rewrite String.eqb_refl. reflexivity.
  - destruct (String.eqb_spec k' k) as [->|Hne]; simpl.
    + rewrite String.eqb_refl. reflexivity.
    + apply String.eqb_neq in Hne. rewrite Hne. exact IH.
Qed.

Lemma odict_get_set_ne {V} (d : list (string * V)) k k' v :
  k <> k' -> odict_get (odict_set d k v) k' = odict_get d k'.
Proof.
  intros Hne. induction d as [|[k0 v0] d IH]; simpl.
  - apply String.eqb_neq in Hne. rewrite Hne. reflexivity.
  - destruct (String.eqb_spec k0 k) as [->|Hne0]; simpl.
    + apply String.eqb_neq in Hne. rewrite Hne. reflexivity.
    + rewrite IH. reflexivity.
Qed.

Lemma open_positions_get_from (key : string) (ps : list Position) :
  forall d : list (string * Position),
  odict_get
    (foldl (fun d pos =>
              if is_open_position pos
              then odict_set d (instrument_token pos) pos else d) d ps) key
  = match last (open_positions_in key ps) with
    | Some pos => Some pos
    | None => odict_get d key
    end.
Proof.
  induction ps as [|pos ps IH]; intros d; simpl; [reflexivity|].
  rewrite IH. clear IH. unfold open_positions_in. simpl.
  destruct (is_open_position pos); simpl; [|reflexivity].
  destruct (String.eqb_spec (instrument_token pos) key) as [<-|Hne].
  - rewrite last_cons. rewrite odict_get_set_eq.
    destruct (last _); reflexivity.
  - rewrite odict_get_set_ne by assumption. reflexivity.
Qed.

(** X18. The dict of open positions that [get_portfolio_positions]
    returns maps an instrument key to the last open position of the
    snapshot in that instrument, and has no entry for a key in which the
    snapshot has no open position: when the brokerage lists an instrument
    twice, the later entry replaces the earlier one. *)
Theorem open_positions_dic_last_wins (ps : list Position) (key : string) :
  odict_get (open_positions_dic ps) key = last (open_positions_in key ps).
Proof.
  unfold open_positions_dic. rewrite open_positions_get_from.
  destruct (last _); reflexivity.
Qed.

(** *** Sending the order *)

(** X24. [execute_trade] needs ['instrument_key'], ['action'] and
    ['order_type'] whatever the action is: it raises [KeyError] for the
    first of them that is missing, in that order, and has then sent
    nothing. With the three present it sends one order when the action is
    'BUY' or 'SELL' and the price is truthy, carrying the decision's stop
    loss and take profit with 0 in place of a missing, null or zero value,
    and it sends nothing for any other action. *)
Theorem execute_trade_spec c d price quantity self :
  (d !! "instrument_key" = None ->
   execute_trade c d price quantity self
   = (Raise (KeyError "instrument_key"), self, [])) /\
  (is_Some (d !! "instrument_key") -> d !! "action" = None ->
   execute_trade c d price quantity self
   = (Raise (KeyError "action"), self, [])) /\
  (is_Some (d !! "instrument_key") -> is_Some (d !! "action") ->
   d !! "order_type" = None ->
   execute_trade c d price quantity self
   = (Raise (KeyError "order_type"), self, [])) /\
  (forall key action order_type,
   d !! "instrument_key" = Some key ->
   d !! "action" = Some action ->
   d !! "order_type" = Some order_type ->
   execute_trade c d price quantity self
   = (Ok tt, self,
      if truthy price then
        if py_eq_str action "BUY" then
          [EvPlaceOrder c key quantity "BUY" order_type price
             (py_or (dict_get d "stop_loss" PyNone) (PyNum 0))
             (py_or (dict_get d "take_profit" PyNone) (PyNum 0))]
        else if py_eq_str action "SELL" then
          [EvPlaceOrder c key quantity "SELL" order_type price
             (py_or (dict_get d "stop_loss" PyNone) (PyNum 0))
             (py_or (dict_get d "take_profit" PyNone) (PyNum 0))]
        else []
      else [])).
Proof.
  unfold execute_trade, dict_item, bind, ret, raise.
  repeat apply conj.
  - intros ->. reflexivity.
  - intros [key ->] ->. reflexivity.
  - intros [key ->] [action ->] ->. reflexivity.
  - intros key action order_type -> -> ->. simpl.
    unfold execute_buy, execute_sell, place_order, emit, ret.
    destruct (py_eq_str action "BUY"); [|destruct (py_eq_str action "SELL")];
      destruct (truthy price); reflexivity.
Qed.

(** An approved BUY that lacks ['order_type'] raises and sends
    nothing; the complete one is sent with stop loss and take profit 0. *)
Lemma execute_trade_spec_witness :
  execute_trade Samples.client (delete "order_type" Samples.buy)
    (PyNum 953.5) (PyNum 1) Samples.agent0
  = (Raise (KeyError "order_type"), Samples.agent0, []) /\
  execute_trade Samples.client Samples.buy (PyNum 953.5) (PyNum 1)
    Samples.agent0
  = (Ok tt, Samples.agent0,
     [EvPlaceOrder Samples.client (PyStr "NSE_EQ|INE002A01018") (PyNum 1)
        "BUY" (PyStr "MARKET") (PyNum 953.5) (PyNum 0) (PyNum 0)]).
Proof.
  split.
  - apply (proj1 (proj2 (proj2 (execute_trade_spec Samples.client
             (delete "order_type" Samples.buy) (PyNum 953.5) (PyNum 1)
             Samples.agent0)))).
    + eexists. reflexivity.
    + eexists. reflexivity.
    + reflexivity.
  - apply (proj2 (proj2 (proj2 (execute_trade_spec Samples.client
             Samples.buy (PyNum 953.5) (PyNum 1) Samples.agent0)))
             (PyStr "NSE_EQ|INE002A01018") (PyStr "BUY") (PyStr "MARKET"));
      reflexivity.
Defined.

(** X25. An exception while the first client is served ends the whole
    cycle: [make_decision] raises it, the agent and the trace are those of
    that client's cycle, and neither a later client nor the timer is
    reached. *)
Theorem client_failure_ends_cycle self now world c others e self1 tr1 :
  (now < market_close_time self)%N ->
  upstox_clients self = c :: others ->
  client_cycle world c self = (Raise e, self1, tr1) ->
  make_decision now world self = (Raise e, self1, tr1).
Proof.
  intros Hnow Hclients Hcycle.
  unfold make_decision, bind at 1, get_self.
  apply N.leb_gt in Hnow. rewrite Hnow, Hclients. simpl.
  unfold bind at 1. unfold bind at 1. rewrite Hcycle. reflexivity.
Qed.

(** The oracle fails for the first held instrument: the cycle ends with
    the [TypeError] of the client's cycle. *)
Lemma client_failure_ends_cycle_witness :
  make_decision Samples.morning (Samples.world_answering None) Samples.agent0
  = (Raise TypeError, Samples.agent0,
     [EvFundMargin Samples.client; EvGetPositions Samples.client;
      EvFullMarketQuote Samples.client "NSE_EQ|INE002A01018";
      EvGenerateDecision "NSE_EQ|INE002A01018" true; EvSaveLlmDecision]).
Proof.
  apply (client_failure_ends_cycle Samples.agent0 Samples.morning
           (Samples.world_answering None) Samples.client []).
  - reflexivity.
  - reflexivity.
  - vm_compute. reflexivity.
Defined.

End TradingAgentMore.

(** ** The candidates of auto-pick *)

Module AutoPickSpec.
Import AutoPick PyFacts.

Lemma insert_by_price_perm x l : insert_by_price x l ≡ₚ x :: l.
Proof.
  induction l as [|y l IH]; simpl; [reflexivity|].
  destruct (Qlt_bool _ _); [|reflexivity].
  rewrite IH. apply Permutation_swap.
Qed.

Lemma sorted_by_price_desc_perm l : sorted_by_price_desc l ≡ₚ l.
Proof.
  induction l as [|x l IH]; simpl; [reflexivity|].
  rewrite insert_by_price_perm. rewrite IH. reflexivity.
Qed.

Lemma insert_by_price_descending x l :
  descending l -> descending (insert_by_price x l).
Proof.
  induction l as [|y l IH]; simpl.
  - intros _. split; [constructor | exact I].
  - intros [Hy Hl].
    destruct (Qlt_bool (cand_last_price x) (cand_last_price y)) eqn:E; simpl.
    + apply Qlt_bool_iff in E. split; [|apply IH, Hl].
      rewrite insert_by_price_perm. constructor; [|assumption].
      apply Qlt_le_weak, E.
    + apply Qlt_bool_false_iff in E. split; [|split; assumption].
      constructor; [assumption|].
      eapply Forall_impl; [exact Hy|].
      intros z Hz. simpl in Hz. eapply Qle_trans; eassumption.
Qed.

Lemma sorted_by_price_desc_descending l :
  descending (sorted_by_price_desc l).
Proof.
  induction l as [|x l IH]; simpl; [exact I|].
  apply insert_by_price_descending, IH.
Qed.

Lemma priced_at_insert p x l :
  priced_at p (insert_by_price x l) = priced_at p (x :: l).
Proof.
  induction l as [|y l IH]; [reflexivity|].
  simpl insert_by_price.
  destruct (Qlt_bool (cand_last_price x) (cand_last_price y)) eqn:E;
    [|reflexivity].
  apply Qlt_bool_iff in E.
  unfold priced_at in *. simpl in *. rewrite IH.
  destruct (Qeq_bool (cand_last_price x) p) eqn:Ex;
    destruct (Qeq_bool (cand_last_price y) p) eqn:Ey; try reflexivity.
  apply Qeq_bool_iff in Ex. apply Qeq_bool_iff in Ey.
  rewrite Ex, Ey in E. destruct (Qlt_irrefl _ E).
Qed.

Lemma priced_at_sorted p l :
  priced_at p (sorted_by_price_desc l) = priced_at p l.
Proof.
  induction l as [|x l IH]; [reflexivity|].
  simpl sorted_by_price_desc. rewrite priced_at_insert.
  unfold priced_at in *. simpl. rewrite IH. reflexivity.
Qed.

(** What the loop collects, when the margin is a number. *)
Lemma collect_affordable_spec items pm margin :
  available_margin pm = Fine margin ->
  match collect_affordable items pm with
  | Fine l =>
      Forall2
        (fun (item : string * LtpQuote) (cand : Candidate) =>
           cand_instrument_key cand = ltp_instrument_token (snd item) /\
           cand_last_price cand = ltp_last_price (snd item) /\
           stock_name_of (fst item) = Fine (cand_stock_name cand))
        (List.filter (affordable_quote margin) items) l
  | Fails e =>
      e = EIndexError /\
      exists item, item ∈ items /\ affordable_quote margin item = true /\
                   stock_name_of (fst item) = Fails EIndexError
  end.
Proof.
  intros Hm. induction items as [|[key value] items IH]; simpl.
  - constructor.
  - rewrite Hm. unfold affordable_quote at 1 3. simpl.
    destruct (Qle_bool (ltp_last_price value) margin) eqn:Ea.
    + destruct (stock_name_of key) as [stock_name|e] eqn:En.
      * destruct (collect_affordable items pm) as [l|e].
        -- constructor; [|exact IH]. simpl. rewrite En. auto.
        -- destruct IH as [-> (item & Hin & Ha & Hn)]. split; [reflexivity|].
           exists item. split; [apply elem_of_cons; auto | auto].
      * assert (e = EIndexError) as ->.
        { unfold stock_name_of in En.
          destruct (split_colon key) as [|? [|? ?]]; congruence. }
        split; [reflexivity|]. exists (key, value).
        split; [apply elem_of_cons; auto|]. split; [exact Ea | exact En].
    + destruct (collect_affordable items pm) as [l|e]; [exact IH|].
      destruct IH as [-> (item & Hin & Ha & Hn)]. split; [reflexivity|].
      exists item. split; [apply elem_of_cons; auto | auto].
Qed.

Lemma Forall2_members {A B} (P : A -> B -> Prop) xs ys :
  Forall2 P xs ys ->
  (forall y, y ∈ ys -> exists x, x ∈ xs /\ P x y) /\
  (forall x, x ∈ xs -> exists y, y ∈ ys /\ P x y) /\
  length ys = length xs.
Proof.
  induction 1 as [|x y xs ys Hxy Hrest (IH1 & IH2 & IH3)].
  - repeat split; try reflexivity; intros z Hz;
      apply elem_of_nil in Hz; destruct Hz.
  - repeat split.
    + intros z Hz. apply elem_of_cons in Hz. destruct Hz as [->|Hz].
      * exists x. split; [apply elem_of_cons; auto | assumption].
      * destruct (IH1 z Hz) as (x' & Hx' & HP).
        exists x'. split; [apply elem_of_cons; auto | assumption].
    + intros z Hz. apply elem_of_cons in Hz. destruct Hz as [->|Hz].
      * exists y. split; [apply elem_of_cons; auto | assumption].
      * destruct (IH2 z Hz) as (y' & Hy' & HP).
        exists y'. split; [apply elem_of_cons; auto | assumption].
    + simpl. rewrite IH3. reflexivity.
Qed.

Lemma affordable_quote_iff margin item :
  affordable_quote margin item = true
  <-> (ltp_last_price (snd item) <= margin)%Q.
Proof. unfold affordable_quote. apply Qle_bool_iff. Qed.

(** X19. When the margin is a number and the pick does not fail,
    [affordable_instruments] holds one entry for each quote of [ltp_data]
    priced at or below the available margin, and nothing else: each entry
    carries the token and the price of its quote and, as its stock name,
    the part of the quote's key after the first colon. *)
Theorem affordable_instruments_are_the_affordable_quotes
    items pm margin affordable :
  available_margin pm = Fine margin ->
  affordable_instruments (Some items) pm = Fine affordable ->
  (forall cand, cand ∈ affordable ->
     exists key value,
       (key, value) ∈ items /\
       (ltp_last_price value <= margin)%Q /\
       cand_instrument_key cand = ltp_instrument_token value /\
       cand_last_price cand = ltp_last_price value /\
       stock_name_of key = Fine (cand_stock_name cand)) /\
  (forall key value,
     (key, value) ∈ items ->
     (ltp_last_price value <= margin)%Q ->
     exists cand,
       cand ∈ affordable /\
       cand_instrument_key cand = ltp_instrument_token value /\
       cand_last_price cand = ltp_last_price value /\
       stock_name_of key = Fine (cand_stock_name cand)) /\
  length affordable = length (List.filter (affordable_quote margin) items).
Proof.
  intros Hm. unfold affordable_instruments.
  pose proof (collect_affordable_spec items pm margin Hm) as Hspec.
  destruct (collect_affordable items pm) as [l|e]; [|discriminate].
  intros [= <-].
  destruct (Forall2_members _ _ _ Hspec) as (Hsound & Hcomplete & Hlen).
  repeat apply conj.
  - intros cand Hin. rewrite sorted_by_price_desc_perm in Hin.
    destruct (Hsound cand Hin) as ([key value] & Hitem & Hk & Hp & Hn).
    apply list_elem_of_In, List.filter_In in Hitem.
    destruct Hitem as [Hitem Ha].
    exists key, value. repeat split; try assumption.
    + apply list_elem_of_In, Hitem.
    + apply affordable_quote_iff in Ha. exact Ha.
  - intros key value Hin Hle.
    destruct (Hcomplete (key, value)) as (cand & Hc & Hk & Hp & Hn).
    { apply list_elem_of_In, List.filter_In.
      split; [apply list_elem_of_In, Hin|].
      apply affordable_quote_iff. exact Hle. }
    exists cand. rewrite sorted_by_price_desc_perm. auto.
  - rewrite sorted_by_price_desc_perm. exact Hlen.
Qed.

(** Four of the five sample quotes are within a margin of 50000. *)
Lemma affordable_instruments_are_the_affordable_quotes_witness :
  length
    (match affordable_instruments (Some sample_ltp) (Some Samples.margin) with
     | Fine l => l
     | Fails _ => []
     end)
  = 4%nat.
Proof.
  apply (affordable_instruments_are_the_affordable_quotes
           sample_ltp (Some Samples.margin) 50000%Q).
  - reflexivity.
  - reflexivity.
Defined.

(** X20. The affordable instruments are handed on in descending order
    of price, and the sort only reorders them: entries of the same price
    stay in the order in which [ltp_data] listed them. *)
Theorem affordable_instruments_sorted items pm affordable :
  affordable_instruments (Some items) pm = Fine affordable ->
  exists collected,
    collect_affordable items pm = Fine collected /\
    affordable ≡ₚ collected /\
    descending affordable /\
    forall p, priced_at p affordable = priced_at p collected.
Proof.
  unfold affordable_instruments.
  destruct (collect_affordable items pm) as [l|e]; [|discriminate].
  intros [= <-]. exists l. repeat apply conj.
  - reflexivity.
  - apply sorted_by_price_desc_perm.
  - apply sorted_by_price_desc_descending.
  - intros p. apply priced_at_sorted.
Qed.

(** TCS and INFY are both at 3100: TCS, listed first, stays first. *)
Lemma affordable_instruments_sorted_witness :
  exists collected,
    collect_affordable sample_ltp (Some Samples.margin) = Fine collected /\
    (match affordable_instruments (Some sample_ltp) (Some Samples.margin) with
     | Fine l => l
     | Fails _ => []
     end) ≡ₚ collected /\
    descending
      (match affordable_instruments (Some sample_ltp) (Some Samples.margin) with
       | Fine l => l
       | Fails _ => []
       end) /\
    forall p,
      priced_at p
        (match affordable_instruments (Some sample_ltp) (Some Samples.margin) with
         | Fine l => l
         | Fails _ => []
         end)
      = priced_at p collected.
Proof.
  apply (affordable_instruments_sorted sample_ltp (Some Samples.margin)).
  reflexivity.
Defined.

Lemma descending_app l1 l2 :
  descending (l1 ++ l2) ->
  forall x y, x ∈ l1 -> y ∈ l2 -> (cand_last_price y <= cand_last_price x)%Q.
Proof.
  induction l1 as [|a l1 IH]; simpl.
  - intros _ x y Hx. apply elem_of_nil in Hx. destruct Hx.
  - intros [Ha Hrest] x y Hx Hy. apply elem_of_cons in Hx.
    destruct Hx as [->|Hx].
    + rewrite Forall_forall in Ha. apply Ha. apply elem_of_app. auto.
    + apply IH; assumption.
Qed.

Lemma affordable_instruments_descending ltp_data pm affordable :
  affordable_instruments ltp_data pm = Fine affordable ->
  descending affordable.
Proof.
  unfold affordable_instruments. destruct ltp_data as [items|]; [|discriminate].
  destruct (collect_affordable items pm) as [l|e]; [|discriminate].
  intros [= <-]. apply sorted_by_price_desc_descending.
Qed.

(** X21. With random selection off and a count that is not negative,
    the stocks compared are the first [count] affordable instruments in
    descending order of price: there are [min count (number affordable)]
    of them, and no affordable instrument left out is dearer than one that
    is compared. *)
Theorem ranked_selection_takes_the_dearest
    count sample ltp_data pm affordable compared :
  0 <= count ->
  affordable_instruments ltp_data pm = Fine affordable ->
  candidates false count sample ltp_data pm = Fine compared ->
  compared = take (Z.to_nat count) affordable /\
  length compared = Nat.min (Z.to_nat count) (length affordable) /\
  forall x y,
    x ∈ compared -> y ∈ drop (Z.to_nat count) affordable ->
    (cand_last_price y <= cand_last_price x)%Q.
Proof.
  intros Hcount Haff. unfold candidates. rewrite Haff.
  unfold stocks_to_compare, slice_to.
  destruct (Z.leb_spec 0 count); [|lia].
  intros [= <-]. repeat apply conj.
  - reflexivity.
  - apply length_take.
  - apply descending_app. rewrite take_drop.
    eapply affordable_instruments_descending, Haff.
Qed.

(** With a count of 2, TCS and INFY are compared; RELIANCE, which is
    left out, is not dearer than TCS. *)
Lemma ranked_selection_takes_the_dearest_witness :
  candidates false 2 (fun l _ => l) (Some sample_ltp) (Some Samples.margin)
  = Fine [ {| cand_instrument_key := "NSE_EQ|INE467B01029";
              cand_last_price := 3100; cand_stock_name := "TCS" |};
           {| cand_instrument_key := "NSE_EQ|INE009A01021";
              cand_last_price := 3100; cand_stock_name := "INFY" |} ] /\
  (cand_last_price
     {| cand_instrument_key := "NSE_EQ|INE002A01018";
        cand_last_price := 953.5; cand_stock_name := "RELIANCE" |}
   <= cand_last_price
        {| cand_instrument_key := "NSE_EQ|INE467B01029";
           cand_last_price := 3100; cand_stock_name := "TCS" |})%Q.
Proof.
  split; [reflexivity|].
  apply (ranked_selection_takes_the_dearest 2 (fun l _ => l)
           (Some sample_ltp) (Some Samples.margin)
           [ {| cand_instrument_key := "NSE_EQ|INE467B01029";
                cand_last_price := 3100; cand_stock_name := "TCS" |};
             {| cand_instrument_key := "NSE_EQ|INE009A01021";
                cand_last_price := 3100; cand_stock_name := "INFY" |};
             {| cand_instrument_key := "NSE_EQ|INE002A01018";
                cand_last_price := 953.5; cand_stock_name := "RELIANCE" |};
             {| cand_instrument_key := "NSE_EQ|INE669E01016";
                cand_last_price := 9.5; cand_stock_name := "IDEA" |} ]
           [ {| cand_instrument_key := "NSE_EQ|INE467B01029";
                cand_last_price := 3100; cand_stock_name := "TCS" |};
             {| cand_instrument_key := "NSE_EQ|INE009A01021";
                cand_last_price := 3100; cand_stock_name := "INFY" |} ]).
  - lia.
  - reflexivity.
  - reflexivity.
  - apply elem_of_cons. left. reflexivity.
  - simpl. apply elem_of_cons. left. reflexivity.
Defined.

Lemma split_colon_pieces (s : string) :
  match split_colon s with
  | [] => False
  | [_] => has_colon s = false
  | _ :: _ :: _ => has_colon s = true
  end.
Proof.
  induction s as [|ch rest IH]; simpl; [reflexivity|].
  destruct (Ascii.eqb ch _); simpl.
  - destruct (split_colon rest); [destruct IH | reflexivity].
  - destruct (split_colon rest) as [|p [|q ps]]; [destruct IH | exact IH..].
Qed.

Lemma stock_name_of_fails (key : string) :
  (exists e, stock_name_of key = Fails e) <-> has_colon key = false.
Proof.
  unfold stock_name_of. pose proof (split_colon_pieces key) as H.
  destruct (split_colon key) as [|p [|q ps]]; [destruct H | |].
  - split; [intros _; exact H | intros _; eauto].
  - split; [intros [e [=]] | congruence].
Qed.

(** X22. How the collection of the affordable instruments fails. When
    the prices could not be fetched it raises [TypeError]; with no quote at
    all it returns the empty list without looking at the margin; with
    quotes and a margin that is missing or not a number it raises. And
    with a numeric margin it fails exactly when some quote within the
    margin has a key without a colon, by [IndexError]: a malformed key of a
    quote that is too dear is never looked at. *)
Theorem affordable_instruments_failures items pm :
  affordable_instruments None pm = Fails ETypeError /\
  affordable_instruments (Some []) pm = Fine [] /\
  (forall e, items <> [] -> available_margin pm = Fails e ->
     affordable_instruments (Some items) pm = Fails e) /\
  (forall margin e, available_margin pm = Fine margin ->
     (affordable_instruments (Some items) pm = Fails e <->
      e = EIndexError /\
      exists key value,
        (key, value) ∈ items /\
        (ltp_last_price value <= margin)%Q /\
        has_colon key = false)).
Proof.
  repeat apply conj; try reflexivity.
  - intros e Hne Hm. destruct items as [|[key value] items]; [congruence|].
    simpl. rewrite Hm. reflexivity.
  - intros margin e Hm. unfold affordable_instruments.
    pose proof (collect_affordable_spec items pm margin Hm) as Hspec.
    destruct (collect_affordable items pm) as [l|e0].
    + split; [discriminate|].
      intros (_ & key & value & Hin & Hle & Hcolon). exfalso.
      destruct (Forall2_members _ _ _ Hspec) as (_ & Hcomplete & _).
      destruct (Hcomplete (key, value)) as (cand & _ & _ & _ & Hn).
      { apply list_elem_of_In, List.filter_In.
        split; [apply list_elem_of_In, Hin|].
        apply affordable_quote_iff. exact Hle. }
      simpl in Hn.
      apply stock_name_of_fails in Hcolon. destruct Hcolon as [e' He'].
      congruence.
    + destruct Hspec as [-> ([key value] & Hin & Ha & Hn)]. split.
      * intros [= <-]. split; [reflexivity|].
        exists key, value. repeat split; [assumption| |].
        -- apply affordable_quote_iff in Ha. exact Ha.
        -- apply stock_name_of_fails. eauto.
      * intros [-> _]. reflexivity.
Qed.

(** A quote keyed "RELIANCE" within the margin fails the pick; the same
    key on a quote above the margin does not. *)
Lemma affordable_instruments_failures_witness :
  affordable_instruments
    (Some [("RELIANCE",
            {| ltp_instrument_token := "NSE_EQ|INE002A01018";
               ltp_last_price := 953.5 |})])
    (Some Samples.margin) = Fails EIndexError /\
  affordable_instruments
    (Some [("RELIANCE",
            {| ltp_instrument_token := "NSE_EQ|INE002A01018";
               ltp_last_price := 95350 |})])
    (Some Samples.margin) = Fine [] /\
  affordable_instruments (Some sample_ltp) None = Fails ETypeError.
Proof.
  repeat apply conj.
  - apply (proj2 (proj2 (proj2 (affordable_instruments_failures
             [("RELIANCE",
               {| ltp_instrument_token := "NSE_EQ|INE002A01018";
                  ltp_last_price := 953.5 |})]
             (Some Samples.margin))))
             50000%Q EIndexError eq_refl).
    split; [reflexivity|].
    exists "RELIANCE",
      {| ltp_instrument_token := "NSE_EQ|INE002A01018";
         ltp_last_price := 953.5 |}.
    repeat split.
    + apply elem_of_cons. left. reflexivity.
    + vm_compute. discriminate.
  - reflexivity.
  - apply (proj1 (proj2 (proj2 (affordable_instruments_failures
             sample_ltp None))) ETypeError).
    + discriminate.
    + reflexivity.
Defined.

(** X23. Whichever way the comparison set is chosen, by rank or by a
    random draw that returns members of the population, every stock that
    is compared is priced at or below the available margin; and the random
    draw is refused with [ValueError] exactly when the configured count is
    negative. *)
Theorem candidates_are_affordable
    random_select count sample ltp_data pm margin :
  (forall population k x, x ∈ sample population k -> x ∈ population) ->
  available_margin pm = Fine margin ->
  (forall compared,
     candidates random_select count sample ltp_data pm = Fine compared ->
     forall cand, cand ∈ compared -> (cand_last_price cand <= margin)%Q) /\
  (forall affordable,
     affordable_instruments ltp_data pm = Fine affordable ->
     (candidates true count sample ltp_data pm = Fails EValueError
      <-> count < 0)).
Proof.
  intros Hsample Hm. split.
  - intros compared. unfold candidates.
    destruct (affordable_instruments ltp_data pm) as [affordable|e] eqn:Ea;
      [|discriminate].
    assert (Haff : forall cand, cand ∈ affordable ->
                                (cand_last_price cand <= margin)%Q).
    { destruct ltp_data as [items|]; [|discriminate].
      intros cand Hin. revert Ea. unfold affordable_instruments.
      pose proof (collect_affordable_spec items pm margin Hm) as Hspec.
      destruct (collect_affordable items pm) as [l|e]; [|discriminate].
      intros [= <-]. rewrite sorted_by_price_desc_perm in Hin.
      destruct (Forall2_members _ _ _ Hspec) as (Hsound & _).
      destruct (Hsound cand Hin) as (item & Hitem & _ & Hp & _).
      apply list_elem_of_In, List.filter_In in Hitem.
      destruct Hitem as [_ Ha]. apply affordable_quote_iff in Ha.
      rewrite Hp. exact Ha. }
    unfold stocks_to_compare, slice_to.
    destruct random_select.
    + destruct (Z.min count _ <? 0)%Z; [discriminate|].
      intros [= <-] cand Hin. apply Haff. eapply Hsample, Hin.
    + destruct (0 <=? count)%Z; intros [= <-] cand Hin; apply Haff;
        eapply subseteq_take, Hin.
  - intros affordable Ha. unfold candidates. rewrite Ha.
    unfold stocks_to_compare.
    destruct (Z.ltb_spec (Z.min count (Z.of_nat (length affordable))) 0).
    + split; [lia | reflexivity].
    + split; [discriminate | lia].
Qed.

(** A draw of the two cheapest affordable stocks: both are within the
    margin of 50000. *)
Lemma candidates_are_affordable_witness :
  candidates true 2 (fun population k => take k (reverse population))
    (Some sample_ltp) (Some Samples.margin)
  = Fine [ {| cand_instrument_key := "NSE_EQ|INE669E01016";
              cand_last_price := 9.5; cand_stock_name := "IDEA" |};
           {| cand_instrument_key := "NSE_EQ|INE002A01018";
              cand_last_price := 953.5; cand_stock_name := "RELIANCE" |} ] /\
  Forall (fun cand => (cand_last_price cand <= 50000)%Q)
    [ {| cand_instrument_key := "NSE_EQ|INE669E01016";
         cand_last_price := 9.5; cand_stock_name := "IDEA" |};
      {| cand_instrument_key := "NSE_EQ|INE002A01018";
         cand_last_price := 953.5; cand_stock_name := "RELIANCE" |} ].
Proof.
  assert (Hdraw : forall (population : list Candidate) (k : nat) x,
             x ∈ take k (reverse population) -> x ∈ population).
  { intros population k x Hin. apply elem_of_reverse.
    eapply subseteq_take, Hin. }
  split; [reflexivity|].
  apply Forall_forall.
  apply (proj1 (candidates_are_affordable true 2
                  (fun population k => take k (reverse population))
                  (Some sample_ltp) (Some Samples.margin) 50000%Q
                  Hdraw eq_refl)
           [ {| cand_instrument_key := "NSE_EQ|INE669E01016";
                cand_last_price := 9.5; cand_stock_name := "IDEA" |};
             {| cand_instrument_key := "NSE_EQ|INE002A01018";
                cand_last_price := 953.5; cand_stock_name := "RELIANCE" |} ]).
  reflexivity.
Defined.

(** *** The picks of the oracle *)

Lemma instrument_of_pick_spec stock :
  match first_missing stock pick_fields with
  | Some key => instrument_of_pick stock = Raise (KeyError key)
  | None =>
      exists instrument,
        instrument_of_pick stock = Ok instrument /\
        instrument !! "instrument_key" = stock !! "instrument_key" /\
        instrument !! "trading_symbol" = stock !! "stock_name" /\
        instrument !! "name" = stock !! "stock_name" /\
        instrument !! "last_price" = stock !! "last_price" /\
        instrument !! "confidence_score" = stock !! "confidence_score" /\
        instrument !! "thought" = stock !! "thought"
  end.
Proof.
  unfold instrument_of_pick, pick_item, pick_fields, first_missing.
  destruct (stock !! "instrument_key") as [v1|]; [|reflexivity].
  destruct (stock !! "stock_name") as [v2|]; [|reflexivity].
  destruct (stock !! "last_price") as [v3|]; [|reflexivity].
  destruct (stock !! "confidence_score") as [v4|]; [|reflexivity].
  destruct (stock !! "thought") as [v5|]; [|reflexivity].
  eexists. split; [reflexivity|]. repeat split; reflexivity.
Qed.

(** X26. The picks of the oracle become instruments all together or
    not at all. With no answer from the oracle the method raises
    [TypeError]. Otherwise, if some pick lacks one of 'instrument_key',
    'stock_name', 'last_price', 'confidence_score', 'thought', the method
    raises [KeyError] for the first missing field of the first such pick,
    even when the picks before it were complete; and if none does, it
    returns one instrument per pick, in order, whose trading symbol and
    name are both the pick's stock name. *)
Theorem instrument_to_trades_spec picks :
  instrument_to_trades None = Raise TypeError /\
  (forall complete stock rest key,
     picks = (complete ++ stock :: rest)%list ->
     Forall (fun s => first_missing s pick_fields = None) complete ->
     first_missing stock pick_fields = Some key ->
     instrument_to_trades (Some picks) = Raise (KeyError key)) /\
  (Forall (fun s => first_missing s pick_fields = None) picks ->
   exists instruments,
     instrument_to_trades (Some picks) = Ok instruments /\
     Forall2
       (fun stock instrument =>
          instrument !! "instrument_key" = stock !! "instrument_key" /\
          instrument !! "trading_symbol" = stock !! "stock_name" /\
          instrument !! "name" = stock !! "stock_name" /\
          instrument !! "last_price" = stock !! "last_price" /\
          instrument !! "confidence_score" = stock !! "confidence_score" /\
          instrument !! "thought" = stock !! "thought")
       picks instruments).
Proof.
  repeat apply conj; [reflexivity| |].
  - intros complete stock rest key -> Hcomplete Hmissing. simpl.
    induction Hcomplete as [|s complete Hs _ IH]; simpl.
    + pose proof (instrument_of_pick_spec stock) as H.
      rewrite Hmissing in H. rewrite H. reflexivity.
    + pose proof (instrument_of_pick_spec s) as H. rewrite Hs in H.
      destruct H as (instrument & -> & _). rewrite IH. reflexivity.
  - intros Hall. simpl. induction Hall as [|s picks Hs _ IH]; simpl.
    + exists []. split; [reflexivity | constructor].
    + pose proof (instrument_of_pick_spec s) as H. rewrite Hs in H.
      destruct H as (instrument & -> & Hfields).
      destruct IH as (instruments & -> & Hrest).
      exists (instrument :: instruments). split; [reflexivity|].
      constructor; assumption.
Qed.

(** A complete pick followed by one without a price: nothing is
    returned. *)
Lemma instrument_to_trades_spec_witness :
  instrument_to_trades
    (Some [ list_to_map
              [("instrument_key", PyStr "NSE_EQ|INE467B01029");
               ("stock_name", PyStr "TCS"); ("last_price", PyNum 3100);
               ("confidence_score", PyNum 0.8);
               ("thought", PyStr "breakout")];
            list_to_map
              [("instrument_key", PyStr "NSE_EQ|INE009A01021");
               ("stock_name", PyStr "INFY");
               ("confidence_score", PyNum 0.7);
               ("thought", PyStr "momentum")] ])
  = Raise (KeyError "last_price").
Proof.
  apply (proj1 (proj2 (instrument_to_trades_spec _))
           [ list_to_map
               [("instrument_key", PyStr "NSE_EQ|INE467B01029");
                ("stock_name", PyStr "TCS"); ("last_price", PyNum 3100);
                ("confidence_score", PyNum 0.8);
                ("thought", PyStr "breakout")] ]
           (list_to_map
              [("instrument_key", PyStr "NSE_EQ|INE009A01021");
               ("stock_name", PyStr "INFY");
               ("confidence_score", PyNum 0.7);
               ("thought", PyStr "momentum")])
           []).
  - reflexivity.
  - constructor; [reflexivity | constructor].
  - reflexivity.
Defined.

End AutoPickSpec.

(** ** The cost of an answer *)

Module GeminiCostSpec.
Import GeminiCost PyFacts.

Lemma pricing_rates_nonneg base :
  (0 <= rate LLM_PRICING base "input")%Q /\
  (0 <= rate LLM_PRICING base "output")%Q.
Proof.
  destruct base as [b|]; [|split; apply Qle_refl].
  unfold rate, LLM_PRICING, pricing_get.
  repeat (destruct (String.eqb _ b);
          [split; vm_compute; discriminate|]).
  split; apply Qle_refl.
Qed.

Lemma per_million_nonneg (tokens r : Q) :
  (0 <= tokens)%Q -> (0 <= r)%Q -> (0 <= tokens / 1000000 * r)%Q.
Proof.
  intros Ht Hr. apply Qmult_le_0_compat; [|assumption].
  apply Qle_shift_div_l; [reflexivity|]. rewrite Qmult_0_l. assumption.
Qed.

Lemma billable_prompt_nonneg (x : Q) :
  (0 <= (if Qlt_bool x 0 then 0 else x))%Q.
Proof.
  destruct (Qlt_bool x 0) eqn:E; [apply Qle_refl|].
  apply Qlt_bool_false_iff in E. exact E.
Qed.

(** X27. The cost computed for an answer is never negative, whatever
    the model name and the usage reported, provided the completion count
    is not negative: cached tokens in excess of the prompt are not
    credited. The cost in rupees is the cost in dollars times 84, the rate
    of the price table. *)
Theorem cost_is_never_negative model usage cost :
  calculate_cost model usage = Some cost ->
  0 <= cost_completion_tokens cost ->
  (0 <= cost_usd cost)%Q /\
  (0 <= cost_inr cost)%Q /\
  (cost_inr cost == cost_usd cost * 84)%Q.
Proof.
  unfold calculate_cost, calculate_cost_with.
  change (pricing_get LLM_PRICING "usd_to_inr")
    with (Some (list_to_map [("usd", 1.0%Q); ("inr", 84.0%Q)]
                : gmap string Q)).
  change ((list_to_map [("usd", 1.0%Q); ("inr", 84.0%Q)] : gmap string Q)
            !! "inr") with (Some 84.0%Q).
  cbv beta iota zeta.
  destruct (prompt_token_count usage) as [prompt|]; [|discriminate].
  destruct (candidates_token_count usage) as [completion|]; [|discriminate].
  destruct (match cached_content_token_count usage with
            | Some cached => cached
            | None => Some 0
            end) as [cached|]; [|discriminate].
  intros [= <-]. simpl. intros Hc.
  destruct (pricing_rates_nonneg (model_base LLM_PRICING model)) as [Hi Ho].
  assert (Husd : (0 <= (if Qlt_bool (inject_Z (prompt - cached)) 0
                        then 0 else inject_Z (prompt - cached))
                       / 1000000 * rate LLM_PRICING
                                     (model_base LLM_PRICING model) "input"
                       + inject_Z completion / 1000000
                         * rate LLM_PRICING
                             (model_base LLM_PRICING model) "output")%Q).
  { rewrite <- (Qplus_0_l 0) at 1. apply Qplus_le_compat.
    - apply per_million_nonneg; [apply billable_prompt_nonneg | exact Hi].
    - apply per_million_nonneg; [|exact Ho].
      change 0%Q with (inject_Z 0). rewrite <- Zle_Qle. exact Hc. }
  repeat apply conj.
  - exact Husd.
  - apply Qmult_le_0_compat; [exact Husd|]. vm_compute. discriminate.
  - apply Qmult_comp; reflexivity.
Qed.

(** 10000 billable prompt tokens and 800 completion tokens on
    gemini-2.5-flash: half a cent, 42 paise. *)
Lemma cost_is_never_negative_witness :
  calculate_cost "gemini-2.5-flash" sample_usage
  = Some {| cost_model := "gemini-2.5-flash";
            cost_prompt_tokens := 12000;
            cost_cached_tokens := 2000;
            cost_completion_tokens := 800;
            cost_usd := (10000 / 1000000 * 0.30 + 800 / 1000000 * 2.5)%Q;
            cost_inr := ((10000 / 1000000 * 0.30 + 800 / 1000000 * 2.5)
                         * 84.0)%Q |} /\
  (0 <= 10000 / 1000000 * 0.30 + 800 / 1000000 * 2.5)%Q.
Proof.
  split; [reflexivity|].
  apply (cost_is_never_negative "gemini-2.5-flash" sample_usage
           {| cost_model := "gemini-2.5-flash";
              cost_prompt_tokens := 12000;
              cost_cached_tokens := 2000;
              cost_completion_tokens := 800;
              cost_usd := (10000 / 1000000 * 0.30 + 800 / 1000000 * 2.5)%Q;
              cost_inr := ((10000 / 1000000 * 0.30 + 800 / 1000000 * 2.5)
                           * 84.0)%Q |}).
  - reflexivity.
  - simpl. lia.
Defined.

Lemma find_none_of {A} (f : A -> bool) (l : list A) :
  (forall x, x ∈ l -> f x = false) -> List.find f l = None.
Proof.
  induction l as [|x l IH]; intros Hall; simpl; [reflexivity|].
  rewrite (Hall x) by (apply elem_of_cons; auto).
  apply IH. intros y Hy. apply Hall. apply elem_of_cons. auto.
Qed.

Lemma prefix_refl (s : string) : String.prefix s s = true.
Proof.
  induction s as [|ch s IH]; simpl; [reflexivity|].
  destruct (Ascii.ascii_dec ch ch); [exact IH | congruence].
Qed.

Lemma is_substring_refl (s : string) : is_substring s s = true.
Proof.
  destruct s as [|ch s]; [reflexivity|].
  change (is_substring (String ch s) (String ch s))
    with (String.prefix (String ch s) (String ch s)
          || is_substring (String ch s) s).
  rewrite prefix_refl. reflexivity.
Qed.

Lemma model_base_none pricing model :
  (forall key, key ∈ map fst pricing -> is_substring key model = false) ->
  model_base pricing model = None.
Proof.
  intros Hnone. unfold model_base.
  assert (Hexact : List.find (fun m => String.eqb model m) (map fst pricing)
                   = None).
  { apply find_none_of. intros m Hin.
    destruct (String.eqb_spec model m) as [<-|]; [|reflexivity].
    rewrite <- (Hnone model Hin). symmetry. apply is_substring_refl. }
  rewrite Hexact. rewrite (find_none_of _ _ Hnone). reflexivity.
Qed.

(** X28. A model that the price table does not know costs nothing:
    when no key of the table equals the model name or occurs in it, both
    rates default to 0 and the cost reported is 0 dollars and 0 rupees,
    however many tokens were used. *)
Theorem unknown_model_costs_nothing pricing model usage usd_to_inr cost :
  (forall key, key ∈ map fst pricing -> is_substring key model = false) ->
  calculate_cost_with pricing model usage usd_to_inr = Some cost ->
  (cost_usd cost == 0)%Q /\ (cost_inr cost == 0)%Q.
Proof.
  intros Hnone. unfold calculate_cost_with.
  rewrite (model_base_none _ _ Hnone). unfold rate.
  destruct (match _ with Some r => Some r | None => _ end) as [r|];
    [|discriminate].
  destruct (prompt_token_count usage) as [prompt|]; [|discriminate].
  destruct (candidates_token_count usage) as [completion|]; [|discriminate].
  destruct (match cached_content_token_count usage with
            | Some cached => cached
            | None => Some 0
            end) as [cached|]; [|discriminate].
  intros [= <-]. simpl.
  assert (Hz : ((if Qlt_bool (inject_Z (prompt - cached)) 0
                 then 0 else inject_Z (prompt - cached)) / 1000000 * 0
                + inject_Z completion / 1000000 * 0 == 0)%Q) by ring.
  split; [exact Hz | rewrite Hz; ring].
Qed.

(** The model of the default configuration, gemini-2.5-pro, is not in
    the table: its answers are reported to cost nothing. *)
Lemma unknown_model_costs_nothing_witness :
  exists cost,
    calculate_cost "gemini-2.5-pro" sample_usage = Some cost /\
    (cost_usd cost == 0)%Q /\ (cost_inr cost == 0)%Q.
Proof.
  eexists. split; [reflexivity|].
  apply (unknown_model_costs_nothing LLM_PRICING "gemini-2.5-pro"
           sample_usage None); [|reflexivity].
  intros key Hin. simpl in Hin.
  repeat (apply elem_of_cons in Hin; destruct Hin as [->|Hin];
          [reflexivity|]).
  apply elem_of_nil in Hin. destruct Hin.
Defined.

Lemma usd_to_inr_rate :
  match pricing_get LLM_PRICING "usd_to_inr" with
  | Some rates => rates !! "inr"
  | None => None
  end = Some 84.0%Q.
Proof. reflexivity. Qed.

(** X29. [calculate_cost] with the price table of [config.py] gives up
    and returns the empty dict exactly when the usage lacks the prompt
    count or the completion count, or carries a cached count that is
    [None]; in every other case it returns a cost that echoes the model
    name and the three counts. *)
Theorem calculate_cost_fails_iff model usage :
  (calculate_cost model usage = None <->
   prompt_token_count usage = None \/
   candidates_token_count usage = None \/
   cached_content_token_count usage = Some None) /\
  (forall cost, calculate_cost model usage = Some cost ->
     cost_model cost = model /\
     prompt_token_count usage = Some (cost_prompt_tokens cost) /\
     candidates_token_count usage = Some (cost_completion_tokens cost) /\
     (cached_content_token_count usage = Some (Some (cost_cached_tokens cost))
      \/ (cached_content_token_count usage = None /\
          cost_cached_tokens cost = 0))).
Proof.
  unfold calculate_cost, calculate_cost_with. cbv zeta.
  rewrite usd_to_inr_rate.
  destruct (prompt_token_count usage) as [prompt|];
    destruct (candidates_token_count usage) as [completion|];
    destruct (cached_content_token_count usage) as [[cached|]|];
    cbn -[Qlt_bool Qdiv Qmult Qplus rate model_base];
    (split;
     [split;
      [intros H; first [discriminate H | clear H; auto 6]
      |intros [H|[H|H]]; first [discriminate H | reflexivity]]
     |intros cost H;
      first [discriminate H | injection H as <-; simpl; auto 6]]).
Qed.

End GeminiCostSpec.
